(** * tarot-game: a shallow embedding of [main.py]

    The program is a linear script: it reads a deck and four prompt
    templates, asks two questions on the console, calls a text-generation
    service five times, draws three cards at random and writes two files.

    Python values are embedded as the inductive [value]; text is a
    [string] holding the UTF-8 bytes of a Python [str].  Everything the
    script does to the outside (console, files, service, randomness,
    clock) goes through an explicit [World] threaded by the monad [M]. *)

From Stdlib Require Import String Ascii ZArith NArith List Lia Bool.
From Stdlib Require Import DecimalString DecimalZ DecimalPos DecimalFacts.
From stdpp Require Import base option list gmap strings.

(** ** Characters *)

Definition LF : ascii := "010"%char.
Definition CR : ascii := "013"%char.
Definition TAB : ascii := "009"%char.
Definition BS : ascii := "008"%char.
Definition FF : ascii := "012"%char.
Definition DQ : ascii := "034"%char.
Definition BSL : ascii := "092"%char.

Definition is_digit (c : ascii) : bool :=
  (48 <=? N_of_ascii c)%N && (N_of_ascii c <=? 57)%N.

Definition digit_val (c : ascii) : N := (N_of_ascii c - 48)%N.

(** ** Python values

    The values the script handles are exactly the ones [json.loads]
    builds: [None], booleans, integers, strings, lists and dicts with
    string keys.  A dict keeps its insertion order, so it is an
    association list; its keys are pairwise distinct ([wf_value]).
    Floating-point numbers are left out of the embedding. *)

#[warnings="-register-all"]
Inductive value : Type :=
| VNone
| VBool (b : bool)
| VInt (n : Z)
| VStr (s : string)
| VList (items : list value)
| VDict (members : list (string * value)).

Fixpoint dict_get (k : string) (d : list (string * value)) : option value :=
  match d with
  | [] => None
  | (k', v) :: d' => if String.eqb k k' then Some v else dict_get k d'
  end.

(** [d[k] = v]: an existing key keeps its place, a new one goes last. *)
Fixpoint dict_set (k : string) (v : value) (d : list (string * value))
  : list (string * value) :=
  match d with
  | [] => [(k, v)]
  | (k', v') :: d' =>
      if String.eqb k k' then (k, v) :: d' else (k', v') :: dict_set k v d'
  end.

(** [dict(pairs)] *)
Definition dict_of_pairs (pairs : list (string * value)) : list (string * value) :=
  fold_left (fun d kv => dict_set (fst kv) (snd kv) d) pairs [].

Definition keys (d : list (string * value)) : list string := map fst d.

Fixpoint wf_value (v : value) : Prop :=
  match v with
  | VList items =>
      (fix all (l : list value) : Prop :=
         match l with [] => True | x :: l' => wf_value x /\ all l' end) items
  | VDict members =>
      NoDup (keys members) /\
      (fix all (l : list (string * value)) : Prop :=
         match l with [] => True | kv :: l' => wf_value (snd kv) /\ all l' end) members
  | _ => True
  end.

(** ** Exceptions and outcomes *)

Inductive exn : Type :=
| KeyError (k : value)
| IndexError
| TypeError
| AttributeError
| ValueError
| JSONDecodeError
| EOFError
| FileNotFoundError (path : string)
| FileExistsError (path : string)
| ImportError
| ServiceError.

(** [Beyond] marks an input on which the embedding makes no statement
    (a floating-point literal, a lone surrogate escape, a format
    specification); it is neither a return nor a Python exception. *)
Inductive outcome (A : Type) : Type :=
| Returns (a : A)
| Raises (e : exn)
| Beyond.
Arguments Returns {A} a.
Arguments Raises {A} e.
Arguments Beyond {A}.

Definition obind {A B} (o : outcome A) (k : A -> outcome B) : outcome B :=
  match o with
  | Returns a => k a
  | Raises e => Raises e
  | Beyond => Beyond
  end.

#[global] Instance outcome_ret : MRet outcome := @Returns.
#[global] Instance outcome_bind : MBind outcome := fun A B k o => obind o k.

(** ** [json.dumps(v, ensure_ascii=False, indent=2)] *)

Definition hex_digit (n : N) : ascii :=
  ascii_of_N (if (n <? 10)%N then 48 + n else 87 + n)%N.

(** One character of [encode_basestring]: the table [ESCAPE_DCT]. *)
Definition escape_char (c : ascii) : string :=
  if Ascii.eqb c DQ then String BSL (String DQ "")
  else if Ascii.eqb c BSL then String BSL (String BSL "")
  else if Ascii.eqb c LF then String BSL "n"
  else if Ascii.eqb c CR then String BSL "r"
  else if Ascii.eqb c TAB then String BSL "t"
  else if Ascii.eqb c BS then String BSL "b"
  else if Ascii.eqb c FF then String BSL "f"
  else if (N_of_ascii c <? 32)%N then
    String BSL (String "u" (String "0" (String "0"
      (String (hex_digit (N_of_ascii c / 16)) (String (hex_digit (N_of_ascii c mod 16)) "")))))
  else String c "".

Fixpoint escape (s : string) : string :=
  match s with
  | EmptyString => ""
  | String c r => escape_char c +:+ escape r
  end.

Definition encode_basestring (s : string) : string :=
  String DQ (escape s +:+ String DQ "").

(** [int.__repr__] *)
Definition repr_int (n : Z) : string := NilZero.string_of_int (Z.to_int n).

Fixpoint spaces (n : nat) : string :=
  match n with O => "" | S n' => String " " (spaces n') end.

(** ['\n' + indent * level] with [indent = 2] *)
Definition newline_indent (level : nat) : string :=
  String LF (spaces (2 * level)).

Fixpoint join_with (sep : string) (parts : list string) : string :=
  match parts with
  | [] => ""
  | [p] => p
  | p :: ps => p +:+ sep +:+ join_with sep ps
  end.

(** The layout shared by [_iterencode_list] and [_iterencode_dict]:
    an empty container on one line, otherwise one item per line, one
    level deeper, separated by [','] (the item separator under
    [indent]). *)
Definition bracket (opening closing : string) (level : nat) (parts : list string)
  : string :=
  match parts with
  | [] => opening +:+ closing
  | _ =>
      opening +:+ newline_indent (S level) +:+
      join_with ("," +:+ newline_indent (S level)) parts +:+
      newline_indent level +:+ closing
  end.

Fixpoint iterencode (level : nat) (v : value) : string :=
  match v with
  | VNone => "null"
  | VBool true => "true"
  | VBool false => "false"
  | VInt n => repr_int n
  | VStr s => encode_basestring s
  | VList items => bracket "[" "]" level (map (iterencode (S level)) items)
  | VDict members =>
      bracket "{" "}" level
        (map (fun '(k, x) => encode_basestring k +:+ ": " +:+ iterencode (S level) x)
             members)
  end.

Definition dumps (v : value) : string := iterencode 0 v.

(** ** [json.loads]

    The decoder of the [json] module, for the literals of the embedding.
    A number with a fraction or an exponent, [NaN] and [Infinity] are
    floating point, and a [\u] escape in the surrogate range has no UTF-8
    form: the answer on these is [Beyond].  Two limits of CPython are
    not part of the decoder: an integer literal of more than 4300
    digits, on which [int] raises [ValueError], and nesting deeper than
    the recursion limit; a statement that promises a result of the
    script assumes [within_limits] of what is parsed. *)

Definition is_ws (c : ascii) : bool :=
  Ascii.eqb c " " || Ascii.eqb c TAB || Ascii.eqb c LF || Ascii.eqb c CR.

Fixpoint skip_ws (s : string) : string :=
  match s with
  | String c r => if is_ws c then skip_ws r else s
  | EmptyString => s
  end.

Fixpoint strip_prefix (p s : string) : option string :=
  match p, s with
  | EmptyString, _ => Some s
  | String a p', String b s' => if Ascii.eqb a b then strip_prefix p' s' else None
  | String _ _, EmptyString => None
  end.

Definition hex_val (c : ascii) : option N :=
  let n := N_of_ascii c in
  if is_digit c then Some (n - 48)%N
  else if (97 <=? n)%N && (n <=? 102)%N then Some (n - 87)%N
  else if (65 <=? n)%N && (n <=? 70)%N then Some (n - 55)%N
  else None.

(** [chr(cp).encode('utf-8')] for a code point of the basic plane *)
Definition utf8 (cp : N) : string :=
  if (cp <? 128)%N then String (ascii_of_N cp) ""
  else if (cp <? 2048)%N then
    String (ascii_of_N (192 + cp / 64)) (String (ascii_of_N (128 + cp mod 64)) "")
  else
    String (ascii_of_N (224 + cp / 4096))
      (String (ascii_of_N (128 + (cp / 64) mod 64))
         (String (ascii_of_N (128 + cp mod 64)) "")).

(** The character a backslash escape stands for ([BACKSLASH]) *)
Definition unescape (e : ascii) : option ascii :=
  if Ascii.eqb e DQ then Some DQ
  else if Ascii.eqb e BSL then Some BSL
  else if Ascii.eqb e "/" then Some "/"%char
  else if Ascii.eqb e "b" then Some BS
  else if Ascii.eqb e "f" then Some FF
  else if Ascii.eqb e "n" then Some LF
  else if Ascii.eqb e "r" then Some CR
  else if Ascii.eqb e "t" then Some TAB
  else None.

(** [scanstring], entered after the opening quote: the decoded text and
    the input after the closing quote (strict mode). *)
Fixpoint scanstring (s : string) : outcome (string * string) :=
  match s with
  | EmptyString => Raises JSONDecodeError
  | String c r =>
      if Ascii.eqb c DQ then Returns (EmptyString, r)
      else if Ascii.eqb c BSL then
        match r with
        | EmptyString => Raises JSONDecodeError
        | String e r1 =>
            if Ascii.eqb e "u" then
              match r1 with
              | String h1 (String h2 (String h3 (String h4 r2))) =>
                  match hex_val h1, hex_val h2, hex_val h3, hex_val h4 with
                  | Some a, Some b, Some c', Some d =>
                      let cp := (((a * 16 + b) * 16 + c') * 16 + d)%N in
                      if (55296 <=? cp)%N && (cp <=? 57343)%N then Beyond
                      else
                        '(t, rest) ← scanstring r2;
                        Returns (utf8 cp +:+ t, rest)
                  | _, _, _, _ => Raises JSONDecodeError
                  end
              | _ => Raises JSONDecodeError
              end
            else
              match unescape e with
              | Some ch => '(t, rest) ← scanstring r1; Returns (String ch t, rest)
              | None => Raises JSONDecodeError
              end
        end
      else if (N_of_ascii c <? 32)%N then Raises JSONDecodeError
      else '(t, rest) ← scanstring r; Returns (String c t, rest)
  end.

(** The digits at the head of the input, as a decimal numeral *)
Fixpoint scan_digits (s : string) : Decimal.uint * string :=
  match s with
  | String c r =>
      if is_digit c then
        let '(d, rest) := scan_digits r in
        (match digit_val c with
         | 0 => Decimal.D0 d | 1 => Decimal.D1 d | 2 => Decimal.D2 d
         | 3 => Decimal.D3 d | 4 => Decimal.D4 d | 5 => Decimal.D5 d
         | 6 => Decimal.D6 d | 7 => Decimal.D7 d | 8 => Decimal.D8 d
         | _ => Decimal.D9 d
         end%N, rest)
      else (Decimal.Nil, s)
  | EmptyString => (Decimal.Nil, s)
  end.

(** The integer part of [NUMBER_RE]: a lone zero, or a digit from 1 to 9
    followed by any digits *)
Definition scan_intpart (s : string) : option (Decimal.uint * string) :=
  match s with
  | String c r =>
      if Ascii.eqb c "0" then Some (Decimal.D0 Decimal.Nil, r)
      else if is_digit c then Some (scan_digits s)
      else None
  | EmptyString => None
  end.

(** Does the input go on with a fraction (a dot and a digit) or an
    exponent ([e] or [E], an optional sign, a digit)? *)
Definition float_follows (s : string) : bool :=
  match s with
  | String c (String d r) =>
      (Ascii.eqb c "." && is_digit d)
      || ((Ascii.eqb c "e" || Ascii.eqb c "E")
          && (is_digit d
              || ((Ascii.eqb d "+" || Ascii.eqb d "-")
                  && match r with String d' _ => is_digit d' | EmptyString => false end)))
  | _ => false
  end.

(** [match_number] and the three float constants of [scan_once] *)
Definition scan_number (s : string) : outcome (value * string) :=
  let '(neg, body) :=
    match s with
    | String c r => if Ascii.eqb c "-" then (true, r) else (false, s)
    | EmptyString => (false, s)
    end in
  match scan_intpart body with
  | Some (d, rest) =>
      if float_follows rest then Beyond
      else
        let n := Z.of_uint d in
        Returns (VInt (if neg : bool then - n else n)%Z, rest)
  | None =>
      if String.prefix "NaN" s || String.prefix "Infinity" s || String.prefix "-Infinity" s
      then Beyond
      else Raises JSONDecodeError
  end.

(** [scan_once], [JSONArray] and [JSONObject].  The recursion is on
    [fuel]: [loads] supplies twice the length of the text, which is
    ample, since two nested calls never go by without a character being
    consumed. *)
Fixpoint scan_once (fuel : nat) (s : string) : outcome (value * string) :=
  match fuel with
  | O => Beyond
  | S f =>
      match s with
      | EmptyString => Raises JSONDecodeError
      | String c r =>
          if Ascii.eqb c DQ then
            '(t, rest) ← scanstring r; Returns (VStr t, rest)
          else if Ascii.eqb c "{" then
            match skip_ws r with
            | String c1 r1 =>
                if Ascii.eqb c1 "}" then Returns (VDict [], r1)
                else if Ascii.eqb c1 DQ then
                  '(pairs, rest) ← scan_members f r1;
                  Returns (VDict (dict_of_pairs pairs), rest)
                else Raises JSONDecodeError
            | EmptyString => Raises JSONDecodeError
            end
          else if Ascii.eqb c "[" then
            match skip_ws r with
            | String c1 r1 =>
                if Ascii.eqb c1 "]" then Returns (VList [], r1)
                else
                  '(items, rest) ← scan_items f (skip_ws r);
                  Returns (VList items, rest)
            | EmptyString => Raises JSONDecodeError
            end
          else
            match strip_prefix "null" s, strip_prefix "true" s, strip_prefix "false" s with
            | Some rest, _, _ => Returns (VNone, rest)
            | _, Some rest, _ => Returns (VBool true, rest)
            | _, _, Some rest => Returns (VBool false, rest)
            | _, _, _ => scan_number s
            end
      end
  end

(** the items of an array, entered at the first character of an item *)
with scan_items (fuel : nat) (s : string) : outcome (list value * string) :=
  match fuel with
  | O => Beyond
  | S f =>
      '(v, rest) ← scan_once f s;
      match skip_ws rest with
      | String c r =>
          if Ascii.eqb c "]" then Returns ([v], r)
          else if Ascii.eqb c "," then
            '(vs, rest') ← scan_items f (skip_ws r);
            Returns (v :: vs, rest')
          else Raises JSONDecodeError
      | EmptyString => Raises JSONDecodeError
      end
  end

(** the pairs of an object, entered after the opening quote of a key *)
with scan_members (fuel : nat) (s : string) : outcome (list (string * value) * string) :=
  match fuel with
  | O => Beyond
  | S f =>
      '(key, rest) ← scanstring s;
      match skip_ws rest with
      | String c r =>
          if Ascii.eqb c ":" then
            '(v, rest1) ← scan_once f (skip_ws r);
            match skip_ws rest1 with
            | String c1 r1 =>
                if Ascii.eqb c1 "}" then Returns ([(key, v)], r1)
                else if Ascii.eqb c1 "," then
                  match skip_ws r1 with
                  | String c2 r2 =>
                      if Ascii.eqb c2 DQ then
                        '(more, rest2) ← scan_members f r2;
                        Returns ((key, v) :: more, rest2)
                      else Raises JSONDecodeError
                  | EmptyString => Raises JSONDecodeError
                  end
                else Raises JSONDecodeError
            | EmptyString => Raises JSONDecodeError
            end
          else Raises JSONDecodeError
      | EmptyString => Raises JSONDecodeError
      end
  end.

(** The byte-order mark, which [loads] refuses on a [str] *)
Definition BOM : string := String "239" (String "187" (String "191" "")).

Definition loads (s : string) : outcome value :=
  match strip_prefix BOM s with
  | Some _ => Raises JSONDecodeError
  | None =>
      '(v, rest) ← scan_once (S (2 * String.length s)) (skip_ws s);
      match skip_ws rest with
      | EmptyString => Returns v
      | String _ _ => Raises JSONDecodeError
      end
  end.

(** ** Text helpers of the [str] type *)

(** The code points of a text: a byte from 128 to 191 continues the
    character begun before it. *)
Definition is_cont (c : ascii) : bool :=
  (128 <=? N_of_ascii c)%N && (N_of_ascii c <? 192)%N.

Fixpoint chars (s : string) : list string :=
  match s with
  | EmptyString => []
  | String c r =>
      match chars r with
      | String c' t :: ts =>
          if is_cont c' then String c (String c' t) :: ts
          else String c "" :: String c' t :: ts
      | ts => String c "" :: ts
      end
  end.

Fixpoint concat_strings (l : list string) : string :=
  match l with
  | [] => ""
  | t :: ts => t +:+ concat_strings ts
  end.

(** The characters for which [str.isspace] holds *)
Definition WHITESPACE : list string :=
  [ String "009" "";
    String "010" "";
    String "011" "";
    String "012" "";
    String "013" "";
    String "028" "";
    String "029" "";
    String "030" "";
    String "031" "";
    String "032" "";
    String "194" (String "133" "");
    String "194" (String "160" "");
    String "225" (String "154" (String "128" ""));
    String "226" (String "128" (String "128" ""));
    String "226" (String "128" (String "129" ""));
    String "226" (String "128" (String "130" ""));
    String "226" (String "128" (String "131" ""));
    String "226" (String "128" (String "132" ""));
    String "226" (String "128" (String "133" ""));
    String "226" (String "128" (String "134" ""));
    String "226" (String "128" (String "135" ""));
    String "226" (String "128" (String "136" ""));
    String "226" (String "128" (String "137" ""));
    String "226" (String "128" (String "138" ""));
    String "226" (String "128" (String "168" ""));
    String "226" (String "128" (String "169" ""));
    String "226" (String "128" (String "175" ""));
    String "226" (String "129" (String "159" ""));
    String "227" (String "128" (String "128" "")) ].

Definition is_space (t : string) : bool :=
  existsb (String.eqb t) WHITESPACE.

Fixpoint lstrip_chars (l : list string) : list string :=
  match l with
  | t :: ts => if is_space t then lstrip_chars ts else l
  | [] => []
  end.

(** [s.strip()] *)
Definition strip (s : string) : string :=
  concat_strings (rev (lstrip_chars (rev (lstrip_chars (chars s))))).

(** [sep.join(v)]: [v] must be iterable and yield only strings; a dict
    yields its keys, a string its characters. *)
Definition join (sep : string) (v : value) : outcome string :=
  match v with
  | VList items =>
      parts ← (fix strs (l : list value) : outcome (list string) :=
                 match l with
                 | [] => Returns []
                 | VStr s :: l' => ss ← strs l'; Returns (s :: ss)
                 | _ :: _ => Raises TypeError
                 end) items;
      Returns (join_with sep parts)
  | VDict members => Returns (join_with sep (keys members))
  | VStr s => Returns (join_with sep (chars s))
  | _ => Raises TypeError
  end.

(** [v[k]] for a string key *)
Definition subscript (v : value) (k : string) : outcome value :=
  match v with
  | VDict members =>
      match dict_get k members with
      | Some x => Returns x
      | None => Raises (KeyError (VStr k))
      end
  | _ => Raises TypeError
  end.

(** [v.get(k, default)] *)
Definition get_default (v : value) (k : string) (default : value) : outcome value :=
  match v with
  | VDict members =>
      match dict_get k members with
      | Some x => Returns x
      | None => Returns default
      end
  | _ => Raises AttributeError
  end.

(** ** The world outside the script *)

(** What [client.chat.completions.create] is sent: the model name, the
    system message, the user message (the filled template) and whether a
    JSON object is demanded.  The fixed sampling temperature, a float, is
    not represented. *)
Record Request := mkRequest {
  req_model : string;
  req_system : string;
  req_user : string;
  req_json : bool }.

(** [response.choices[0].message.content], or the failure of the call *)
Inductive Reply : Type :=
| Content (c : string)
| NoContent
| Failure.

Inductive Event : Type :=
| EPrint (text : string)
| EInput (prompt : string)
| ERead (path : string)
| EMkdir (path : string)
| ECall (variables : list (string * value)) (req : Request)
| EWrite (path content : string).

(** Paths are relative to [BASE_DIR]; [files] holds the regular
    files.  [sdk] says whether the [openai] package can be
    imported.  [rng] is the sequence of numbers the random generator
    will produce and [rng_used] how many were taken; [service] answers
    a request given the requests made before it; [clock] is the time
    the script is given when it asks for it, as [strftime] formats it
    (it asks once, at line 159); [trace] keeps every effect in the
    order it happened. *)
Record World := mkWorld {
  sdk : bool;
  environ : gmap string string;
  files : gmap string string;
  stdin : list string;
  rng : nat -> nat;
  rng_used : nat;
  clock : string;
  service : list Request -> Request -> Reply;
  trace : list Event }.

Definition log (e : Event) (w : World) : World :=
  mkWorld (sdk w) (environ w) (files w) (stdin w) (rng w) (rng_used w)
          (clock w) (service w) (trace w ++ [e]).

(** The calls made so far, each with the variables it was given *)
Definition calls (t : list Event) : list (list (string * value) * Request) :=
  omap (fun e => match e with ECall v r => Some (v, r) | _ => None end) t.

Definition requests (t : list Event) : list Request := map snd (calls t).

Definition writes (t : list Event) : list string :=
  omap (fun e => match e with EWrite p _ => Some p | _ => None end) t.

(** ** The monad of the script: a world in, an outcome and a world out *)

Definition M (A : Type) : Type := World -> outcome A * World.

#[global] Instance M_ret : MRet M := fun A a w => (Returns a, w).
#[global] Instance M_bind : MBind M := fun A B k m w =>
  match m w with
  | (Returns a, w') => k a w'
  | (Raises e, w') => (Raises e, w')
  | (Beyond, w') => (Beyond, w')
  end.

Definition raise {A} (e : exn) : M A := fun w => (Raises e, w).
Definition lift {A} (o : outcome A) : M A := fun w => (o, w).

(** [os.getenv(key, default)] *)
Definition getenv (key default : string) : M string := fun w =>
  (Returns (match environ w !! key with Some v => v | None => default end), w).

(** [path.read_text(encoding="utf-8")] *)
Definition read_text (path : string) : M string := fun w =>
  match files w !! path with
  | Some text => (Returns text, log (ERead path) w)
  | None => (Raises (FileNotFoundError path), w)
  end.

(** [path.write_text(data, encoding="utf-8")]: anything but a [str] is
    refused before the file is opened. *)
Definition write_text (path : string) (data : value) : M unit := fun w =>
  match data with
  | VStr text =>
      (Returns (),
       log (EWrite path text)
         (mkWorld (sdk w) (environ w) (<[path := text]> (files w)) (stdin w)
                  (rng w) (rng_used w) (clock w) (service w) (trace w)))
  | _ => (Raises TypeError, w)
  end.

(** [path.mkdir(exist_ok=True)]: a directory that is already there is
    left alone, a regular file of that name is in the way. *)
Definition mkdir (path : string) : M unit := fun w =>
  match files w !! path with
  | Some _ => (Raises (FileExistsError path), w)
  | None => (Returns (), log (EMkdir path) w)
  end.

(** [print(text)] *)
Definition print (text : string) : M unit := fun w =>
  (Returns (), log (EPrint text) w).

(** [input(prompt)] *)
Definition input (prompt : string) : M string := fun w =>
  match stdin w with
  | line :: rest =>
      (Returns line,
       log (EInput prompt)
         (mkWorld (sdk w) (environ w) (files w) rest (rng w) (rng_used w)
                  (clock w) (service w) (trace w)))
  | [] => (Raises EOFError, log (EInput prompt) w)
  end.

(** [random.choice(seq)] on a list: an [IndexError] on the empty one,
    otherwise the item at the next random number reduced below [len]. *)
Definition choice {A} (seq : list A) : M A := fun w =>
  match seq !! (rng w (rng_used w) mod length seq)%nat with
  | Some x =>
      (Returns x,
       mkWorld (sdk w) (environ w) (files w) (stdin w) (rng w) (S (rng_used w))
               (clock w) (service w) (trace w))
  | None => (Raises IndexError, w)
  end.

(** [random.choice(v)] on any value: [len(v)] and [v[i]] decide. *)
Definition choice_value (v : value) : M value :=
  match v with
  | VList items => choice items
  | VDict [] => raise IndexError
  | VDict members =>
      i ← choice (seq 0 (length members)); raise (KeyError (VInt (Z.of_nat i)))
  | VStr s => c ← choice (chars s); mret (VStr c)
  | _ => raise TypeError
  end.

(** [datetime.datetime.now().strftime("%Y%m%d_%H%M%S")] *)
Definition now_stamp : M string := fun w => (Returns (clock w), w).

(** ** Constants of the module *)

Definition MODEL : string := "gpt-4o-mini".
Definition SYSTEM_PROMPT : string := "你是嚴謹又友善的塔羅遊戲 LLM 模組。".
Definition CARDS_PATH : string := "cards.json".
Definition RUNS_DIR : string := "runs".
Definition prompt_path (name : string) : string := "prompts/" +:+ name.
Definition runs_path (name : string) : string := "runs/" +:+ name.

(** [client.chat.completions.create(...)] and the content of its first
    choice *)
Definition create (variables : list (string * value)) (req : Request) : M value :=
  fun w =>
    let w' := log (ECall variables req) w in
    match service w (requests (trace w)) req with
    | Content c => (Returns (VStr c), w')
    | NoContent => (Returns VNone, w')
    | Failure => (Raises ServiceError, w')
    end.

(** [json.loads(content)] on a value that may be [None] *)
Definition loads_value (content : value) : outcome value :=
  match content with
  | VStr text => loads text
  | _ => Raises TypeError
  end.

(** [load_text] *)
Definition load_text (path : string) : M string := read_text path.

(** ** [str.format] with keyword arguments only

    A replacement field is a plain name between braces; a doubled brace
    is a literal brace.  A field with a conversion, a format
    specification, an attribute or an index, or whose name is a number,
    is outside the embedding ([Beyond]). *)

Section Program.

(** [repr] of a list or a dict, which the script only ever passes on *)
Variable py_repr : value -> string.

(** [str(v)] *)
Definition py_str (v : value) : string :=
  match v with
  | VStr s => s
  | VInt n => repr_int n
  | VNone => "None"
  | VBool true => "True"
  | VBool false => "False"
  | _ => py_repr v
  end.

(** A field name made of digits only (in any script) is a position. *)
Definition index_like (name : string) : bool :=
  forallb (fun c => is_digit c || (128 <=? N_of_ascii c)%N) (list_ascii_of_string name).

Definition field_value (variables : list (string * value)) (name : string)
  : outcome string :=
  match name with
  | EmptyString => Raises IndexError
  | _ =>
      if index_like name then Beyond
      else match dict_get name variables with
           | Some v => Returns (py_str v)
           | None => Raises (KeyError (VStr name))
           end
  end.

(** [field] is [None] in literal text and [Some name] inside a
    replacement field whose name so far is [name]. *)
Fixpoint format_from (variables : list (string * value)) (field : option string)
    (s : string) : outcome string :=
  match field, s with
  | None, EmptyString => Returns ""
  | None, String c r =>
      if Ascii.eqb c "{" then
        match r with
        | String c' r' =>
            if Ascii.eqb c' "{" then
              out ← format_from variables None r'; Returns (String "{" out)
            else format_from variables (Some "") r
        | EmptyString => Raises ValueError
        end
      else if Ascii.eqb c "}" then
        match r with
        | String c' r' =>
            if Ascii.eqb c' "}" then
              out ← format_from variables None r'; Returns (String "}" out)
            else Raises ValueError
        | EmptyString => Raises ValueError
        end
      else out ← format_from variables None r; Returns (String c out)
  | Some name, EmptyString => Raises ValueError
  | Some name, String c r =>
      if Ascii.eqb c "}" then
        text ← field_value variables name;
        out ← format_from variables None r;
        Returns (text +:+ out)
      else if Ascii.eqb c "{" then Raises ValueError
      else if Ascii.eqb c "[" || Ascii.eqb c "." || Ascii.eqb c "!" || Ascii.eqb c ":"
      then Beyond
      else format_from variables (Some (name +:+ String c "")) r
  end.

(** [prompt.format], the mapping spread as keyword arguments *)
Definition format (prompt : string) (variables : list (string * value))
  : outcome string :=
  format_from variables None prompt.

(** ** [call_llm] *)

Definition call_llm (prompt : string) (variables : list (string * value))
    (json_mode : bool) : M value :=
  filled ← lift (format prompt variables);
  content ← create variables (mkRequest MODEL SYSTEM_PROMPT filled json_mode);
  if json_mode then lift (loads_value content) else mret content.

(** ** [draw_card] *)

Definition draw_card (cards : value) : M (value * string * value) :=
  card ← choice_value cards;
  orientation ← choice ["upright"; "reversed"];
  keywords ← lift (if String.eqb orientation "upright"
                   then subscript card "upright_keywords"
                   else subscript card "reversed_keywords");
  name ← lift (subscript card "name");
  mret (name, orientation, keywords).

(** ** [main] *)

(** The dict [state]: its five keys are fixed, so it is a record, and
    [state_value] is the dict itself as [json.dumps] sees it. *)
Record State := mkState {
  topic : value;
  question : value;
  emotion : value;
  constraints : value;
  draw_history : list value }.

Definition state_value (st : State) : value :=
  VDict [("topic", topic st); ("question", question st); ("emotion", emotion st);
         ("constraints", constraints st); ("draw_history", VList (draw_history st))].

(** [state["draw_history"].append(record)] *)
Definition append_draw (record : value) (st : State) : State :=
  mkState (topic st) (question st) (emotion st) (constraints st)
          (draw_history st ++ [record]).

(** The dict literal of lines 79-85 *)
Definition init_state (intent : value) (topic_input : string) : outcome State :=
  t ← get_default intent "topic" (VStr topic_input);
  q ← subscript intent "question";
  e ← get_default intent "emotion" (VStr "other");
  c ← get_default intent "constraints" (VList []);
  Returns (mkState t q e c []).

Definition positions : list string := ["past"; "present"; "future"].

(** The dict literal of lines 129-136 *)
Definition make_record (step : Z) (pos : string) (card_name : value)
    (orientation : string) (keywords interp : value) : value :=
  VDict [("step", VInt step); ("position", VStr pos); ("card", card_name);
         ("orientation", VStr orientation); ("keywords", keywords);
         ("interpretation", interp)].

(** The four templates, in the order [main] reads them *)
Record Prompts := mkPrompts {
  intent_prompt : string;
  first_prompt : string;
  next_prompt : string;
  review_prompt : string }.

(** The variables of the first interpretation (lines 97-106) *)
Definition first_variables (st : State) (pos : string) (card_name : value)
    (orientation : string) (keywords : value) : list (string * value) :=
  [("topic", topic st); ("question", question st); ("emotion", emotion st);
   ("constraints", constraints st); ("position", VStr pos);
   ("card_name", card_name); ("orientation", VStr orientation);
   ("keywords", keywords)].

(** The variables of a later interpretation (lines 114-125) *)
Definition next_variables (st : State) (step : Z) (pos : string) (card_name : value)
    (orientation : string) (keywords : value) : list (string * value) :=
  [("step", VInt step); ("topic", topic st); ("question", question st);
   ("emotion", emotion st); ("constraints", constraints st);
   ("history_json", VStr (dumps (VList (draw_history st))));
   ("position", VStr pos); ("card_name", card_name);
   ("orientation", VStr orientation); ("keywords", keywords)].

(** Showing the draw and its reading (lines 140-144) *)
Definition show_draw (step : Z) (pos : string) (card_name : value)
    (orientation : string) (keywords interp : value) : M unit :=
  print (String LF ("--- 第 " +:+ repr_int step +:+ " 張牌 (" +:+ pos +:+ ") ---"));;
  print ("抽到： " +:+ py_str card_name +:+ " (" +:+ orientation +:+ ")");;
  joined ← lift (join "、" keywords);
  print ("關鍵字： " +:+ joined);;
  print "解讀：";;
  print (dumps interp).

(** One turn of the loop (lines 91-144) *)
Definition draw_step (prompts : Prompts) (cards : value) (step : Z) (pos : string)
    (st : State) : M State :=
  '(card_name, orientation, keywords) ← draw_card cards;
  interp ←
    (if (step =? 1)%Z then
       call_llm (first_prompt prompts)
         (first_variables st pos card_name orientation keywords) true
     else
       call_llm (next_prompt prompts)
         (next_variables st step pos card_name orientation keywords) true);
  let st' := append_draw (make_record step pos card_name orientation keywords interp) st in
  show_draw step pos card_name orientation keywords interp;;
  mret st'.

(** [for step, pos in enumerate(items, start=step)] *)
Fixpoint for_enumerate (body : Z -> string -> State -> M State) (step : Z)
    (items : list string) (st : State) : M State :=
  match items with
  | [] => mret st
  | pos :: rest =>
      st' ← body step pos st;
      for_enumerate body (step + 1)%Z rest st'
  end.

(** Reading the deck and the templates (lines 58-64) *)
Definition load_all : M (value * Prompts) :=
  text ← read_text CARDS_PATH;
  cards ← lift (loads text);
  p0 ← load_text (prompt_path "intent_parser.txt");
  p1 ← load_text (prompt_path "interpret_first.txt");
  p2 ← load_text (prompt_path "interpret_next.txt");
  p3 ← load_text (prompt_path "final_review.txt");
  mret (cards, mkPrompts p0 p1 p2 p3).

(** The banner and the two questions (lines 66-70) *)
Definition ask : M (string * string) :=
  print "=== 塔羅時間序占卜遊戲 ===";;
  print "主題選擇：love / study / career / other";;
  t ← input "請輸入主題： ";
  p ← input "請描述你的困擾 / 問題： ";
  mret (strip t, strip p).

(** Task 0, the intent (lines 73-77) *)
Definition parse_intent (prompts : Prompts) (topic_input player_text : string)
  : M value :=
  call_llm (intent_prompt prompts)
    [("player_text", VStr ("[topic_hint=" +:+ topic_input +:+ "] " +:+ player_text))]
    true.

(** Task 3, the review (lines 147-156) *)
Definition final_review (prompts : Prompts) (st : State) : M value :=
  call_llm (review_prompt prompts)
    [("topic", topic st); ("question", question st);
     ("history_json", VStr (dumps (VList (draw_history st))))]
    false.

(** Saving under [runs/] (lines 159-168) *)
Definition save_run (st : State) (review_md : value) : M unit :=
  ts ← now_stamp;
  let json_name := "run_" +:+ ts +:+ ".json" in
  let md_name := "run_" +:+ ts +:+ ".md" in
  write_text (runs_path json_name) (VStr (dumps (state_value st)));;
  write_text (runs_path md_name) review_md;;
  print (String LF ("=== 本次占卜回顧 Review ===" +:+ String LF ""));;
  print (py_str review_md);;
  print (String LF ("(已存檔：" +:+ json_name +:+ ", " +:+ md_name +:+ ")")).

(** Everything up to the loop: the deck, the templates, the answers and
    the parsed intent (lines 58-77) *)
Definition prelude : M (value * Prompts * string * value) :=
  '(cards, prompts) ← load_all;
  '(topic_input, player_text) ← ask;
  intent ← parse_intent prompts topic_input player_text;
  mret (cards, prompts, topic_input, intent).

(** The session from the intent on (lines 79-168); the final state and
    the review are handed back so that statements can name them. *)
Definition session (cards : value) (prompts : Prompts) (topic_input : string)
    (intent : value) : M (State * value) :=
  st0 ← lift (init_state intent topic_input);
  st ← for_enumerate (draw_step prompts cards) 1 positions st0;
  review_md ← final_review prompts st;
  save_run st review_md;;
  mret (st, review_md).

Definition main_body : M (State * value) :=
  '(cards, prompts, topic_input, intent) ← prelude;
  session cards prompts topic_input intent.

Definition main : M unit := main_body;; mret ().

(** [from openai import OpenAI] (line 14): an [ImportError] when the
    package is not there ([ModuleNotFoundError] is one) *)
Definition import_openai : M unit := fun w =>
  if sdk w then (Returns (), w) else (Raises ImportError, w).

(** The module run as a script: lines 8-25, then [main()].  Building
    the client (line 15) only stores the key: the [service] of the
    world stands for that client. *)
Definition program : M unit :=
  key ← getenv "OPENAI_API_KEY" "";
  if String.eqb key "" then raise ValueError
  else import_openai;; mkdir RUNS_DIR;; main.

End Program.

(** ** Well-formed static data, as the data model describes it *)

Definition is_strings (v : value) : bool :=
  match v with
  | VList items =>
      forallb (fun x => match x with VStr _ => true | _ => false end) items
  | _ => false
  end.

(** A Card: a name and the two keyword lists *)
Definition is_card (c : value) : bool :=
  match c with
  | VDict members =>
      match dict_get "name" members, dict_get "upright_keywords" members,
            dict_get "reversed_keywords" members with
      | Some (VStr _), Some u, Some r => is_strings u && is_strings r
      | _, _, _ => false
      end
  | _ => false
  end.

(** A name that [str.format] looks up among the keyword arguments *)
Definition plain_char (c : ascii) : bool :=
  negb (Ascii.eqb c "{" || Ascii.eqb c "}" || Ascii.eqb c "[" || Ascii.eqb c "."
        || Ascii.eqb c "!" || Ascii.eqb c ":").

Definition plain_name (name : string) : bool :=
  negb (String.eqb name "") && negb (index_like name)
  && forallb plain_char (list_ascii_of_string name).

(** The world with one more random number taken *)
Definition bump (w : World) : World :=
  mkWorld (sdk w) (environ w) (files w) (stdin w) (rng w) (S (rng_used w))
          (clock w) (service w) (trace w).

Definition tcalls (w : World) := calls (trace w).
Definition twrites (w : World) := writes (trace w).

(** [enumerate(items, start)] *)
Fixpoint enumerate (start : Z) (items : list string) : list (Z * string) :=
  match items with
  | [] => []
  | x :: rest => (start, x) :: enumerate (start + 1)%Z rest
  end.

(** The variables of the interpretation call of a step *)
Definition step_variables (st : State) (step : Z) (pos : string) (card_name : value)
    (orientation : string) (keywords : value) : list (string * value) :=
  if (step =? 1)%Z then first_variables st pos card_name orientation keywords
  else next_variables st step pos card_name orientation keywords.

(** [state] with another history *)
Definition with_history (st : State) (h : list value) : State :=
  mkState (topic st) (question st) (emotion st) (constraints st) h.

(** [name], [o] and [kw] are what a draw from the deck [cards] gives. *)
Definition drawn (cards name : value) (o : string) (kw : value) : Prop :=
  exists (items : list value) (card : value),
    cards = VList items /\ In card items /\
    subscript card "name" = Returns name /\
    ((o = "upright" /\ subscript card "upright_keywords" = Returns kw) \/
     (o = "reversed" /\ subscript card "reversed_keywords" = Returns kw)).

(** [v] is what [json.loads] made of some text. *)
Definition parsed (v : value) : Prop := exists text, loads text = Returns v.

(** [r] is the record of a draw from [cards] at this step and position,
    with a parsed reply as its interpretation. *)
Definition drawn_record (cards : value) (sp : Z * string) (r : value) : Prop :=
  exists name o kw interp,
    drawn cards name o kw /\ parsed interp /\
    r = make_record (fst sp) (snd sp) name o kw interp.

(** ** A sample world *)

Definition sample_repr (v : value) : string := dumps v.

Definition the_fool : value :=
  VDict [("name", VStr "The Fool");
         ("upright_keywords", VList [VStr "beginnings"; VStr "trust"]);
         ("reversed_keywords", VList [VStr "recklessness"])].

Definition the_tower : value :=
  VDict [("name", VStr "The Tower");
         ("upright_keywords", VList [VStr "upheaval"]);
         ("reversed_keywords", VList [VStr "averted disaster"; VStr "fear"])].

Definition sample_deck : list value := [the_fool; the_tower].

Definition sample_prompts : Prompts :=
  mkPrompts "Parse: {player_text}"
            "First {position} {card_name} {orientation} for {question}"
            "Step {step} {position} {card_name} after {history_json}"
            "Review {topic} {question} {history_json}".

Definition sample_files : gmap string string :=
  <[ "cards.json" := dumps (VList sample_deck) ]>
  (<[ "prompts/intent_parser.txt" := intent_prompt sample_prompts ]>
  (<[ "prompts/interpret_first.txt" := first_prompt sample_prompts ]>
  (<[ "prompts/interpret_next.txt" := next_prompt sample_prompts ]>
  (<[ "prompts/final_review.txt" := review_prompt sample_prompts ]> ∅)))).

Definition sample_intent : value := VDict [("question", VStr "Will I pass the exam?")].

(** Five scripted replies, in the order of the calls *)
Definition sample_service (earlier : list Request) (req : Request) : Reply :=
  match length earlier with
  | 0 => Content (dumps sample_intent)
  | 1 => Content (dumps (VDict [("meaning", VStr "a start")]))
  | 2 => Content (dumps (VDict [("meaning", VStr "a shock")]))
  | 3 => Content (dumps (VDict [("meaning", VStr "a calm")]))
  | _ => Content "You will be fine."
  end.

Definition sample_rng (n : nat) : nat := nth n [1; 0; 0; 1; 1; 1] 0.

Definition sample_world : World :=
  mkWorld true (<[ "OPENAI_API_KEY" := "sk-test" ]> ∅) sample_files
          [" study "; "Will I pass the exam?"] sample_rng 0 "20240101_120000"
          sample_service [].

(** The same world whose service forgets the [question] field *)
Definition forgetful_service (earlier : list Request) (req : Request) : Reply :=
  Content (dumps (VDict [("topic", VStr "study")])).

Definition forgetful_world : World :=
  mkWorld true (environ sample_world) sample_files (stdin sample_world)
          sample_rng 0 (clock sample_world) forgetful_service [].

(** The same world without the API key *)
Definition keyless_world : World :=
  mkWorld true ∅ sample_files (stdin sample_world) sample_rng 0
          (clock sample_world) sample_service [].

(** The field names the specification gives a Draw record *)
Definition SPEC_DRAW_FIELDS : list string :=
  ["step"; "position"; "card_name"; "orientation"; "keywords"; "interpretation"].

(** The field names of the record literal of lines 129-136 *)
Definition RECORD_FIELDS : list string :=
  ["step"; "position"; "card"; "orientation"; "keywords"; "interpretation"].

(** The sample run: its final state, its review and the world it leaves *)
Definition sample_state : State :=
  match fst (main_body sample_repr sample_world) with
  | Returns (st, _) => st
  | _ => mkState VNone VNone VNone VNone []
  end.

Definition sample_review : value :=
  match fst (main_body sample_repr sample_world) with
  | Returns (_, review) => review
  | _ => VNone
  end.

Definition sample_final : World := snd (main_body sample_repr sample_world).

(** The sample world after the prelude *)
Definition sample_asked : World := snd (prelude sample_repr sample_world).

(** The world the forgetful service leaves after the prelude *)
Definition forgetful_after : World := snd (prelude sample_repr forgetful_world).

(** The first record of the sample run *)
Definition sample_record : value :=
  make_record 1 "past" (VStr "The Tower") "upright" (VList [VStr "upheaval"])
              (VDict [("meaning", VStr "a start")]).

(** ** Notions used in the statements *)

(** The computation [m] never changes the observation [f] of the world. *)
Definition keeps {A X} (f : World -> X) (m : M A) : Prop :=
  forall w, f (snd (m w)) = f w.


(** What may follow an integer literal: no digit, dot or exponent mark *)
Definition ends_number (rest : string) : bool :=
  match rest with
  | String c _ =>
      negb (is_digit c || Ascii.eqb c "." || Ascii.eqb c "e" || Ascii.eqb c "E")
  | EmptyString => true
  end.

(** The characters a serialised value can begin with *)
Definition value_start (c : ascii) : bool :=
  is_digit c || Ascii.eqb c "-" || Ascii.eqb c DQ || Ascii.eqb c "["
  || Ascii.eqb c "{" || Ascii.eqb c "n" || Ascii.eqb c "t" || Ascii.eqb c "f".

Definition starts_value (s : string) : Prop :=
  match s with
  | String c _ => value_start c = true
  | EmptyString => False
  end.

(** The fuel that scanning the text of a value takes *)
Fixpoint size (v : value) : nat :=
  match v with
  | VList items => S (list_sum (map (fun x => S (size x)) items))
  | VDict members => S (list_sum (map (fun '(_, x) => S (size x)) members))
  | _ => 1
  end.

(** [scan_once] reads back the text of [v], whatever follows it. *)
Definition reads_back (v : value) : Prop :=
  forall level fuel rest,
    (size v <= fuel)%nat -> ends_number rest = true ->
    scan_once fuel (iterencode level v +:+ rest) = Returns (v, rest).

(** The text of a member after the opening quote of its key, and what
    follows the member inside its object *)
Definition members_text (level : nat) (members : list (string * value))
    (rest : string) : string :=
  match members with
  | [] => newline_indent level +:+ String "}" rest
  | _ =>
      "," +:+ newline_indent (S level) +:+
      join_with ("," +:+ newline_indent (S level))
        (map (fun '(k, x) => encode_basestring k +:+ ": " +:+ iterencode (S level) x)
           members)
      +:+ newline_indent level +:+ String "}" rest
  end.

(** ** Notions used in the further statements *)

(** The computation [m] only appends events, and only events that
    satisfy [P]. *)
Definition emits {A} (P : Event -> Prop) (m : M A) : Prop :=
  forall w, exists es, trace (snd (m w)) = trace w ++ es /\ Forall P es.

Definition any_event (e : Event) : Prop := True.

Definition is_read (e : Event) : Prop :=
  match e with ERead _ => True | _ => False end.

(** The five files [main] reads before it asks anything, in order *)
Definition REQUIRED_FILES : list string :=
  [CARDS_PATH; prompt_path "intent_parser.txt"; prompt_path "interpret_first.txt";
   prompt_path "interpret_next.txt"; prompt_path "final_review.txt"].

(** The world after the events [es], nothing else having changed *)
Definition log_all (es : list Event) (w : World) : World :=
  mkWorld (sdk w) (environ w) (files w) (stdin w) (rng w) (rng_used w)
          (clock w) (service w) (trace w ++ es).

(** A service whose reply to the intent request is an array *)
Definition listing_service (earlier : list Request) (req : Request) : Reply :=
  Content "[1, 2]".

Definition listing_world : World :=
  mkWorld true (environ sample_world) sample_files (stdin sample_world)
          sample_rng 0 (clock sample_world) listing_service [].

Definition listing_after : World := snd (prelude sample_repr listing_world).


(** The sample world whose deck file is cut short *)
Definition broken_deck_world : World :=
  mkWorld true (environ sample_world) (<[ "cards.json" := "[{" ]> sample_files)
          (stdin sample_world) sample_rng 0 (clock sample_world) sample_service [].

(** The sample world where the input ends after the topic *)
Definition silent_world : World :=
  mkWorld true (environ sample_world) sample_files [" study "] sample_rng 0
          (clock sample_world) sample_service [].

(** The sample service, except that its reply to the review request
    has no content *)
Definition mute_service (earlier : list Request) (req : Request) : Reply :=
  if req_json req then sample_service earlier req else NoContent.

Definition mute_world : World :=
  mkWorld true (environ sample_world) sample_files (stdin sample_world)
          sample_rng 0 (clock sample_world) mute_service [].

Definition mute_final : World := snd (main_body sample_repr mute_world).

(** What [call_llm] makes of a reply: its content, parsed when JSON was
    demanded (lines 45-47) *)
Definition answer (json_mode : bool) (r : Reply) : outcome value :=
  match r with
  | Content c => if json_mode then loads c else Returns (VStr c)
  | NoContent => if json_mode then Raises TypeError else Returns VNone
  | Failure => Raises ServiceError
  end.

(** The replies of a service to requests made one after the other,
    [earlier] being the requests made before them *)
Fixpoint replies (svc : list Request -> Request -> Reply)
    (earlier reqs : list Request) : list Reply :=
  match reqs with
  | [] => []
  | r :: rest => svc earlier r :: replies svc (earlier ++ [r]) rest
  end.

(** The template files, each with the [json_mode] of its calls *)
Definition TEMPLATES : list (string * bool) :=
  [("intent_parser.txt", true); ("interpret_first.txt", true);
   ("interpret_next.txt", true); ("final_review.txt", false)].

(** The templates once read, each with the [json_mode] of its calls *)
Definition prompt_table (P : Prompts) : list (string * bool) :=
  [(intent_prompt P, true); (first_prompt P, true); (next_prompt P, true);
   (review_prompt P, false)].

(** A call, if [e] is one, sends what [call_llm] makes of one of the
    templates [tpls]: the template filled with the variables of the
    call, under the fixed model and system prompt. *)
Definition request_from (py_repr : value -> string) (tpls : list (string * bool))
    (e : Event) : Prop :=
  match e with
  | ECall vars req =>
      exists tpl, In (tpl, req_json req) tpls /\
                  format py_repr tpl vars = Returns (req_user req) /\
                  req_model req = MODEL /\ req_system req = SYSTEM_PROMPT
  | _ => True
  end.

(** The names of the variables [main] passes with each template (lines
    75, 97-106, 114-125 and 149-155) *)
Definition INTENT_NAMES : list string := ["player_text"].

Definition FIRST_NAMES : list string :=
  ["topic"; "question"; "emotion"; "constraints"; "position"; "card_name";
   "orientation"; "keywords"].

Definition NEXT_NAMES : list string :=
  ["step"; "topic"; "question"; "emotion"; "constraints"; "history_json";
   "position"; "card_name"; "orientation"; "keywords"].

Definition REVIEW_NAMES : list string := ["topic"; "question"; "history_json"].

(** [str.format] accepts the template with variables of these names:
    its braces are balanced and it names no other variable. *)
Definition fills (py_repr : value -> string) (tpl : string) (names : list string)
  : bool :=
  match format py_repr tpl (map (fun n => (n, VNone)) names) with
  | Returns _ => true
  | _ => false
  end.

(** The limits within which CPython parses, serialises and prints a
    value as the model does: [int] converts at most 4300 digits, and
    the nesting stays far below the recursion limit of 1000. *)
Definition MAX_STR_DIGITS : nat := 4300.
Definition MAX_NESTING : nat := 100.

Definition int_digits (n : Z) : nat := String.length (repr_int (Z.abs n)).

Fixpoint nesting (v : value) : nat :=
  match v with
  | VList items => S (list_max (map nesting items))
  | VDict members => S (list_max (map (fun '(_, x) => nesting x) members))
  | _ => 0
  end.

Fixpoint ints_fit (v : value) : bool :=
  match v with
  | VInt n => (int_digits n <=? MAX_STR_DIGITS)%nat
  | VList items => forallb ints_fit items
  | VDict members => forallb (fun '(_, x) => ints_fit x) members
  | _ => true
  end.

Definition within_limits (v : value) : bool :=
  (nesting v <=? MAX_NESTING)%nat && ints_fit v.

(** The deck file holds a non-empty array of Cards, within the limits. *)
Definition deck_ready (w : World) : Prop :=
  exists text items,
    files w !! CARDS_PATH = Some text /\ loads text = Returns (VList items) /\
    within_limits (VList items) = true /\
    items <> [] /\ Forall (fun c => is_card c = true) items.

(** The template file is there and can be filled from these names. *)
Definition template_ready (py_repr : value -> string) (w : World)
    (name : string) (names : list string) : Prop :=
  exists tpl, files w !! prompt_path name = Some tpl /\ fills py_repr tpl names = true.

(** The service always answers with content, and with JSON within the
    limits when JSON is demanded. *)
Definition answers_all (svc : list Request -> Request -> Reply) : Prop :=
  forall earlier req,
    exists text,
      svc earlier req = Content text /\
      (req_json req = true ->
       exists v, loads text = Returns v /\ within_limits v = true).

(** The answer to a request for JSON made after [earlier] is an object
    with a question. *)
Definition gives_intent (svc : list Request -> Request -> Reply)
    (earlier : list Request) : Prop :=
  forall req, req_json req = true ->
    exists text members q,
      svc earlier req = Content text /\ loads text = Returns (VDict members) /\
      within_limits (VDict members) = true /\
      dict_get "question" members = Some q.

(** A service that answers every request for JSON with the sample
    intent and every other request with a sentence *)
Definition steady_service (earlier : list Request) (req : Request) : Reply :=
  if req_json req then Content (dumps sample_intent) else Content "You will be fine.".

Definition steady_world : World :=
  mkWorld true (environ sample_world) sample_files (stdin sample_world)
          sample_rng 0 (clock sample_world) steady_service [].

(** What the console shows: the lines printed and the prompts of
    [input], in order *)
Definition console (t : list Event) : list Event :=
  omap (fun e => match e with
                 | EPrint _ | EInput _ => Some e
                 | _ => None
                 end) t.

Definition tconsole (w : World) : list Event := console (trace w).

(** The field [k] of a record, [None] when it has none *)
Definition field (r : value) (k : string) : value :=
  match subscript r k with
  | Returns v => v
  | _ => VNone
  end.

(** The banner and the two questions *)
Definition OPENING : list Event :=
  [EPrint "=== 塔羅時間序占卜遊戲 ===";
   EPrint "主題選擇：love / study / career / other";
   EInput "請輸入主題： ";
   EInput "請描述你的困擾 / 問題： "].

(** The five lines that show the draw recorded as [r] *)
Definition draw_echo (py_repr : value -> string) (r : value) : list Event :=
  [EPrint (String LF ("--- 第 " +:+ py_str py_repr (field r "step") +:+ " 張牌 ("
                      +:+ py_str py_repr (field r "position") +:+ ") ---"));
   EPrint ("抽到： " +:+ py_str py_repr (field r "card") +:+ " ("
           +:+ py_str py_repr (field r "orientation") +:+ ")");
   EPrint ("關鍵字： " +:+ match join "、" (field r "keywords") with
                            | Returns joined => joined
                            | _ => ""
                            end);
   EPrint "解讀：";
   EPrint (dumps (field r "interpretation"))].

(** The review and the names of the two files, under the stamp [ts] *)
Definition CLOSING (py_repr : value -> string) (ts : string) (review : value)
  : list Event :=
  [EPrint (String LF ("=== 本次占卜回顧 Review ===" +:+ String LF ""));
   EPrint (py_str py_repr review);
   EPrint (String LF ("(已存檔：" +:+ ("run_" +:+ ts +:+ ".json") +:+ ", "
                      +:+ ("run_" +:+ ts +:+ ".md") +:+ ")"))].

(** The text with every brace doubled, as a template spells a literal
    brace *)
Fixpoint double_braces (s : string) : string :=
  match s with
  | EmptyString => ""
  | String c r =>
      if Ascii.eqb c "{" || Ascii.eqb c "}"
      then String c (String c (double_braces r))
      else String c (double_braces r)
  end.

(** An earlier session, recorded in the sample world *)
Definition earlier_state : State :=
  mkState (VStr "love") (VStr "Will we reconcile?") (VStr "other") (VList []) [].

Definition earlier_saved : World :=
  snd (save_run sample_repr earlier_state (VStr "An earlier review.") sample_world).

Definition not_read (e : Event) : Prop :=
  match e with ERead _ => False | _ => True end.



(** A card without its keyword lists *)
Definition bare_card : value := VDict [("name", VStr "The Fool")].

(** The sample world where [runs] is a regular file *)
Definition blocked_world : World :=
  mkWorld true (environ sample_world) (<[ "runs" := "" ]> sample_files)
          (stdin sample_world) sample_rng 0 (clock sample_world) sample_service [].

(** * Properties *)

#[local] Arguments String.append _ _ : simpl nomatch.

(** ** The monad *)

Lemma bind_unfold {A B} (m : M A) (k : A -> M B) w :
  (m ≫= k) w = match m w with
               | (Returns a, w') => k a w'
               | (Raises e, w') => (Raises e, w')
               | (Beyond, w') => (Beyond, w')
               end.
Proof. reflexivity. Qed.

Lemma bind_returns {A B} (m : M A) (k : A -> M B) w b w' :
  (m ≫= k) w = (Returns b, w') ->
  exists a w1, m w = (Returns a, w1) /\ k a w1 = (Returns b, w').
Proof.
  rewrite bind_unfold. destruct (m w) as [[a|e|] w1]; intros H; try discriminate.
  eauto.
Qed.

Lemma lift_returns {A} (o : outcome A) w a w' :
  lift o w = (Returns a, w') -> o = Returns a /\ w' = w.
Proof. unfold lift. intros H. inversion H. auto. Qed.

Lemma ret_returns {A} (x : A) w a w' :
  (mret x : M A) w = (Returns a, w') -> a = x /\ w' = w.
Proof. intros H. inversion H. auto. Qed.

(** Peel the binds off a hypothesis saying that a computation returned. *)
Ltac returned H :=
  repeat
    (let a := fresh "a" in
     let w := fresh "w" in
     let Ha := fresh "Hstep" in
     apply bind_returns in H as (a & w & Ha & H)).

(** ** [random.choice] *)

Lemma choice_returns {A} (seq : list A) w x w' :
  choice seq w = (Returns x, w') ->
  seq !! (rng w (rng_used w) mod length seq)%nat = Some x /\ w' = bump w.
Proof.
  unfold choice. destruct (seq !! _) as [y|] eqn:E; intros H; inversion H.
  subst. auto.
Qed.

Lemma choice_nonempty {A} (seq : list A) w :
  seq <> [] ->
  exists x, seq !! (rng w (rng_used w) mod length seq)%nat = Some x /\
            choice seq w = (Returns x, bump w).
Proof.
  intros Hne. unfold choice.
  destruct (lookup_lt_is_Some_2 seq (rng w (rng_used w) mod length seq)%nat) as [x Hx].
  - apply Nat.mod_upper_bound. destruct seq; [congruence | simpl; lia].
  - exists x. rewrite Hx. auto.
Qed.

Lemma choice_empty {A} w : choice (@nil A) w = (Raises IndexError, w).
Proof. reflexivity. Qed.

Lemma choice_orientation w o w' :
  choice ["upright"; "reversed"] w = (Returns o, w') ->
  o = "upright" \/ o = "reversed".
Proof.
  intros H. apply choice_returns in H as [H _].
  apply list_elem_of_lookup_2 in H.
  apply list_elem_of_In in H. simpl in H. intuition auto.
Qed.

(** ** [draw_card] *)

Lemma draw_card_returns cards w name o kw w' :
  draw_card cards w = (Returns (name, o, kw), w') ->
  exists items card,
    cards = VList items /\ items <> [] /\
    items !! (rng w (rng_used w) mod length items)%nat = Some card /\
    subscript card "name" = Returns name /\
    ((o = "upright" /\ subscript card "upright_keywords" = Returns kw) \/
     (o = "reversed" /\ subscript card "reversed_keywords" = Returns kw)).
Proof.
  unfold draw_card. intros H. returned H.
  apply ret_returns in H as [H _]. inversion H; subst; clear H.
  apply lift_returns in Hstep1 as [Hkw _].
  apply lift_returns in Hstep2 as [Hname _].
  pose proof (choice_orientation _ _ _ Hstep0) as Ho.
  destruct cards as [| | | s | items | members]; simpl in Hstep; try discriminate.
  - apply bind_returns in Hstep as (c & w5 & _ & Hc).
    apply ret_returns in Hc as [-> _]. discriminate.
  - apply choice_returns in Hstep as [Hcard _].
    exists items, a. repeat split; auto.
    + intros ->. discriminate.
    + destruct Ho as [-> | ->]; [left | right]; auto.
  - destruct members; [discriminate|].
    apply bind_returns in Hstep as (i & w5 & _ & Hc). discriminate.
Qed.

(** C4: a draw that returns took the card at the drawn index of a
    non-empty deck, its orientation is upright or reversed, and the
    keywords are that card's list for this very orientation. *)
Theorem draw_card_sound cards w name o kw w' :
  draw_card cards w = (Returns (name, o, kw), w') ->
  exists items card,
    cards = VList items /\ items <> [] /\
    items !! (rng w (rng_used w) mod length items)%nat = Some card /\
    subscript card "name" = Returns name /\
    ((o = "upright" /\ subscript card "upright_keywords" = Returns kw) \/
     (o = "reversed" /\ subscript card "reversed_keywords" = Returns kw)).
Proof. apply draw_card_returns. Qed.

(** ** Startup *)

Section Properties.

Variable py_repr : value -> string.

(** C9: without the API key in the environment the script stops with a
    [ValueError] in a world it has not touched: no file was read, nothing
    was printed or asked, no call was made. *)
Theorem missing_key_is_fatal w :
  environ w !! "OPENAI_API_KEY" = None ->
  program py_repr w = (Raises ValueError, w).
Proof.
  intros H. unfold program. rewrite bind_unfold. unfold getenv. rewrite H.
  reflexivity.
Qed.

(** ** [str.format] *)

Lemma string_app_assoc (a b c : string) : (a +:+ b) +:+ c = a +:+ (b +:+ c).
Proof. induction a; simpl; congruence. Qed.

Lemma string_app_nil_r (a : string) : a +:+ "" = a.
Proof. induction a; simpl; congruence. Qed.

Lemma obind_unfold {A B} (o : outcome A) (k : A -> outcome B) :
  (o ≫= k) = match o with
             | Returns a => k a
             | Raises e => Raises e
             | Beyond => Beyond
             end.
Proof. destruct o; reflexivity. Qed.

(** A template that formats well can be extended: what follows is
    formatted on its own and appended. *)
Lemma format_from_app_len variables n : forall a field out b,
  String.length a <= n ->
  format_from py_repr variables field a = Returns out ->
  format_from py_repr variables field (a +:+ b)
  = (out' ← format_from py_repr variables None b; Returns (out +:+ out')).
Proof.
  induction n as [|n IH]; intros a field out b Hlen H.
  - destruct a; [|simpl in Hlen; lia].
    destruct field; simpl in H; [discriminate|]. inversion H; subst.
    simpl. rewrite obind_unfold. destruct (format_from _ _ _ b); reflexivity.
  - destruct a as [|c r].
    { destruct field; simpl in H; [discriminate|]. inversion H; subst.
      simpl. rewrite obind_unfold. destruct (format_from _ _ _ b); reflexivity. }
    simpl in Hlen. assert (Hr : String.length r <= n) by lia.
    destruct field as [name|]; simpl in H |- *.
    + destruct (Ascii.eqb c "}").
      * rewrite obind_unfold in H.
        destruct (field_value py_repr variables name) as [text| |]; try discriminate.
        rewrite obind_unfold in H.
        destruct (format_from py_repr variables None r) as [o1| |] eqn:E;
          try discriminate.
        inversion H; subst. rewrite (IH _ _ _ b Hr E). rewrite !obind_unfold.
        destruct (format_from py_repr variables None b); try reflexivity.
        rewrite string_app_assoc. reflexivity.
      * destruct (Ascii.eqb c "{"); [discriminate|].
        destruct (_ || _); [discriminate|]. apply IH; assumption.
    + destruct (Ascii.eqb c "{").
      * destruct r as [|c' r']; [discriminate|]. simpl.
        simpl in Hr. assert (Hr' : String.length r' <= n) by lia.
        destruct (Ascii.eqb c' "{") eqn:Ec.
        -- rewrite obind_unfold in H.
           destruct (format_from py_repr variables None r') as [o1| |] eqn:E;
             try discriminate.
           inversion H; subst. rewrite (IH _ _ _ b Hr' E), !obind_unfold.
           destruct (format_from py_repr variables None b); reflexivity.
        -- apply (IH (String c' r') (Some "") out b) in H; [|simpl; lia].
           simpl in H. rewrite Ec in H. exact H.
      * destruct (Ascii.eqb c "}").
        -- destruct r as [|c' r']; [discriminate|]. simpl.
           simpl in Hr. assert (Hr' : String.length r' <= n) by lia.
           destruct (Ascii.eqb c' "}") eqn:Ec; [|discriminate].
           rewrite obind_unfold in H.
           destruct (format_from py_repr variables None r') as [o1| |] eqn:E;
             try discriminate.
           inversion H; subst. rewrite (IH _ _ _ b Hr' E), !obind_unfold.
           destruct (format_from py_repr variables None b); reflexivity.
        -- rewrite obind_unfold in H.
           destruct (format_from py_repr variables None r) as [o1| |] eqn:E;
             try discriminate.
           inversion H; subst. rewrite (IH _ _ _ b Hr E), !obind_unfold.
           destruct (format_from py_repr variables None b); reflexivity.
Qed.

Lemma format_app variables a b out :
  format py_repr a variables = Returns out ->
  format py_repr (a +:+ b) variables
  = (out' ← format py_repr b variables; Returns (out +:+ out')).
Proof. intros H. eapply format_from_app_len; [reflexivity | exact H]. Qed.

Lemma forallb_app_string (f : ascii -> bool) (a : string) (c : ascii) :
  forallb f (list_ascii_of_string (a +:+ String c ""))
  = forallb f (list_ascii_of_string a) && f c.
Proof.
  induction a as [|x a IH]; simpl.
  - rewrite andb_true_r. reflexivity.
  - rewrite IH, andb_assoc. reflexivity.
Qed.

(** Inside a field, plain characters pile up until the closing brace. *)
Lemma format_from_field variables name : forall acc rest,
  forallb plain_char (list_ascii_of_string name) = true ->
  format_from py_repr variables (Some acc) (name +:+ String "}" rest)
  = (text ← field_value py_repr variables (acc +:+ name);
     out ← format_from py_repr variables None rest;
     Returns (text +:+ out)).
Proof.
  induction name as [|c name IH]; intros acc rest Hp; simpl.
  - rewrite string_app_nil_r. reflexivity.
  - simpl in Hp. apply andb_true_iff in Hp as [Hc Hn].
    unfold plain_char in Hc. apply negb_true_iff in Hc.
    repeat (apply orb_false_iff in Hc as [Hc ?]).
    rewrite H3, Hc. simpl. rewrite H2, H1, H0, H. simpl.
    rewrite (IH _ _ Hn), string_app_assoc. reflexivity.
Qed.

(** A template that begins with a field of plain name *)
Lemma format_field variables name rest :
  plain_name name = true ->
  format py_repr (String "{" (name +:+ String "}" rest)) variables
  = (text ← field_value py_repr variables name;
     out ← format py_repr rest variables;
     Returns (text +:+ out)).
Proof.
  unfold plain_name, format. intros Hp.
  apply andb_true_iff in Hp as [Hp Hall]. apply andb_true_iff in Hp as [Hne Hidx].
  destruct name as [|c name]; [discriminate|].
  pose proof Hall as Hall'. simpl in Hall'. apply andb_true_iff in Hall' as [Hc _].
  unfold plain_char in Hc. apply negb_true_iff in Hc.
  repeat (apply orb_false_iff in Hc as [Hc ?]).
  change (format_from py_repr variables None
            (String "{" (String c (name +:+ String "}" rest)))
          = (text ← field_value py_repr variables (String c name);
             out ← format_from py_repr variables None rest;
             Returns (text +:+ out))).
  transitivity (format_from py_repr variables (Some "")
                  (String c name +:+ String "}" rest)).
  - simpl. rewrite Hc. reflexivity.
  - apply (format_from_field variables (String c name) "" rest Hall).
Qed.

(** C7, as the code has it: a field whose name the mapping lacks makes
    the substitution fail with a [KeyError] for that name; a string value
    is copied into the result as it is, braces included, and what
    surrounds the field is formatted independently of it. *)
Theorem format_single_pass variables before name after out1 :
  format py_repr before variables = Returns out1 ->
  plain_name name = true ->
  match dict_get name variables with
  | None =>
      format py_repr (before +:+ String "{" (name +:+ String "}" after)) variables
      = Raises (KeyError (VStr name))
  | Some v =>
      forall out2,
        format py_repr after variables = Returns out2 ->
        format py_repr (before +:+ String "{" (name +:+ String "}" after)) variables
        = Returns (out1 +:+ py_str py_repr v +:+ out2)
  end.
Proof.
  intros Hb Hn.
  assert (Hfield : field_value py_repr variables name
                   = match dict_get name variables with
                     | Some v => Returns (py_str py_repr v)
                     | None => Raises (KeyError (VStr name))
                     end).
  { unfold plain_name in Hn. apply andb_true_iff in Hn as [Hn _].
    apply andb_true_iff in Hn as [Hne Hidx]. apply negb_true_iff in Hidx.
    unfold field_value. rewrite Hidx. destruct name; [discriminate | reflexivity]. }
  destruct (dict_get name variables) as [v|] eqn:E.
  - intros out2 Ha.
    rewrite (format_app _ _ _ _ Hb), (format_field _ _ _ Hn), Hfield, Ha.
    reflexivity.
  - rewrite (format_app _ _ _ _ Hb), (format_field _ _ _ Hn), Hfield.
    reflexivity.
Qed.

(** ** What a computation leaves alone *)

Lemma keeps_bind {A B X} (f : World -> X) (m : M A) (k : A -> M B) :
  keeps f m -> (forall a, keeps f (k a)) -> keeps f (m ≫= k).
Proof.
  intros Hm Hk w. rewrite bind_unfold. specialize (Hm w).
  destruct (m w) as [[a|e|] w1]; simpl in *; [rewrite Hk|..]; auto.
Qed.

Ltac keeps_prim :=
  let w := fresh "w" in
  intros w;
  unfold load_text; unfold read_text, write_text, mkdir, print, input, choice,
    now_stamp, create, lift, raise, getenv, mret, M_ret;
  repeat case_match;
  unfold tcalls, twrites, calls, writes; simpl;
  rewrite ?omap_app; simpl; rewrite ?app_nil_r; reflexivity.

Ltac keeps_go :=
  repeat match goal with
    | |- keeps _ (_ ≫= _) => apply keeps_bind; [|intros]
    | |- keeps _ (if ?b then _ else _) => destruct b
    | |- keeps _ (match ?x with _ => _ end) => destruct x
    | |- keeps _ _ => solve [keeps_prim]
    end.

Lemma keeps_at {A X} (f : World -> X) (m : M A) w out w' :
  keeps f m -> m w = (out, w') -> f w' = f w.
Proof. intros Hk H. specialize (Hk w). rewrite H in Hk. exact Hk. Qed.

Lemma draw_card_keeps_calls cards : keeps tcalls (draw_card cards).
Proof. unfold draw_card, choice_value. keeps_go. Qed.

Lemma show_draw_keeps_calls step pos name o kw interp :
  keeps tcalls (show_draw py_repr step pos name o kw interp).
Proof. unfold show_draw. keeps_go. Qed.

Lemma save_run_keeps_calls st review : keeps tcalls (save_run py_repr st review).
Proof. unfold save_run. keeps_go. Qed.

Lemma load_all_keeps_calls : keeps tcalls load_all.
Proof. unfold load_all. keeps_go. Qed.

Lemma ask_keeps_calls : keeps tcalls ask.
Proof. unfold ask. keeps_go. Qed.

Lemma prelude_keeps_files : keeps files (prelude py_repr).
Proof. unfold prelude, load_all, ask, parse_intent, call_llm. keeps_go. Qed.

Lemma prelude_keeps_rng : keeps rng_used (prelude py_repr).
Proof. unfold prelude, load_all, ask, parse_intent, call_llm. keeps_go. Qed.

Lemma prelude_keeps_writes : keeps twrites (prelude py_repr).
Proof. unfold prelude, load_all, ask, parse_intent, call_llm. keeps_go. Qed.

(** ** [call_llm] *)

Lemma tcalls_log_call vars req w :
  tcalls (log (ECall vars req) w) = tcalls w ++ [(vars, req)].
Proof. unfold tcalls, calls. simpl. rewrite omap_app. reflexivity. Qed.

(** Either the template could not be filled and nothing was sent, or
    exactly one request went out, carrying these variables. *)
Lemma call_llm_cases prompt vars jm w out w' :
  call_llm py_repr prompt vars jm w = (out, w') ->
  (tcalls w' = tcalls w /\ forall v, out <> Returns v)
  \/ (exists req, tcalls w' = tcalls w ++ [(vars, req)] /\
                   forall v, out = Returns v -> jm = true -> parsed v).
Proof.
  unfold call_llm. rewrite bind_unfold. unfold lift.
  destruct (format py_repr prompt vars) as [filled|e|].
  - rewrite bind_unfold. unfold create.
    destruct (service w _ _) as [c| |]; intros H; right; eexists;
      destruct jm; simpl in H; inversion H; subst;
      (split; [apply tcalls_log_call|]); intros v Hv Hj;
      try discriminate; exists c; exact Hv.
  - intros H. inversion H. left. split; [reflexivity | discriminate].
  - intros H. inversion H. left. split; [reflexivity | discriminate].
Qed.

(** ** One turn of the loop *)

Lemma draw_card_drawn cards w name o kw w' :
  draw_card cards w = (Returns (name, o, kw), w') -> drawn cards name o kw.
Proof.
  intros H. apply draw_card_returns in H as (items & card & -> & _ & Hc & Hn & Hk).
  exists items, card. repeat split; auto.
  apply list_elem_of_In. eapply list_elem_of_lookup_2, Hc.
Qed.

(** A turn either stops before its call, or makes exactly one call with
    the variables of its step; if it returns, the state has one record
    more, built from the card drawn in this turn. *)
Lemma draw_step_cases P cards k pos st w out w' :
  draw_step py_repr P cards k pos st w = (out, w') ->
  (tcalls w' = tcalls w /\ forall s, out <> Returns s)
  \/ (exists name o kw req,
        drawn cards name o kw /\
        tcalls w' = tcalls w ++ [(step_variables st k pos name o kw, req)] /\
        forall s, out = Returns s ->
          exists interp,
            parsed interp /\
            s = append_draw (make_record k pos name o kw interp) st).
Proof.
  unfold draw_step. rewrite bind_unfold.
  destruct (draw_card cards w) as [[[[name o] kw]|e|] w1] eqn:Ed;
    pose proof (keeps_at _ _ _ _ _ (draw_card_keeps_calls cards) Ed) as Hc1.
  - apply draw_card_drawn in Ed. rewrite bind_unfold.
    match goal with
    | |- context [ (if ?b then ?x else ?y) w1 ] =>
        replace ((if b then x else y) w1)
          with (call_llm py_repr (if b then first_prompt P else next_prompt P)
                  (step_variables st k pos name o kw) true w1)
          by (unfold step_variables; destruct b; reflexivity)
    end.
    destruct (call_llm _ _ _ _ w1) as [[interp|e|] w2] eqn:Ec;
      apply call_llm_cases in Ec as [[Hc2 Hno] | (req & Hc2 & Hp)];
      try (exfalso; eapply Hno; reflexivity).
    + rewrite bind_unfold.
      destruct (show_draw _ _ _ _ _ _ _ w2) as [[[]|e|] w3] eqn:Es;
        pose proof (keeps_at _ _ _ _ _ (show_draw_keeps_calls _ _ _ _ _ _) Es) as Hc3;
        intros H; inversion H; subst; right; exists name, o, kw, req;
        (split; [exact Ed|]); (split; [congruence|]); intros s Hs;
        inversion Hs; eauto.
    + intros H; inversion H; subst. left. split; [congruence | discriminate].
    + intros H; inversion H; subst. right. exists name, o, kw, req.
      split; [exact Ed|]. split; [congruence | discriminate].
    + intros H; inversion H; subst. left. split; [congruence | discriminate].
    + intros H; inversion H; subst. right. exists name, o, kw, req.
      split; [exact Ed|]. split; [congruence | discriminate].
  - intros H; inversion H; subst. left. split; [exact Hc1 | discriminate].
  - intros H; inversion H; subst. left. split; [exact Hc1 | discriminate].
Qed.

Lemma with_history_same st : with_history st (draw_history st ++ []) = st.
Proof. destruct st. unfold with_history. simpl. rewrite app_nil_r. reflexivity. Qed.

(** ** The loop *)

(** The records [rs] appended and the calls [cs] made by the loop over
    [ps], numbered from [k]: call number [i] was given the state as it
    was after [i] records, so it came after they were appended. *)
Lemma loop_spec P cards ps : forall k st w out w',
  for_enumerate (draw_step py_repr P cards) k ps st w = (out, w') ->
  exists rs cs,
    tcalls w' = tcalls w ++ cs /\
    Forall2 (drawn_record cards) (enumerate k (take (length rs) ps)) rs /\
    (length rs <= length ps)%nat /\
    (length cs <= S (length rs))%nat /\
    (length cs <= length ps)%nat /\
    (forall i c, cs !! i = Some c ->
       exists pos name o kw,
         ps !! i = Some pos /\ drawn cards name o kw /\
         fst c = step_variables (with_history st (draw_history st ++ take i rs))
                   (k + Z.of_nat i)%Z pos name o kw) /\
    (forall s, out = Returns s ->
       s = with_history st (draw_history st ++ rs) /\
       length rs = length ps /\ length cs = length ps).
Proof.
  induction ps as [|pos ps IH]; intros k st w out w' H.
  - simpl in H. inversion H; subst. exists [], []. simpl.
    rewrite app_nil_r. repeat split; auto.
    + intros i c Hi. rewrite lookup_nil in Hi. discriminate.
    + inversion H0. symmetry. apply with_history_same.
  - simpl in H. rewrite bind_unfold in H.
    destruct (draw_step py_repr P cards k pos st w) as [[st1|e|] w1] eqn:E1;
      apply draw_step_cases in E1
        as [[Hc Hno] | (name & o & kw & req & Hd & Hc & Hret)].
    + exfalso. eapply Hno. reflexivity.
    + destruct (Hret st1 eq_refl) as (interp & Hparsed & ->).
      apply IH in H as (rs & cs & Hcs & Hrs & Hl1 & Hl2 & Hl3 & Hidx & Hout).
      set (r := make_record k pos name o kw interp) in *.
      exists (r :: rs), ((step_variables st k pos name o kw, req) :: cs).
      split; [rewrite Hcs, Hc, <- app_assoc; reflexivity|].
      split; [simpl; constructor; [exists name, o, kw, interp; repeat split; auto | exact Hrs]|].
      split; [simpl; lia|]. split; [simpl; lia|]. split; [simpl; lia|].
      split.
      * intros [|i] c Hi; simpl in Hi.
        -- inversion Hi; subst. exists pos, name, o, kw.
           repeat split; auto. simpl fst.
           rewrite with_history_same, Z.add_0_r. reflexivity.
        -- apply Hidx in Hi as (pos' & name' & o' & kw' & Hp & Hd' & Hf).
           exists pos', name', o', kw'. repeat split; auto. rewrite Hf.
           unfold append_draw, with_history. simpl.
           rewrite <- app_assoc. simpl.
           replace (k + 1 + Z.of_nat i)%Z with (k + Z.pos (Pos.of_succ_nat i))%Z by lia.
           reflexivity.
      * intros s Hs. apply Hout in Hs as (-> & Hl & Hl').
        unfold append_draw, with_history. simpl. rewrite <- app_assoc. simpl.
        repeat split; auto; lia.
    + inversion H; subst. exists [], []. simpl. rewrite app_nil_r.
      repeat split; auto; try lia; try discriminate; try constructor.
      all: intros i c Hi; rewrite lookup_nil in Hi; discriminate.
    + inversion H; subst.
      exists [], [(step_variables st k pos name o kw, req)]. simpl.
      repeat split; auto; try lia; try discriminate; try constructor.
      all: intros [|i] c Hi; simpl in Hi; [|rewrite lookup_nil in Hi; discriminate].
      all: inversion Hi; subst; exists pos, name, o, kw; repeat split; auto.
      all: simpl fst; rewrite with_history_same, Z.add_0_r; reflexivity.
    + inversion H; subst. exists [], []. simpl. rewrite app_nil_r.
      repeat split; auto; try lia; try discriminate; try constructor.
      all: intros i c Hi; rewrite lookup_nil in Hi; discriminate.
    + inversion H; subst.
      exists [], [(step_variables st k pos name o kw, req)]. simpl.
      repeat split; auto; try lia; try discriminate; try constructor.
      all: intros [|i] c Hi; simpl in Hi; [|rewrite lookup_nil in Hi; discriminate].
      all: inversion Hi; subst; exists pos, name, o, kw; repeat split; auto.
      all: simpl fst; rewrite with_history_same, Z.add_0_r; reflexivity.
Qed.

(** ** The session *)


Lemma init_state_history intent hint st0 :
  init_state intent hint = Returns st0 -> draw_history st0 = [].
Proof.
  unfold init_state. intros H.
  destruct (get_default intent "topic" _); try discriminate. simpl in H.
  destruct (subscript intent "question"); try discriminate. simpl in H.
  destruct (get_default intent "emotion" _); try discriminate. simpl in H.
  destruct (get_default intent "constraints" _); try discriminate. simpl in H.
  inversion H. reflexivity.
Qed.

(** A session that completes has appended one record for each of the
    three positions, in order, each from a draw of its own. *)
Lemma session_returns cards P hint intent w st review w' :
  session py_repr cards P hint intent w = (Returns (st, review), w') ->
  exists st0,
    init_state intent hint = Returns st0 /\
    st = with_history st0 (draw_history st) /\
    Forall2 (drawn_record cards) (enumerate 1 positions) (draw_history st).
Proof.
  unfold session. intros H. returned H.
  apply lift_returns in Hstep as [Hinit ->].
  apply ret_returns in H as [H _]. inversion H; subst; clear H.
  apply loop_spec in Hstep0 as (rs & cs & _ & Hrs & _ & _ & _ & _ & Hout).
  destruct (Hout _ eq_refl) as (-> & Hlen & _).
  rewrite Hlen, firstn_all in Hrs.
  rewrite (init_state_history _ _ _ Hinit). simpl.
  exists a. repeat split; auto.
Qed.

(** ** The intent *)

(** C6: when the parsed reply has a [question] and none of the optional
    fields, the state starts with the hint as topic, ["other"] as
    emotion, no constraints and an empty history; and a session that
    completes from there ends with the same topic, question, emotion and
    constraints. *)
Theorem intent_defaults members q hint :
  dict_get "question" members = Some q ->
  dict_get "topic" members = None ->
  dict_get "emotion" members = None ->
  dict_get "constraints" members = None ->
  init_state (VDict members) hint
  = Returns (mkState (VStr hint) q (VStr "other") (VList []) []) /\
  forall cards P w st review w',
    session py_repr cards P hint (VDict members) w = (Returns (st, review), w') ->
    topic st = VStr hint /\ question st = q /\
    emotion st = VStr "other" /\ constraints st = VList [].
Proof.
  intros Hq Ht He Hc.
  assert (Hinit : init_state (VDict members) hint
                  = Returns (mkState (VStr hint) q (VStr "other") (VList []) [])).
  { unfold init_state. simpl. rewrite Ht, Hq, He, Hc. reflexivity. }
  split; [exact Hinit|].
  intros cards P w st review w' Hs.
  apply session_returns in Hs as (st0 & Hst0 & -> & _).
  rewrite Hinit in Hst0. inversion Hst0; subst st0. simpl. auto.
Qed.




(** ** Before the session *)

Lemma read_text_returns path w text w' :
  read_text path w = (Returns text, w') -> files w !! path = Some text.
Proof.
  unfold read_text. destruct (files w !! path); intros H; inversion H.
  reflexivity.
Qed.

(** What the deck is when the prelude returns it *)
Lemma prelude_deck w cards P hint intent w1 :
  prelude py_repr w = (Returns (cards, P, hint, intent), w1) ->
  exists text, files w !! CARDS_PATH = Some text /\ loads text = Returns cards.
Proof.
  unfold prelude. intros H. returned H. destruct a as [cards' P'].
  returned H. destruct a as [t p]. returned H.
  apply ret_returns in H as [H _]. inversion H; subst; clear H.
  unfold load_all in Hstep. returned Hstep.
  apply ret_returns in Hstep as [Hr _]. inversion Hr; subst; clear Hr.
  apply read_text_returns in Hstep2.
  apply lift_returns in Hstep3 as [Hl _].
  eauto.
Qed.

(** The calls of the prelude: at most one, none of them for a step, and
    exactly one when it returns. *)
Lemma prelude_calls w out w1 :
  prelude py_repr w = (out, w1) ->
  exists cs, tcalls w1 = tcalls w ++ cs /\
             Forall (fun c => dict_get "step" (fst c) = None) cs /\
             (forall x, out = Returns x -> length cs = 1%nat).
Proof.
  unfold prelude. rewrite bind_unfold.
  destruct (load_all w) as [[[cards P]|e|] w2] eqn:E1;
    pose proof (keeps_at _ _ _ _ _ load_all_keeps_calls E1) as H1;
    [|intros H; inversion H; subst; exists []; rewrite app_nil_r;
      repeat split; auto; discriminate ..].
  rewrite bind_unfold.
  destruct (ask w2) as [[[t p]|e|] w3] eqn:E2;
    pose proof (keeps_at _ _ _ _ _ ask_keeps_calls E2) as H2;
    [|intros H; inversion H; subst; exists []; rewrite app_nil_r;
      repeat split; auto; try congruence; discriminate ..].
  rewrite bind_unfold.
  destruct (parse_intent _ _ _ _ w3) as [[intent|e|] w4] eqn:E3;
    unfold parse_intent in E3;
    apply call_llm_cases in E3 as [[Hc Hno] | (req & Hc & _)];
    try (exfalso; eapply Hno; reflexivity);
    intros H; inversion H; subst.
  - eexists [(_, req)]. split; [rewrite Hc, H2, H1; reflexivity|].
    split; [|reflexivity].
    constructor; [reflexivity | constructor].
  - exists []. rewrite app_nil_r. repeat split; auto; try congruence; discriminate.
  - eexists [(_, req)]. split; [rewrite Hc, H2, H1; reflexivity|].
    split; [|discriminate].
    constructor; [reflexivity | constructor].
  - exists []. rewrite app_nil_r. repeat split; auto; try congruence; discriminate.
  - eexists [(_, req)]. split; [rewrite Hc, H2, H1; reflexivity|].
    split; [|discriminate].
    constructor; [reflexivity | constructor].
Qed.

Lemma main_body_returns w st review w' :
  main_body py_repr w = (Returns (st, review), w') ->
  exists cards P hint intent w1,
    prelude py_repr w = (Returns (cards, P, hint, intent), w1) /\
    session py_repr cards P hint intent w1 = (Returns (st, review), w').
Proof.
  unfold main_body. intros H. apply bind_returns in H as ([[[cards P] hint] intent] & w1 & Hp & Hs).
  exists cards, P, hint, intent, w1. auto.
Qed.

(** ** Whole runs *)


(** C2: when the parsed reply of the intent call is an object without
    [question], the run stops there with a [KeyError]: no card was
    drawn, no file was written, and the one call was not repeated. *)
Theorem missing_question_aborts w cards P hint members w1 :
  prelude py_repr w = (Returns (cards, P, hint, VDict members), w1) ->
  dict_get "question" members = None ->
  main_body py_repr w = (Raises (KeyError (VStr "question")), w1) /\
  rng_used w1 = rng_used w /\
  files w1 = files w /\
  twrites w1 = twrites w /\
  exists c, tcalls w1 = tcalls w ++ [c].
Proof.
  intros Hp Hq. split; [|split; [|split; [|split]]].
  - unfold main_body. rewrite bind_unfold, Hp. unfold session.
    rewrite bind_unfold. unfold lift, init_state. simpl. rewrite Hq.
    destruct (dict_get "topic" members); reflexivity.
  - exact (keeps_at _ _ _ _ _ prelude_keeps_rng Hp).
  - exact (keeps_at _ _ _ _ _ prelude_keeps_files Hp).
  - exact (keeps_at _ _ _ _ _ prelude_keeps_writes Hp).
  - destruct (prelude_calls _ _ _ Hp) as (cs & Hcs & _ & Hlen).
    specialize (Hlen _ eq_refl).
    destruct cs as [|c [|]]; try discriminate. exists c. exact Hcs.
Qed.

Lemma drawn_typed cards name o kw :
  drawn cards name o kw ->
  (o = "upright" \/ o = "reversed") /\
  exists items card,
    cards = VList items /\ In card items /\
    subscript card "name" = Returns name /\
    subscript card (o +:+ "_keywords") = Returns kw /\
    (is_card card = true -> (exists s, name = VStr s) /\ is_strings kw = true).
Proof.
  intros (items & card & -> & Hin & Hn & Hk).
  split; [destruct Hk as [[-> _] | [-> _]]; auto|].
  exists items, card. repeat split; auto.
  - destruct Hk as [[-> Hk] | [-> Hk]]; exact Hk.
  - destruct card as [| | | | |m]; try discriminate. simpl in H, Hn.
    destruct (dict_get "name" m) as [[| | |nm| |]|]; try discriminate.
    inversion Hn. eauto.
  - destruct card as [| | | | |m]; try discriminate. simpl in H, Hk.
    destruct (dict_get "name" m) as [[| | |nm| |]|]; try discriminate.
    destruct (dict_get "upright_keywords" m) as [u|]; try discriminate.
    destruct (dict_get "reversed_keywords" m) as [r|]; try discriminate.
    apply andb_true_iff in H as [Hu Hr].
    destruct Hk as [[_ Hk] | [_ Hk]]; inversion Hk; subst; assumption.
Qed.

(** C8, as the code has it: every record of a completed run is a dict
    with exactly the keys step, position, card, orientation, keywords
    and interpretation, in this order; the step is 1, 2 or 3, the
    position one of the three, the orientation upright or reversed, the
    card and the keywords are those of a card of the deck (a string and
    a list of strings when that card is well formed), and the
    interpretation is a parsed reply.  The name of the card is under
    [card]; there is no [card_name]. *)
Theorem draw_record_fields w st review w' r :
  main_body py_repr w = (Returns (st, review), w') ->
  In r (draw_history st) ->
  exists step pos name o kw interp,
    r = VDict [("step", VInt step); ("position", VStr pos); ("card", name);
               ("orientation", VStr o); ("keywords", kw);
               ("interpretation", interp)] /\
    (1 <= step <= 3)%Z /\ In pos positions /\
    (o = "upright" \/ o = "reversed") /\
    parsed interp /\
    exists text items card,
      files w !! CARDS_PATH = Some text /\ loads text = Returns (VList items) /\
      In card items /\
      subscript card "name" = Returns name /\
      subscript card (o +:+ "_keywords") = Returns kw /\
      (is_card card = true -> (exists s, name = VStr s) /\ is_strings kw = true).
Proof.
  intros H Hin.
  apply main_body_returns in H as (cards & P & hint & intent & w1 & Hp & Hs).
  apply prelude_deck in Hp as (text & Hf & Hl).
  apply session_returns in Hs as (st0 & _ & _ & Hrs).
  assert (Hsp : exists sp, In sp (enumerate 1 positions) /\ drawn_record cards sp r).
  { apply list_elem_of_In, list_elem_of_lookup in Hin as [i Hi].
    destruct (Forall2_lookup_r _ _ _ _ _ Hrs Hi) as (sp & Hsp & Hd).
    exists sp. split; [|exact Hd].
    apply list_elem_of_In. eapply list_elem_of_lookup_2, Hsp. }
  destruct Hsp as (sp & Hsp & (name & o & kw & interp & Hd & Hparsed & ->)).
  apply drawn_typed in Hd as (Ho & items & card & -> & Hc & Hn & Hk & Ht).
  exists (fst sp), (snd sp), name, o, kw, interp.
  split; [reflexivity|].
  assert (Hrange : (1 <= fst sp <= 3)%Z /\ In (snd sp) positions).
  { simpl in Hsp. destruct Hsp as [<- | [<- | [<- | []]]]; simpl; split; auto; lia. }
  destruct Hrange as [Hstep Hpos].
  repeat split; try assumption; try lia.
  exists text, items, card. repeat split; auto; apply Ht; assumption.
Qed.

(** ** [json.loads] undoes [json.dumps] *)

(** *** Strings *)

Lemma scanstring_escape_char c tail :
  scanstring (escape_char c +:+ tail)
  = ('(t, rest) ← scanstring tail; Returns (String c t, rest)).
Proof.
  destruct c as [[] [] [] [] [] [] [] []]; reflexivity.
Qed.

Lemma scanstring_escape s : forall rest,
  scanstring (escape s +:+ String DQ rest) = Returns (s, rest).
Proof.
  induction s as [|c s IH]; intros rest.
  - reflexivity.
  - simpl escape. rewrite string_app_assoc, scanstring_escape_char, IH.
    reflexivity.
Qed.

(** *** Integers *)

Lemma scan_digits_uint d : forall rest,
  ends_number rest = true ->
  scan_digits (NilEmpty.string_of_uint d +:+ rest) = (d, rest).
Proof.
  induction d; intros rest Hr; simpl;
    try (rewrite (IHd rest Hr); reflexivity).
  destruct rest as [|c r]; [reflexivity|].
  simpl in Hr. simpl. destruct (is_digit c); [discriminate | reflexivity].
Qed.

Lemma to_uint_no_leading_zero p d : Pos.to_uint p <> Decimal.D0 d.
Proof.
  intros H.
  assert (Hn : Decimal.unorm (Pos.to_uint p) = Pos.to_uint p).
  { rewrite <- (DecimalPos.Unsigned.to_of (Pos.to_uint p)).
    rewrite DecimalPos.Unsigned.of_to. reflexivity. }
  rewrite H, unorm_D0 in Hn.
  destruct (Decimal.nzhead d) eqn:E;
    [apply unorm_0 in E; rewrite E in Hn; inversion Hn; subst;
     exact (DecimalPos.Unsigned.to_uint_nonzero p H)
    |rewrite unorm_nzhead in Hn by (rewrite E; discriminate);
     exact (nzhead_nonzero _ _ Hn) ..].
Qed.

Lemma string_of_uint_digit d :
  d <> Decimal.Nil ->
  exists c r, NilEmpty.string_of_uint d = String c r /\ is_digit c = true /\
              (Ascii.eqb c "0" = true -> exists d', d = Decimal.D0 d').
Proof.
  destruct d; intros H; try congruence; simpl; do 2 eexists;
    (split; [reflexivity|]); (split; [reflexivity|]); intros E;
    try discriminate; eauto.
Qed.

Lemma scan_number_uint d rest :
  d <> Decimal.Nil -> (forall d', d <> Decimal.D0 d') ->
  ends_number rest = true ->
  scan_intpart (NilEmpty.string_of_uint d +:+ rest) = Some (d, rest).
Proof.
  intros Hn Hz Hr.
  destruct (string_of_uint_digit d Hn) as (c & r & E & Hd & H0).
  pose proof (scan_digits_uint d rest Hr) as Hs.
  rewrite E in Hs |- *.
  change (String c r +:+ rest) with (String c (r +:+ rest)) in *.
  unfold scan_intpart.
  destruct (Ascii.eqb c "0") eqn:Ec.
  - destruct (H0 eq_refl) as [d' ->]. exfalso. eapply Hz. reflexivity.
  - rewrite Hd, Hs. reflexivity.
Qed.

Lemma ends_number_no_float rest : ends_number rest = true -> float_follows rest = false.
Proof.
  destruct rest as [|c [|d r]]; try reflexivity; simpl; intros H;
    apply negb_true_iff in H; repeat (apply orb_false_iff in H as [H ?]);
    rewrite H2, H1, H0; reflexivity.
Qed.

Lemma scan_number_plain s d rest :
  match s with String c _ => is_digit c = true | EmptyString => False end ->
  scan_intpart s = Some (d, rest) ->
  ends_number rest = true ->
  scan_number s = Returns (VInt (Z.of_uint d), rest).
Proof.
  intros Hc Hs Hr. unfold scan_number.
  destruct s as [|c r]; [contradiction|].
  destruct (Ascii.eqb c "-") eqn:Ec.
  - apply Ascii.eqb_eq in Ec. subst c. discriminate.
  - rewrite Hs, (ends_number_no_float rest Hr). reflexivity.
Qed.

Lemma scan_number_minus s d rest :
  scan_intpart s = Some (d, rest) ->
  ends_number rest = true ->
  scan_number (String "-" s) = Returns (VInt (- Z.of_uint d), rest).
Proof.
  intros Hs Hr. unfold scan_number. simpl.
  rewrite Hs, (ends_number_no_float rest Hr). reflexivity.
Qed.

Lemma string_of_uint_pos p :
  NilZero.string_of_uint (Pos.to_uint p) = NilEmpty.string_of_uint (Pos.to_uint p).
Proof.
  pose proof (DecimalPos.Unsigned.to_uint_nonnil p).
  destruct (Pos.to_uint p); [congruence | reflexivity ..].
Qed.

Lemma scan_intpart_pos p rest :
  ends_number rest = true ->
  scan_intpart (NilEmpty.string_of_uint (Pos.to_uint p) +:+ rest)
  = Some (Pos.to_uint p, rest).
Proof.
  intros Hr. apply scan_number_uint; auto.
  - apply DecimalPos.Unsigned.to_uint_nonnil.
  - apply to_uint_no_leading_zero.
Qed.

Lemma scan_number_repr n rest :
  ends_number rest = true ->
  scan_number (repr_int n +:+ rest) = Returns (VInt n, rest).
Proof.
  intros Hr. unfold repr_int. destruct n as [|p|p].
  - simpl. unfold scan_number. simpl.
    rewrite (ends_number_no_float rest Hr). reflexivity.
  - change (Z.to_int (Z.pos p)) with (Decimal.Pos (Pos.to_uint p)).
    unfold NilZero.string_of_int. rewrite string_of_uint_pos.
    rewrite <- (DecimalZ.of_to (Z.pos p)) at 1.
    change (Z.of_int (Z.to_int (Z.pos p))) with (Z.of_uint (Pos.to_uint p)).
    apply scan_number_plain; [|apply scan_intpart_pos, Hr | exact Hr].
    destruct (string_of_uint_digit (Pos.to_uint p)
                (DecimalPos.Unsigned.to_uint_nonnil p)) as (c & r & E & Hd & _).
    rewrite E. exact Hd.
  - change (Z.to_int (Z.neg p)) with (Decimal.Neg (Pos.to_uint p)).
    unfold NilZero.string_of_int. rewrite string_of_uint_pos.
    rewrite <- (DecimalZ.of_to (Z.neg p)) at 1.
    change (Z.of_int (Z.to_int (Z.neg p))) with (- Z.of_uint (Pos.to_uint p))%Z.
    apply scan_number_minus; [apply scan_intpart_pos, Hr | exact Hr].
Qed.

(** *** Layout *)

Lemma value_start_facts c :
  value_start c = true ->
  is_ws c = false /\ Ascii.eqb c "]" = false /\ Ascii.eqb c "}" = false.
Proof.
  destruct c as [[] [] [] [] [] [] [] []]; intros H; try discriminate H;
    repeat split; reflexivity.
Qed.

Lemma repr_int_starts n rest : starts_value (repr_int n +:+ rest).
Proof.
  unfold repr_int. destruct n as [|p|p]; try reflexivity.
  change (Z.to_int (Z.pos p)) with (Decimal.Pos (Pos.to_uint p)).
  unfold NilZero.string_of_int. rewrite string_of_uint_pos.
  destruct (string_of_uint_digit (Pos.to_uint p)
              (DecimalPos.Unsigned.to_uint_nonnil p)) as (c & r & E & Hd & _).
  rewrite E. simpl. unfold value_start. rewrite Hd. reflexivity.
Qed.

Lemma iterencode_starts level v rest : starts_value (iterencode level v +:+ rest).
Proof.
  destruct v as [|[]|n|s|items|members]; try reflexivity.
  - apply repr_int_starts.
  - simpl. unfold bracket. destruct (map _ items); reflexivity.
  - simpl. unfold bracket. destruct (map _ members); reflexivity.
Qed.

Lemma skip_ws_start s : starts_value s -> skip_ws s = s.
Proof.
  destruct s as [|c r]; [reflexivity|]. simpl. intros H.
  apply value_start_facts in H as (-> & _). reflexivity.
Qed.

Lemma skip_ws_spaces n s : skip_ws (spaces n +:+ s) = skip_ws s.
Proof. induction n; simpl; auto. Qed.

Lemma skip_ws_newline level s : skip_ws (newline_indent level +:+ s) = skip_ws s.
Proof. unfold newline_indent. simpl. apply skip_ws_spaces. Qed.

Lemma ends_number_newline level s : ends_number (newline_indent level +:+ s) = true.
Proof. reflexivity. Qed.

(** *** Dicts *)

Lemma dict_set_fresh k v d :
  ~ In k (keys d) -> dict_set k v d = d ++ [(k, v)].
Proof.
  induction d as [|[k' v'] d IH]; intros H; simpl; [reflexivity|].
  simpl in H. destruct (String.eqb k k') eqn:E.
  - apply String.eqb_eq in E. subst. tauto.
  - rewrite IH by tauto. reflexivity.
Qed.

Lemma dict_of_pairs_nodup l : NoDup (keys l) -> dict_of_pairs l = l.
Proof.
  unfold dict_of_pairs.
  assert (H : forall acc, NoDup (keys (acc ++ l)) ->
                          fold_left (fun d kv => dict_set kv.1 kv.2 d) l acc = acc ++ l).
  { induction l as [|[k v] l IH]; intros acc Hnd; simpl.
    - rewrite app_nil_r. reflexivity.
    - rewrite dict_set_fresh.
      + rewrite IH; rewrite <- app_assoc; [reflexivity | exact Hnd].
      + unfold keys in Hnd. rewrite map_app in Hnd. simpl in Hnd.
        apply NoDup_app in Hnd as (_ & Hd & _).
        intros Hin. apply (Hd k); [apply list_elem_of_In, Hin | left]. }
  intros Hnd. apply (H [] Hnd).
Qed.

(** *** Values *)

Lemma value_ind' (P : value -> Prop) :
  P VNone -> (forall b, P (VBool b)) -> (forall n, P (VInt n)) ->
  (forall s, P (VStr s)) ->
  (forall items, Forall P items -> P (VList items)) ->
  (forall members, Forall (fun kv => P (snd kv)) members -> P (VDict members)) ->
  forall v, P v.
Proof.
  intros HN HB HI HS HL HD. fix IH 1. intros [| b | n | s | items | members].
  - exact HN.
  - apply HB.
  - apply HI.
  - apply HS.
  - apply HL. induction items as [|x items IHi]; constructor; [apply IH | exact IHi].
  - apply HD. induction members as [|[k x] members IHm]; constructor;
      [apply IH | exact IHm].
Qed.

Lemma wf_list items : wf_value (VList items) <-> Forall wf_value items.
Proof.
  induction items as [|x items IH]; simpl.
  - split; auto.
  - rewrite Forall_cons. simpl in IH. rewrite IH. reflexivity.
Qed.

Lemma wf_dict members :
  wf_value (VDict members)
  <-> NoDup (keys members) /\ Forall (fun kv => wf_value (snd kv)) members.
Proof.
  simpl. apply and_iff_compat_l.
  induction members as [|kv members IH]; simpl.
  - split; auto.
  - rewrite Forall_cons, IH. reflexivity.
Qed.

Lemma obind_returns {A B} (a : A) (k : A -> outcome B) : (Returns a ≫= k) = k a.
Proof. reflexivity. Qed.

Lemma append_comma s : "," +:+ s = String "," s.
Proof. reflexivity. Qed.

Lemma skip_ws_comma s : skip_ws (String "," s) = String "," s.
Proof. reflexivity. Qed.

Lemma scan_once_number f c r :
  is_digit c || Ascii.eqb c "-" = true ->
  scan_once (S f) (String c r) = scan_number (String c r).
Proof.
  destruct c as [[] [] [] [] [] [] [] []]; intros H; try discriminate H;
    reflexivity.
Qed.

Lemma repr_int_head n rest :
  exists c r, repr_int n +:+ rest = String c r /\
              is_digit c || Ascii.eqb c "-" = true.
Proof.
  unfold repr_int. destruct n as [|p|p]; try (do 2 eexists; split; reflexivity).
  change (Z.to_int (Z.pos p)) with (Decimal.Pos (Pos.to_uint p)).
  unfold NilZero.string_of_int. rewrite string_of_uint_pos.
  destruct (string_of_uint_digit (Pos.to_uint p)
              (DecimalPos.Unsigned.to_uint_nonnil p)) as (c & r & E & Hd & _).
  rewrite E. do 2 eexists. split; [reflexivity|]. rewrite Hd. reflexivity.
Qed.

Lemma scan_items_join level x : forall items fuel rest,
  Forall reads_back (x :: items) ->
  (list_sum (map (fun y => S (size y)) (x :: items)) <= fuel)%nat ->
  scan_items fuel
    (join_with ("," +:+ newline_indent (S level))
       (map (iterencode (S level)) (x :: items))
     +:+ newline_indent level +:+ String "]" rest)
  = Returns (x :: items, rest).
Proof.
  intros items. revert x.
  induction items as [|y items IH]; intros x fuel rest Hall Hfuel;
    apply Forall_cons in Hall as [Hx Hall];
    (destruct fuel as [|f]; [simpl in Hfuel; lia|]); simpl in Hfuel.
  - simpl map. simpl join_with. cbn [scan_items].
    rewrite (Hx (S level) f _) by (try reflexivity; lia).
    rewrite obind_returns. cbv beta iota. rewrite skip_ws_newline. reflexivity.
  - change (map (iterencode (S level)) (x :: y :: items))
      with (iterencode (S level) x :: map (iterencode (S level)) (y :: items)).
    change (join_with ?sep (?p :: map ?g (y :: items)))
      with (p +:+ sep +:+ join_with sep (map g (y :: items))).
    rewrite !string_app_assoc. cbn [scan_items].
    rewrite (Hx (S level) f _) by (try reflexivity; lia).
    rewrite obind_returns. cbv beta iota.
    rewrite append_comma, skip_ws_comma. cbv beta iota.
    change (Ascii.eqb "," "]") with false.
    change (Ascii.eqb "," ",") with true. cbv beta iota.
    rewrite skip_ws_newline, skip_ws_start.
    + rewrite IH; [reflexivity | exact Hall | simpl; lia].
    + change (map (iterencode (S level)) (y :: items))
        with (iterencode (S level) y :: map (iterencode (S level)) items).
      destruct (map (iterencode (S level)) items);
        simpl join_with; rewrite ?string_app_assoc; apply iterencode_starts.
Qed.

Lemma join_members level k x members rest :
  join_with ("," +:+ newline_indent (S level))
    (map (fun '(k, x) => encode_basestring k +:+ ": " +:+ iterencode (S level) x)
       ((k, x) :: members))
  +:+ newline_indent level +:+ String "}" rest
  = String DQ (escape k +:+
               String DQ (String ":" (String " "
                 (iterencode (S level) x +:+ members_text level members rest)))).
Proof.
  destruct members as [|[k' x'] members]; unfold members_text.
  - simpl map. simpl join_with. unfold encode_basestring.
    rewrite !string_app_assoc. simpl. rewrite !string_app_assoc. reflexivity.
  - change (map ?g ((k, x) :: (k', x') :: members))
      with (g (k, x) :: map g ((k', x') :: members)).
    change (join_with ?sep (?p :: map ?g ((k', x') :: members)))
      with (p +:+ sep +:+ join_with sep (map g ((k', x') :: members))).
    cbv beta iota. unfold encode_basestring.
    rewrite !string_app_assoc. simpl. rewrite !string_app_assoc. reflexivity.
Qed.

Lemma members_text_ends level members rest :
  ends_number (members_text level members rest) = true.
Proof. destruct members; reflexivity. Qed.

Lemma scan_members_text level members : forall k x fuel rest,
  Forall (fun kv => reads_back (snd kv)) ((k, x) :: members) ->
  (list_sum (map (fun '(_, y) => S (size y)) ((k, x) :: members)) <= fuel)%nat ->
  scan_members fuel
    (escape k +:+
     String DQ (String ":" (String " "
       (iterencode (S level) x +:+ members_text level members rest))))
  = Returns ((k, x) :: members, rest).
Proof.
  induction members as [|[k' x'] members IH]; intros k x fuel rest Hall Hfuel;
    apply Forall_cons in Hall as [Hx Hall]; simpl in Hx;
    (destruct fuel as [|f]; [simpl in Hfuel; lia|]); simpl in Hfuel;
    cbn [scan_members]; rewrite scanstring_escape, obind_returns; cbv beta iota;
    change (skip_ws (String ":" ?s)) with (String ":" s); cbv beta iota;
    change (Ascii.eqb ":" ":") with true; cbv beta iota;
    change (skip_ws (String " " ?s)) with (skip_ws s);
    rewrite skip_ws_start by apply iterencode_starts;
    rewrite (Hx (S level) f _) by (try apply members_text_ends; lia);
    rewrite obind_returns; cbv beta iota; unfold members_text.
  - rewrite skip_ws_newline. reflexivity.
  - rewrite append_comma, skip_ws_comma. cbv beta iota.
    change (Ascii.eqb "," "}") with false.
    change (Ascii.eqb "," ",") with true. cbv beta iota.
    rewrite skip_ws_newline, join_members.
    change (skip_ws (String DQ ?s)) with (String DQ s). cbv beta iota.
    change (Ascii.eqb DQ DQ) with true. cbv beta iota.
    rewrite IH; [reflexivity | exact Hall | simpl; lia].
Qed.

Lemma bracket_map {A} opening closing level (g : A -> string) x xs :
  bracket opening closing level (map g (x :: xs))
  = opening +:+ newline_indent (S level) +:+
    join_with ("," +:+ newline_indent (S level)) (map g (x :: xs)) +:+
    newline_indent level +:+ closing.
Proof. reflexivity. Qed.

Lemma starts_value_inv s :
  starts_value s -> exists c r, s = String c r /\ value_start c = true.
Proof. destruct s as [|c r]; [contradiction | eauto]. Qed.

Lemma scan_once_array f r :
  scan_once (S f) (String "[" r)
  = match skip_ws r with
    | String c1 r1 =>
        if Ascii.eqb c1 "]" then Returns (VList [], r1)
        else '(items, rest) ← scan_items f (skip_ws r); Returns (VList items, rest)
    | EmptyString => Raises JSONDecodeError
    end.
Proof. reflexivity. Qed.

Lemma scan_once_object f r :
  scan_once (S f) (String "{" r)
  = match skip_ws r with
    | String c1 r1 =>
        if Ascii.eqb c1 "}" then Returns (VDict [], r1)
        else if Ascii.eqb c1 DQ then
          '(pairs, rest) ← scan_members f r1;
          Returns (VDict (dict_of_pairs pairs), rest)
        else Raises JSONDecodeError
    | EmptyString => Raises JSONDecodeError
    end.
Proof. reflexivity. Qed.

Lemma scan_once_string f r :
  scan_once (S f) (String DQ r)
  = ('(t, rest) ← scanstring r; Returns (VStr t, rest)).
Proof. reflexivity. Qed.

(** The round trip of [scan_once] over [iterencode] *)
Lemma iterencode_reads_back v : wf_value v -> reads_back v.
Proof.
  induction v as [| b | n | s | items IH | members IH] using value_ind';
    intros Hwf level fuel rest Hfuel Hrest;
    (destruct fuel as [|f]; [simpl in Hfuel; lia|]).
  - reflexivity.
  - destruct b; reflexivity.
  - simpl iterencode.
    destruct (repr_int_head n rest) as (c & r & E & Hc).
    rewrite E, (scan_once_number f c r Hc), <- E.
    apply scan_number_repr, Hrest.
  - simpl iterencode. unfold encode_basestring.
    change (String DQ ?a +:+ rest) with (String DQ (a +:+ rest)).
    rewrite scan_once_string, string_app_assoc.
    change (String DQ "" +:+ rest) with (String DQ rest).
    rewrite scanstring_escape. reflexivity.
  - apply wf_list in Hwf.
    assert (Hall : Forall reads_back items).
    { rewrite Forall_forall in IH, Hwf |- *. auto. }
    destruct items as [|x items]; [reflexivity|].
    cbn [iterencode]. rewrite bracket_map, !string_app_assoc.
    change ("[" +:+ ?s) with (String "[" s).
    change ("]" +:+ rest) with (String "]" rest).
    rewrite scan_once_array, skip_ws_newline.
    assert (Hs : starts_value
                   (join_with ("," +:+ newline_indent (S level))
                      (map (iterencode (S level)) (x :: items))
                    +:+ newline_indent level +:+ String "]" rest)).
    { simpl map. destruct (map (iterencode (S level)) items);
        simpl join_with; rewrite ?string_app_assoc; apply iterencode_starts. }
    rewrite (skip_ws_start _ Hs).
    destruct (starts_value_inv _ Hs) as (c1 & r1 & E & Hc1).
    rewrite E. apply value_start_facts in Hc1 as (_ & -> & _). rewrite <- E.
    rewrite scan_items_join; [reflexivity | exact Hall | simpl in Hfuel |- *; lia].
  - apply wf_dict in Hwf as [Hnd Hwf].
    assert (Hall : Forall (fun kv => reads_back (snd kv)) members).
    { rewrite Forall_forall in IH, Hwf |- *. auto. }
    destruct members as [|[k x] members]; [reflexivity|].
    cbn [iterencode]. rewrite bracket_map, !string_app_assoc.
    change ("{" +:+ ?s) with (String "{" s).
    change ("}" +:+ rest) with (String "}" rest).
    rewrite scan_once_object, skip_ws_newline, join_members.
    change (skip_ws (String DQ ?s)) with (String DQ s). cbv beta iota.
    change (Ascii.eqb DQ "}") with false. change (Ascii.eqb DQ DQ) with true.
    cbv beta iota.
    rewrite scan_members_text; [|exact Hall | simpl in Hfuel |- *; lia].
    rewrite obind_returns. cbv beta iota.
    rewrite (dict_of_pairs_nodup _ Hnd). reflexivity.
Qed.

(** *** The length of the text is fuel enough *)

Lemma length_append (a b : string) :
  String.length (a +:+ b) = (String.length a + String.length b)%nat.
Proof. induction a; simpl; auto. Qed.

Lemma join_with_length sep parts :
  (1 <= String.length sep)%nat ->
  (list_sum (map (fun p => S (String.length p)) parts)
   <= S (String.length (join_with sep parts)))%nat.
Proof.
  intros Hsep. induction parts as [|p [|q ps] IH].
  - simpl. lia.
  - simpl. lia.
  - change (join_with sep (p :: q :: ps)) with (p +:+ sep +:+ join_with sep (q :: ps)).
    rewrite !length_append. simpl map in *. simpl list_sum in *. lia.
Qed.

Lemma bracket_length opening closing level parts :
  (list_sum (map (fun p => S (String.length p)) parts)
   <= String.length (bracket opening closing level parts))%nat.
Proof.
  destruct parts as [|p ps]; [simpl; lia|].
  unfold bracket. rewrite !length_append.
  pose proof (join_with_length ("," +:+ newline_indent (S level)) (p :: ps)) as H.
  simpl String.length in *. lia.
Qed.

Lemma list_sum_le {A} (f g : A -> nat) l :
  Forall (fun x => f x <= g x)%nat l ->
  (list_sum (map f l) <= list_sum (map g l))%nat.
Proof. induction 1; simpl; lia. Qed.

Lemma repr_int_nonempty n : (1 <= String.length (repr_int n))%nat.
Proof.
  destruct (repr_int_head n "") as (c & r & E & _).
  rewrite string_app_nil_r in E. rewrite E. simpl. lia.
Qed.

Lemma size_le_length v : forall level,
  (size v <= String.length (iterencode level v))%nat.
Proof.
  induction v as [| b | n | s | items IH | members IH] using value_ind';
    intros level.
  - simpl. lia.
  - destruct b; simpl; lia.
  - apply repr_int_nonempty.
  - simpl. lia.
  - cbn [iterencode size].
    destruct items as [|x items]; [simpl; lia|].
    rewrite bracket_map, !length_append.
    pose proof (join_with_length ("," +:+ newline_indent (S level))
                  (map (iterencode (S level)) (x :: items))) as H.
    rewrite map_map in H.
    assert (Hle : (list_sum (map (fun y => S (size y)) (x :: items))
                   <= list_sum (map (fun y => S (String.length (iterencode (S level) y)))
                                  (x :: items)))%nat).
    { apply list_sum_le. rewrite Forall_forall in IH |- *.
      intros y Hy. specialize (IH y Hy (S level)). lia. }
    simpl String.length in *. lia.
  - cbn [iterencode size].
    destruct members as [|[k x] members]; [simpl; lia|].
    rewrite bracket_map, !length_append.
    match goal with
    | |- context [ join_with ?sep (map ?g ?l) ] =>
        pose proof (join_with_length sep (map g l)) as H;
        assert (Hle : (list_sum (map (fun '(_, y) => S (size y)) l)
                       <= list_sum (map (fun p => S (String.length p)) (map g l)))%nat)
    end.
    { rewrite map_map. apply list_sum_le. rewrite Forall_forall in IH |- *.
      intros [k' y] Hy. specialize (IH _ Hy (S level)). simpl in IH.
      rewrite !length_append. lia. }
    simpl String.length in *. lia.
Qed.

(** *** [loads] after [dumps] *)

Lemma dumps_no_bom v : strip_prefix BOM (dumps v) = None.
Proof.
  unfold dumps. pose proof (iterencode_starts 0 v "") as H.
  rewrite string_app_nil_r in H.
  destruct (iterencode 0 v) as [|c r]; [reflexivity|]. simpl in H.
  destruct c as [[] [] [] [] [] [] [] []]; try discriminate H; reflexivity.
Qed.

(** Reading back what was dumped gives the value again. *)
Lemma loads_dumps v : wf_value v -> loads (dumps v) = Returns v.
Proof.
  intros Hwf. unfold loads. rewrite dumps_no_bom.
  pose proof (iterencode_starts 0 v "") as Hs.
  rewrite string_app_nil_r in Hs. fold (dumps v) in Hs.
  rewrite (skip_ws_start _ Hs).
  pose proof (iterencode_reads_back v Hwf 0 (S (2 * String.length (dumps v))) "") as H.
  rewrite string_app_nil_r in H. fold (dumps v) in H.
  rewrite H; [reflexivity | | reflexivity].
  pose proof (size_le_length v 0). unfold dumps. lia.
Qed.

(** *** Whatever [loads] returns is well formed *)

Lemma dict_set_key_in k v d x :
  In x (keys (dict_set k v d)) -> x = k \/ In x (keys d).
Proof.
  induction d as [|[k' v'] d IH]; simpl.
  - intros [<- | []]. auto.
  - destruct (String.eqb k k'); simpl; intros [<- | H]; auto.
    apply IH in H as [-> | H]; auto.
Qed.

Lemma dict_set_nodup k v d : NoDup (keys d) -> NoDup (keys (dict_set k v d)).
Proof.
  induction d as [|[k' v'] d IH]; simpl; intros H.
  - repeat constructor. intros Hin. inversion Hin.
  - apply NoDup_cons in H as [Hk' Hd].
    destruct (String.eqb k k') eqn:E; simpl.
    + apply String.eqb_eq in E. subst k'. apply NoDup_cons. auto.
    + apply String.eqb_neq in E. apply NoDup_cons. split; [|apply IH, Hd].
      intros Hin. apply list_elem_of_In, dict_set_key_in in Hin as [-> | Hin];
        [congruence|]. apply Hk', list_elem_of_In, Hin.
Qed.

Lemma dict_set_values (P : value -> Prop) k v d :
  P v -> Forall (fun kv => P (snd kv)) d ->
  Forall (fun kv => P (snd kv)) (dict_set k v d).
Proof.
  intros Hv. induction 1 as [|[k' v'] d Hx Hd IH]; simpl.
  - repeat constructor. exact Hv.
  - destruct (String.eqb k k'); constructor; auto.
Qed.

Lemma dict_of_pairs_wf pairs :
  Forall (fun kv => wf_value (snd kv)) pairs ->
  wf_value (VDict (dict_of_pairs pairs)).
Proof.
  intros H. apply wf_dict. unfold dict_of_pairs.
  assert (Hacc : forall acc,
             NoDup (keys acc) /\ Forall (fun kv => wf_value (snd kv)) acc ->
             NoDup (keys (fold_left (fun d kv => dict_set kv.1 kv.2 d) pairs acc)) /\
             Forall (fun kv => wf_value (snd kv))
               (fold_left (fun d kv => dict_set kv.1 kv.2 d) pairs acc)).
  { induction H as [|[k v] pairs Hv Hp IH]; intros acc [Hn Hw]; simpl.
    - auto.
    - apply IH. split; [apply dict_set_nodup, Hn | apply dict_set_values; auto]. }
  apply Hacc. split; constructor.
Qed.

Lemma scan_number_wf s v r : scan_number s = Returns (v, r) -> wf_value v.
Proof.
  unfold scan_number. intros H.
  destruct (match s with
            | String c r0 => if Ascii.eqb c "-" then (true, r0) else (false, s)
            | EmptyString => (false, s)
            end) as [neg body].
  destruct (scan_intpart body) as [[d rest]|].
  - destruct (float_follows rest); [discriminate|]. inversion H. exact I.
  - destruct (_ || _); discriminate.
Qed.

Lemma scan_wf fuel :
  (forall s v r, scan_once fuel s = Returns (v, r) -> wf_value v) /\
  (forall s vs r, scan_items fuel s = Returns (vs, r) -> Forall wf_value vs) /\
  (forall s ps r, scan_members fuel s = Returns (ps, r) ->
                  Forall (fun kv => wf_value (snd kv)) ps).
Proof.
  induction fuel as [|f (IHo & IHi & IHm)]; [repeat split; discriminate|].
  repeat split.
  - intros s v r H. cbn [scan_once] in H.
    destruct s as [|c s']; [discriminate|].
    destruct (Ascii.eqb c DQ).
    { destruct (scanstring s') as [[t rest]| |]; simpl in H; inversion H. exact I. }
    destruct (Ascii.eqb c "{").
    { destruct (skip_ws s') as [|c1 r1]; [discriminate|].
      destruct (Ascii.eqb c1 "}").
      { inversion H. simpl. split; [constructor | exact I]. }
      destruct (Ascii.eqb c1 DQ); [|discriminate].
      destruct (scan_members f r1) as [[pairs rest]| |] eqn:E; simpl in H;
        inversion H. apply dict_of_pairs_wf. eapply IHm, E. }
    destruct (Ascii.eqb c "[").
    { destruct (skip_ws s') as [|c1 r1] eqn:Es; [discriminate|].
      destruct (Ascii.eqb c1 "]").
      { inversion H. exact I. }
      destruct (scan_items f (String c1 r1)) as [[items rest]| |] eqn:E; simpl in H;
        inversion H. apply wf_list. eapply IHi, E. }
    destruct (strip_prefix "null" (String c s')); [inversion H; exact I|].
    destruct (strip_prefix "true" (String c s')); [inversion H; exact I|].
    destruct (strip_prefix "false" (String c s')); [inversion H; exact I|].
    eapply scan_number_wf, H.
  - intros s vs r H. cbn [scan_items] in H.
    destruct (scan_once f s) as [[v rest]| |] eqn:E; simpl in H; try discriminate.
    apply IHo in E.
    destruct (skip_ws rest) as [|c r0]; [discriminate|].
    destruct (Ascii.eqb c "]"); [inversion H; repeat constructor; exact E|].
    destruct (Ascii.eqb c ","); [|discriminate].
    destruct (scan_items f (skip_ws r0)) as [[vs' rest']| |] eqn:E'; simpl in H;
      inversion H. constructor; [exact E | eapply IHi, E'].
  - intros s ps r H. cbn [scan_members] in H.
    destruct (scanstring s) as [[key rest]| |]; simpl in H; try discriminate.
    destruct (skip_ws rest) as [|c r0]; [discriminate|].
    destruct (Ascii.eqb c ":"); [|discriminate].
    destruct (scan_once f (skip_ws r0)) as [[v rest1]| |] eqn:E; simpl in H;
      try discriminate.
    apply IHo in E.
    destruct (skip_ws rest1) as [|c1 r1]; [discriminate|].
    destruct (Ascii.eqb c1 "}"); [inversion H; repeat constructor; exact E|].
    destruct (Ascii.eqb c1 ","); [|discriminate].
    destruct (skip_ws r1) as [|c2 r2]; [discriminate|].
    destruct (Ascii.eqb c2 DQ); [|discriminate].
    destruct (scan_members f r2) as [[more rest2]| |] eqn:E'; simpl in H;
      inversion H. constructor; [exact E | eapply IHm, E'].
Qed.

Lemma loads_wf text v : loads text = Returns v -> wf_value v.
Proof.
  unfold loads. destruct (strip_prefix BOM text); [discriminate|].
  destruct (scan_once _ _) as [[v' rest]| |] eqn:E; simpl; try discriminate.
  destruct (skip_ws rest); [|discriminate].
  intros H. inversion H; subst. eapply scan_wf, E.
Qed.

Lemma parsed_wf v : parsed v -> wf_value v.
Proof. intros [text H]. exact (loads_wf _ _ H). Qed.

(** *** The state of a completed run is well formed *)

Lemma dict_get_wf members k v :
  Forall (fun kv => wf_value (snd kv)) members ->
  dict_get k members = Some v -> wf_value v.
Proof.
  induction 1 as [|[k' v'] members Hx Hm IH]; simpl; [discriminate|].
  destruct (String.eqb k k'); [intros H; inversion H; subst; exact Hx | exact IH].
Qed.

Lemma subscript_wf v k x :
  wf_value v -> subscript v k = Returns x -> wf_value x.
Proof.
  destruct v as [| | | | |members]; try discriminate. intros Hwf.
  apply wf_dict in Hwf as [_ Hwf]. simpl.
  destruct (dict_get k members) eqn:E; [|discriminate].
  intros H. inversion H; subst. eapply dict_get_wf; eauto.
Qed.

Lemma get_default_wf v k d x :
  wf_value v -> wf_value d -> get_default v k d = Returns x -> wf_value x.
Proof.
  destruct v as [| | | | |members]; try discriminate. intros Hwf Hd.
  apply wf_dict in Hwf as [_ Hwf]. simpl.
  destruct (dict_get k members) eqn:E; intros H; inversion H; subst;
    [eapply dict_get_wf; eauto | exact Hd].
Qed.

Lemma init_state_wf intent hint st0 :
  wf_value intent -> init_state intent hint = Returns st0 ->
  wf_value (topic st0) /\ wf_value (question st0) /\
  wf_value (emotion st0) /\ wf_value (constraints st0).
Proof.
  intros Hwf. unfold init_state.
  destruct (get_default intent "topic" _) as [t| |] eqn:Et; try discriminate.
  destruct (subscript intent "question") as [q| |] eqn:Eq; try discriminate.
  destruct (get_default intent "emotion" _) as [e| |] eqn:Ee; try discriminate.
  destruct (get_default intent "constraints" _) as [c| |] eqn:Ec; try discriminate.
  simpl. intros H. inversion H; subst. simpl.
  apply get_default_wf in Et; [|exact Hwf | exact I].
  apply subscript_wf in Eq; [|exact Hwf].
  apply get_default_wf in Ee; [|exact Hwf | exact I].
  apply get_default_wf in Ec; [|exact Hwf | exact I].
  auto.
Qed.

Lemma drawn_record_wf cards sp r :
  wf_value cards -> drawn_record cards sp r -> wf_value r.
Proof.
  intros Hwf (name & o & kw & interp & Hd & Hp & ->).
  destruct Hd as (items & card & -> & Hin & Hn & Hk).
  apply wf_list in Hwf. rewrite Forall_forall in Hwf.
  apply list_elem_of_In, Hwf in Hin.
  apply subscript_wf in Hn; [|exact Hin].
  assert (Hkw : wf_value kw).
  { destruct Hk as [[_ Hk] | [_ Hk]]; exact (subscript_wf _ _ _ Hin Hk). }
  apply parsed_wf in Hp.
  unfold make_record. apply wf_dict. split.
  - apply (bool_decide_unpack _). vm_compute. exact I.
  - repeat constructor; assumption.
Qed.

Lemma prelude_parsed w cards P hint intent w1 :
  prelude py_repr w = (Returns (cards, P, hint, intent), w1) ->
  parsed cards /\ parsed intent.
Proof.
  intros H. split.
  - apply prelude_deck in H as (text & _ & Hl). exists text. exact Hl.
  - unfold prelude in H. returned H. destruct a as [cards' P'].
    returned H. destruct a as [t p]. returned H.
    apply ret_returns in H as [H _]. inversion H; subst; clear H.
    unfold parse_intent in Hstep1.
    match goal with
    | Hc : call_llm _ _ _ _ _ = _ |- _ =>
        apply call_llm_cases in Hc as [[_ Hno] | (req & _ & Hp)];
          [exfalso; eapply Hno; reflexivity | exact (Hp _ eq_refl eq_refl)]
    end.
Qed.

Lemma completed_state_wf w st review w' :
  main_body py_repr w = (Returns (st, review), w') ->
  wf_value (state_value st).
Proof.
  intros H.
  apply main_body_returns in H as (cards & P & hint & intent & w1 & Hp & Hs).
  apply prelude_parsed in Hp as [Hc Hi].
  apply parsed_wf in Hc. apply parsed_wf in Hi.
  apply session_returns in Hs as (st0 & Hinit & Hst & Hrs).
  apply init_state_wf in Hinit as (Ht & Hq & He & Hcs); [|exact Hi].
  rewrite Hst. unfold state_value, with_history. cbn [topic question emotion
    constraints draw_history]. apply wf_dict. split.
  - apply (bool_decide_unpack _). vm_compute. exact I.
  - repeat constructor; try assumption. cbn [snd]. apply wf_list.
    apply Forall_lookup_2. intros i r Hr.
    destruct (Forall2_lookup_r _ _ _ _ _ Hrs Hr) as (sp & _ & Hd).
    exact (drawn_record_wf _ _ _ Hc Hd).
Qed.

(** ** The recorder *)

Lemma runs_paths_differ ts :
  runs_path ("run_" +:+ ts +:+ ".json") <> runs_path ("run_" +:+ ts +:+ ".md").
Proof.
  unfold runs_path. intros H.
  apply String.app_inj in H. apply String.app_inj in H.
  apply String.app_inj in H. discriminate.
Qed.

Lemma save_run_spec st review_text w :
  wf_value (state_value st) ->
  let json_path := runs_path ("run_" +:+ clock w +:+ ".json") in
  let md_path := runs_path ("run_" +:+ clock w +:+ ".md") in
  exists w',
    save_run py_repr st (VStr review_text) w = (Returns (), w') /\
    twrites w' = twrites w ++ [json_path; md_path] /\
    (exists text, files w' !! json_path = Some text /\
                  loads text = Returns (state_value st)) /\
    files w' !! md_path = Some review_text /\
    forall p, p <> json_path -> p <> md_path -> files w' !! p = files w !! p.
Proof.
  intros Hwf json_path md_path.
  pose proof (runs_paths_differ (clock w)) as Hne. fold json_path md_path in Hne.
  exists (snd (save_run py_repr st (VStr review_text) w)).
  split; [reflexivity|].
  unfold save_run, now_stamp, write_text, print. rewrite !bind_unfold.
  cbn [snd files trace log]. fold json_path md_path.
  split; [|split; [|split]].
  - unfold twrites, writes. simpl. rewrite !omap_app. simpl.
    rewrite !app_nil_r, <- !app_assoc. reflexivity.
  - exists (dumps (state_value st)). split; [|apply loads_dumps, Hwf].
    rewrite lookup_insert_ne by (intros E; apply Hne; symmetry; exact E).
    apply lookup_insert_eq.
  - apply lookup_insert_eq.
  - intros p Hj Hm. rewrite !lookup_insert_ne by congruence. reflexivity.
Qed.

(** C3: given the state, the review text and the stamp of the clock,
    the recorder returns after writing exactly two files,
    [runs/run_T.json] and then [runs/run_T.md], both named by the same
    stamp; reading the first one back with [json.loads] gives the state,
    the second holds the review text unchanged, and no other file is
    touched. *)
Theorem recorder_round_trip st review_text w :
  wf_value (state_value st) ->
  let json_path := runs_path ("run_" +:+ clock w +:+ ".json") in
  let md_path := runs_path ("run_" +:+ clock w +:+ ".md") in
  exists w',
    save_run py_repr st (VStr review_text) w = (Returns (), w') /\
    twrites w' = twrites w ++ [json_path; md_path] /\
    (exists text, files w' !! json_path = Some text /\
                  loads text = Returns (state_value st)) /\
    files w' !! md_path = Some review_text /\
    forall p, p <> json_path -> p <> md_path -> files w' !! p = files w !! p.
Proof. apply save_run_spec. Qed.

Lemma save_run_returns st review w u w' :
  save_run py_repr st review w = (Returns u, w') -> exists text, review = VStr text.
Proof.
  destruct review as [| | |text| |]; try discriminate. eauto.
Qed.

Lemma for_enumerate_keeps {X} (f : World -> X) body ps :
  (forall k pos st, keeps f (body k pos st)) ->
  forall k st, keeps f (for_enumerate body k ps st).
Proof.
  intros Hb. induction ps as [|pos ps IH]; intros k st; simpl.
  - intros w. reflexivity.
  - apply keeps_bind; [apply Hb | intros; apply IH].
Qed.

Lemma main_keeps_clock cards P hint intent w st review w1 w2 w3 :
  prelude py_repr w = (Returns (cards, P, hint, intent), w1) ->
  for_enumerate (draw_step py_repr P cards) 1 positions
    (with_history st []) w1 = (Returns st, w2) ->
  final_review py_repr P st w2 = (Returns review, w3) ->
  clock w3 = clock w.
Proof.
  intros Hp Hl Hr.
  assert (K1 : keeps clock (prelude py_repr))
    by (unfold prelude, load_all, ask, parse_intent, call_llm; keeps_go).
  assert (K2 : forall k pos s, keeps clock (draw_step py_repr P cards k pos s)).
  { intros k pos s.
    unfold draw_step, draw_card, choice_value, show_draw, call_llm. keeps_go. }
  assert (K3 : keeps clock (final_review py_repr P st))
    by (unfold final_review, call_llm; keeps_go).
  rewrite (keeps_at _ _ _ _ _ K3 Hr).
  rewrite (keeps_at _ _ _ _ _ (for_enumerate_keeps clock _ _ K2 _ _) Hl).
  exact (keeps_at _ _ _ _ _ K1 Hp).
Qed.

(** X18: Every run that completes has written its final state and
    its review under the stamp the clock gave when the script read it,
    once, before saving; and the state can be read back from its
    file. *)
Lemma completed_run_round_trip w st review w' :
  main_body py_repr w = (Returns (st, review), w') ->
  exists text review_text,
    files w' !! runs_path ("run_" +:+ clock w +:+ ".json") = Some text /\
    loads text = Returns (state_value st) /\
    review = VStr review_text /\
    files w' !! runs_path ("run_" +:+ clock w +:+ ".md") = Some review_text.
Proof.
  intros H. pose proof (completed_state_wf _ _ _ _ H) as Hwf.
  apply main_body_returns in H as (cards & P & hint & intent & w1 & Hp & Hs).
  pose proof (session_returns _ _ _ _ _ _ _ _ Hs) as (st0 & Hinit & Hst & _).
  unfold session in Hs.
  apply bind_returns in Hs as (s0 & wa & Hi0 & Hs).
  apply bind_returns in Hs as (s1 & wb & Hloop & Hs).
  apply bind_returns in Hs as (rv & wc & Hrev & Hs).
  apply bind_returns in Hs as (u & wd & Hsave & Hs).
  apply ret_returns in Hs as [Hs ->]. inversion Hs; subst s1 rv; clear Hs.
  apply lift_returns in Hi0 as [Hi0 ->].
  rewrite Hinit in Hi0. inversion Hi0; subst s0; clear Hi0.
  destruct (save_run_returns _ _ _ _ _ Hsave) as [review_text ->].
  destruct (save_run_spec st review_text wc Hwf)
    as (we & Hspec & _ & (text & Hj & Hl) & Hm & _).
  rewrite Hspec in Hsave. inversion Hsave; subst we.
  assert (Hclock : clock wc = clock w).
  { eapply main_keeps_clock; eauto.
    replace (with_history st []) with st0; [exact Hloop|].
    pose proof (init_state_history _ _ _ Hinit) as Hh.
    rewrite Hst. destruct st0 as [t0 q0 e0 c0 h0]. simpl in Hh. subst h0.
    reflexivity. }
  rewrite Hclock in Hj, Hm. exists text, review_text. auto.
Qed.

(** * Further properties of the script *)

(** ** Events are only ever appended *)

Lemma emits_bind {A B} (P : Event -> Prop) (m : M A) (k : A -> M B) :
  emits P m -> (forall a, emits P (k a)) -> emits P (m ≫= k).
Proof.
  intros Hm Hk w. rewrite bind_unfold. destruct (Hm w) as (es & He & Hp).
  destruct (m w) as [[a|e|] w1]; simpl in *;
    [| exists es; split; assumption ..].
  destruct (Hk a w1) as (es' & He' & Hp'). exists (es ++ es').
  split; [rewrite He', He, app_assoc; reflexivity | apply Forall_app; auto].
Qed.

Ltac emits_prim :=
  let w := fresh "w" in
  intros w;
  unfold load_text; unfold read_text, write_text, mkdir, print, input, choice,
    now_stamp, create, lift, raise, getenv, mret, M_ret;
  repeat case_match; simpl;
  first [ exists []; split; [rewrite app_nil_r; reflexivity | constructor]
        | eexists [_]; split; [reflexivity | repeat constructor; simpl; auto] ].

Ltac emits_go :=
  repeat match goal with
    | |- emits _ (_ ≫= _) => apply emits_bind; [|intros]
    | |- emits _ (if ?b then _ else _) => destruct b
    | |- emits _ (match ?x with _ => _ end) => destruct x
    | |- emits _ _ => solve [emits_prim]
    end.

Lemma emits_at {A} (P : Event -> Prop) (m : M A) w out w' :
  emits P m -> m w = (out, w') ->
  exists es, trace w' = trace w ++ es /\ Forall P es.
Proof. intros Hm H. specialize (Hm w). rewrite H in Hm. exact Hm. Qed.

Lemma for_enumerate_emits (P : Event -> Prop) body ps :
  (forall k pos st, emits P (body k pos st)) ->
  forall k st, emits P (for_enumerate body k ps st).
Proof.
  intros Hb. induction ps as [|pos ps IH]; intros k st; simpl.
  - intros w. exists []. rewrite app_nil_r. auto.
  - apply emits_bind; [apply Hb | intros; apply IH].
Qed.

Lemma main_body_emits : emits any_event (main_body py_repr).
Proof.
  unfold main_body, prelude, load_all, ask, parse_intent, call_llm.
  apply emits_bind; [emits_go|]. intros [[[cards P] hint] intent].
  unfold session. apply emits_bind; [emits_go|]. intros st0.
  apply emits_bind.
  { apply for_enumerate_emits. intros k pos st.
    unfold draw_step, draw_card, choice_value, show_draw, call_llm. emits_go. }
  intros st. unfold final_review, call_llm, save_run. emits_go.
Qed.

(** ** Startup *)

(** With a key, the script imports the package, makes the directory
    and runs [main]; each of the first two steps can stop it. *)
Lemma program_steps w key :
  environ w !! "OPENAI_API_KEY" = Some key -> key <> "" ->
  program py_repr w
  = if sdk w then
      match files w !! RUNS_DIR with
      | Some _ => (Raises (FileExistsError RUNS_DIR), w)
      | None => main py_repr (log (EMkdir RUNS_DIR) w)
      end
    else (Raises ImportError, w).
Proof.
  intros Hk Hne. unfold program. rewrite bind_unfold. unfold getenv. rewrite Hk.
  destruct (String.eqb key "") eqn:E; [apply String.eqb_eq in E; contradiction|].
  rewrite bind_unfold. unfold import_openai.
  destruct (sdk w); [|reflexivity].
  rewrite bind_unfold. unfold mkdir.
  destruct (files w !! RUNS_DIR); reflexivity.
Qed.

Lemma main_trace w :
  exists es, trace (snd (main py_repr w)) = trace w ++ es.
Proof.
  unfold main. rewrite bind_unfold.
  destruct (main_body_emits w) as (es & He & _). exists es.
  destruct (main_body py_repr w) as [[x|e|] w1]; exact He.
Qed.

Lemma program_with_key w key :
  environ w !! "OPENAI_API_KEY" = Some key -> key <> "" ->
  if sdk w then
    match files w !! RUNS_DIR with
    | Some _ => program py_repr w = (Raises (FileExistsError RUNS_DIR), w)
    | None =>
        exists es,
          trace (snd (program py_repr w)) = trace w ++ EMkdir RUNS_DIR :: es
    end
  else program py_repr w = (Raises ImportError, w).
Proof.
  intros Hk Hne. rewrite (program_steps w key Hk Hne).
  destruct (sdk w); [|reflexivity].
  destruct (files w !! RUNS_DIR); [reflexivity|].
  destruct (main_trace (log (EMkdir RUNS_DIR) w)) as (es & He).
  exists es. rewrite He. cbn [trace log]. rewrite <- app_assoc. reflexivity.
Qed.

(** X1: With a key in the environment the script first imports the
    [openai] package: when that cannot be imported it stops with
    [ImportError], untouched.  Otherwise it makes the [runs]
    directory: when [runs] is a regular file it stops with
    [FileExistsError], nothing made and nothing run; when it is not,
    making the directory is the first effect of the script, whatever
    happens afterwards. *)
Theorem runs_directory_comes_first w key :
  environ w !! "OPENAI_API_KEY" = Some key -> key <> "" ->
  if sdk w then
    match files w !! RUNS_DIR with
    | Some _ => program py_repr w = (Raises (FileExistsError RUNS_DIR), w)
    | None =>
        exists es,
          trace (snd (program py_repr w)) = trace w ++ EMkdir RUNS_DIR :: es
    end
  else program py_repr w = (Raises ImportError, w).
Proof. apply program_with_key. Qed.

(** X2: The script stops with [ValueError] in an untouched world exactly
    when the key is absent from the environment or set to the empty
    string. *)
Theorem program_untouched_iff w :
  program py_repr w = (Raises ValueError, w)
  <-> environ w !! "OPENAI_API_KEY" = None \/ environ w !! "OPENAI_API_KEY" = Some "".
Proof.
  split.
  - intros H. destruct (environ w !! "OPENAI_API_KEY") as [key|] eqn:Hk; [|auto].
    destruct (String.eqb key "") eqn:E; [apply String.eqb_eq in E; subst; auto|].
    apply String.eqb_neq in E.
    pose proof (program_with_key w key Hk E) as Hp.
    destruct (sdk w); [|rewrite H in Hp; discriminate].
    destruct (files w !! RUNS_DIR); [rewrite H in Hp; discriminate|].
    destruct Hp as (es & He). rewrite H in He. simpl in He.
    rewrite <- (app_nil_r (trace w)) in He at 1.
    apply app_inv_head in He. discriminate.
  - intros [H | H]; unfold program; rewrite bind_unfold; unfold getenv; rewrite H;
      reflexivity.
Qed.

(** ** The draw, number by number *)

Lemma draw_card_at items card o w :
  items !! (rng w (rng_used w) mod length items)%nat = Some card ->
  ["upright"; "reversed"] !! (rng w (S (rng_used w)) mod 2)%nat = Some o ->
  is_card card = true ->
  exists nm kw,
    subscript card "name" = Returns (VStr nm) /\
    subscript card (o +:+ "_keywords") = Returns kw /\
    is_strings kw = true /\
    draw_card (VList items) w = (Returns (VStr nm, o, kw), bump (bump w)).
Proof using.
  intros Hcard Ho Hok.
  destruct card as [| | | | |members]; try discriminate. simpl in Hok.
  destruct (dict_get "name" members) as [[| | |nm| |]|] eqn:En; try discriminate.
  destruct (dict_get "upright_keywords" members) as [u|] eqn:Eu; try discriminate.
  destruct (dict_get "reversed_keywords" members) as [r|] eqn:Er; try discriminate.
  assert (Hc1 : choice items w = (Returns (VDict members), bump w))
    by (unfold choice; rewrite Hcard; reflexivity).
  assert (Hc2 : choice ["upright"; "reversed"] (bump w) = (Returns o, bump (bump w)))
    by (unfold choice; cbn [rng rng_used bump length]; rewrite Ho; reflexivity).
  assert (Hcases : o = "upright" \/ o = "reversed").
  { apply list_elem_of_lookup_2, list_elem_of_In in Ho.
    destruct Ho as [<- | [<- | []]]; [left | right]; reflexivity. }
  apply andb_true_iff in Hok as [Hu Hr].
  exists nm, (if String.eqb o "upright" then u else r).
  unfold draw_card. simpl choice_value.
  rewrite bind_unfold, Hc1, bind_unfold, Hc2, bind_unfold.
  unfold lift, subscript. rewrite En.
  destruct Hcases as [-> | ->].
  - change (String.eqb "upright" "upright") with true. cbv iota.
    change ("upright" +:+ "_keywords") with "upright_keywords".
    rewrite Eu, bind_unfold. auto.
  - change (String.eqb "reversed" "upright") with false. cbv iota.
    change ("reversed" +:+ "_keywords") with "reversed_keywords".
    rewrite Er, bind_unfold. auto.
Qed.

(** What a draw from a non-empty deck does, whatever the card is *)
Lemma draw_card_nonempty items w :
  items <> [] ->
  exists card o,
    items !! (rng w (rng_used w) mod length items)%nat = Some card /\
    ["upright"; "reversed"] !! (rng w (S (rng_used w)) mod 2)%nat = Some o /\
    draw_card (VList items) w
    = ((kw ← subscript card (o +:+ "_keywords");
        name ← subscript card "name";
        Returns (name, o, kw)), bump (bump w)).
Proof using.
  intros Hne.
  destruct (choice_nonempty items w Hne) as (card & Hcard & Hc).
  destruct (choice_nonempty ["upright"; "reversed"] (bump w)) as (o & Ho & Hch);
    [discriminate|].
  exists card, o. split; [exact Hcard|]. split; [exact Ho|].
  assert (Hcases : o = "upright" \/ o = "reversed").
  { apply list_elem_of_lookup_2, list_elem_of_In in Ho.
    destruct Ho as [<- | [<- | []]]; [left | right]; reflexivity. }
  unfold draw_card. simpl choice_value.
  rewrite bind_unfold, Hc, bind_unfold, Hch, bind_unfold. unfold lift.
  destruct Hcases as [-> | ->].
  - change (String.eqb "upright" "upright") with true. cbv iota.
    change ("upright" +:+ "_keywords") with "upright_keywords".
    destruct (subscript card "upright_keywords") as [kw|e|]; try reflexivity.
    rewrite bind_unfold.
    destruct (subscript card "name") as [name|e|]; reflexivity.
  - change (String.eqb "reversed" "upright") with false. cbv iota.
    change ("reversed" +:+ "_keywords") with "reversed_keywords".
    destruct (subscript card "reversed_keywords") as [kw|e|]; try reflexivity.
    rewrite bind_unfold.
    destruct (subscript card "name") as [name|e|]; reflexivity.
Qed.

Lemma subscript_no_index_error v k : subscript v k <> Raises IndexError.
Proof using.
  destruct v as [| | | | |members]; simpl; try discriminate.
  destruct (dict_get k members); discriminate.
Qed.

(** C10, as the code has it: on the empty deck [draw_card] raises
    [IndexError] and takes no random number.  On a non-empty deck that
    error cannot happen: two random numbers are taken, the first picks
    the card and the second the orientation, and that card decides the
    rest: its keywords of that orientation are looked up, then its
    name, and the triple returned is this name, this orientation and
    these keywords.  A card that lacks one of the two keys, or is no
    dict, makes the draw raise [KeyError] or [TypeError] instead: a
    triple is returned when the card drawn is a Card, not on every
    non-empty deck. *)
Theorem draw_card_total items w :
  match items with
  | [] => draw_card (VList items) w = (Raises IndexError, w)
  | _ :: _ =>
      fst (draw_card (VList items) w) <> Raises IndexError /\
      exists card o,
        items !! (rng w (rng_used w) mod length items)%nat = Some card /\
        ["upright"; "reversed"] !! (rng w (S (rng_used w)) mod 2)%nat = Some o /\
        draw_card (VList items) w
        = ((kw ← subscript card (o +:+ "_keywords");
            name ← subscript card "name";
            Returns (name, o, kw)), bump (bump w)) /\
        (is_card card = true ->
         exists nm kw,
           subscript card "name" = Returns (VStr nm) /\
           subscript card (o +:+ "_keywords") = Returns kw /\
           is_strings kw = true /\
           draw_card (VList items) w = (Returns (VStr nm, o, kw), bump (bump w)))
  end.
Proof using.
  destruct items as [|c0 items]; [reflexivity|].
  destruct (draw_card_nonempty (c0 :: items) w) as (card & o & Hcard & Ho & Heq);
    [discriminate|].
  split.
  - rewrite Heq. cbn [fst].
    pose proof (subscript_no_index_error card (o +:+ "_keywords")) as H1.
    pose proof (subscript_no_index_error card "name") as H2.
    destruct (subscript card (o +:+ "_keywords")) as [kw|e|]; simpl;
      [|congruence|discriminate].
    destruct (subscript card "name") as [name|e|]; simpl;
      [discriminate|congruence|discriminate].
  - exists card, o. split; [exact Hcard|]. split; [exact Ho|]. split; [exact Heq|].
    intros Hok. exact (draw_card_at (c0 :: items) card o w Hcard Ho Hok).
Qed.

(** X3: With the next two random numbers known, the draw is known: the
    first picks the card, the second the orientation; when that card is
    a Card, the draw returns its name, a string, and its keywords of
    that orientation, a list of strings, and exactly these two numbers
    are used up. *)
Theorem draw_card_follows_rng items card o w :
  items !! (rng w (rng_used w) mod length items)%nat = Some card ->
  ["upright"; "reversed"] !! (rng w (S (rng_used w)) mod 2)%nat = Some o ->
  is_card card = true ->
  exists nm kw,
    subscript card "name" = Returns (VStr nm) /\
    subscript card (o +:+ "_keywords") = Returns kw /\
    is_strings kw = true /\
    draw_card (VList items) w = (Returns (VStr nm, o, kw), bump (bump w)).
Proof using. apply draw_card_at. Qed.

(** ** Failing before the session *)

Lemma log_log_all e es w : log e (log_all es w) = log_all (es ++ [e]) w.
Proof. unfold log, log_all. simpl. rewrite <- app_assoc. reflexivity. Qed.

Lemma log_all_nil w : log_all [] w = w.
Proof. destruct w. unfold log_all. simpl. rewrite app_nil_r. reflexivity. Qed.

Lemma read_text_present p text w :
  files w !! p = Some text -> read_text p w = (Returns text, log_all [ERead p] w).
Proof. intros H. unfold read_text. rewrite H. reflexivity. Qed.

Lemma read_text_present_next p text es w :
  files w !! p = Some text ->
  read_text p (log_all es w) = (Returns text, log_all (es ++ [ERead p]) w).
Proof.
  intros H. unfold read_text. cbn [files log_all]. rewrite H.
  rewrite log_log_all. reflexivity.
Qed.

Lemma read_text_absent p w :
  files w !! p = None -> read_text p w = (Raises (FileNotFoundError p), w).
Proof. intros H. unfold read_text. rewrite H. reflexivity. Qed.

Ltac read_on :=
  repeat first
    [ erewrite read_text_present_next by eassumption
    | erewrite read_text_present by eassumption
    | rewrite read_text_absent by (cbn [files log_all]; assumption)
    | progress cbv beta iota
    | rewrite bind_unfold ].


(** X5: A deck file that [json.loads] does not accept stops the run with
    the parser's error once that one file was read; no template is read. *)
Theorem malformed_deck_is_fatal w text e :
  files w !! CARDS_PATH = Some text ->
  loads text = Raises e ->
  main_body py_repr w = (Raises e, log (ERead CARDS_PATH) w).
Proof.
  intros Hf Hl. unfold main_body, prelude, load_all.
  rewrite !bind_unfold. unfold read_text. rewrite Hf. unfold lift. rewrite Hl.
  reflexivity.
Qed.

(** ** The two questions *)

Lemma ask_short w :
  (length (stdin w) < 2)%nat -> fst (ask w) = Raises EOFError.
Proof.
  intros Hlen. unfold ask, print, input. rewrite !bind_unfold. cbn [stdin log].
  destruct (stdin w) as [|t [|p rest]]; simpl in Hlen; try lia; reflexivity.
Qed.

Lemma load_all_keeps_stdin : keeps stdin load_all.
Proof. unfold load_all. keeps_go. Qed.

(** X6: When the input ends before both questions were answered, the run
    stops with [EOFError]: no call was made, no card was drawn and no
    file was written. *)
Theorem input_exhausted_aborts w loaded w0 :
  load_all w = (Returns loaded, w0) ->
  (length (stdin w) < 2)%nat ->
  exists w',
    main_body py_repr w = (Raises EOFError, w') /\
    tcalls w' = tcalls w /\ twrites w' = twrites w /\
    files w' = files w /\ rng_used w' = rng_used w.
Proof.
  intros Hload Hlen.
  pose proof (keeps_at _ _ _ _ _ load_all_keeps_stdin Hload) as Hin.
  rewrite <- Hin in Hlen. apply ask_short in Hlen.
  destruct (ask w0) as [out w1] eqn:Ea. simpl in Hlen. subst out.
  assert (Hp : prelude py_repr w = (Raises EOFError, w1)).
  { unfold prelude. rewrite bind_unfold, Hload. destruct loaded as [cards P].
    rewrite bind_unfold, Ea. reflexivity. }
  exists w1. split; [|split; [|split; [|split]]].
  - unfold main_body. rewrite bind_unfold, Hp. reflexivity.
  - rewrite (keeps_at _ _ _ _ _ ask_keeps_calls Ea).
    exact (keeps_at _ _ _ _ _ load_all_keeps_calls Hload).
  - exact (keeps_at _ _ _ _ _ prelude_keeps_writes Hp).
  - exact (keeps_at _ _ _ _ _ prelude_keeps_files Hp).
  - exact (keeps_at _ _ _ _ _ prelude_keeps_rng Hp).
Qed.

(** ** An intent that is no object *)

(** X7: When the parsed reply of the intent call is not an object (an
    array, a string, a number, [null]), the run stops at the first
    [intent.get] with an [AttributeError]: no card was drawn, no file
    was written, and the one call was not repeated. *)
Theorem non_object_intent_aborts w cards P hint intent w1 :
  prelude py_repr w = (Returns (cards, P, hint, intent), w1) ->
  (forall members, intent <> VDict members) ->
  main_body py_repr w = (Raises AttributeError, w1) /\
  rng_used w1 = rng_used w /\
  files w1 = files w /\
  twrites w1 = twrites w /\
  exists c, tcalls w1 = tcalls w ++ [c].
Proof.
  intros Hp Hno. split; [|split; [|split; [|split]]].
  - unfold main_body. rewrite bind_unfold, Hp. unfold session.
    rewrite bind_unfold. unfold lift, init_state.
    destruct intent as [| | | | |members]; try reflexivity.
    exfalso. exact (Hno members eq_refl).
  - exact (keeps_at _ _ _ _ _ prelude_keeps_rng Hp).
  - exact (keeps_at _ _ _ _ _ prelude_keeps_files Hp).
  - exact (keeps_at _ _ _ _ _ prelude_keeps_writes Hp).
  - destruct (prelude_calls _ _ _ Hp) as (cs & Hcs & _ & Hlen).
    specialize (Hlen _ eq_refl).
    destruct cs as [|c [|]]; try discriminate. exists c. exact Hcs.
Qed.

(** ** What a run writes, and when *)

Lemma draw_step_keeps_writes P cards k pos st :
  keeps twrites (draw_step py_repr P cards k pos st).
Proof.
  unfold draw_step, draw_card, choice_value, show_draw, call_llm. keeps_go.
Qed.

Lemma draw_step_keeps_files P cards k pos st :
  keeps files (draw_step py_repr P cards k pos st).
Proof.
  unfold draw_step, draw_card, choice_value, show_draw, call_llm. keeps_go.
Qed.

Lemma draw_step_keeps_clock P cards k pos st :
  keeps clock (draw_step py_repr P cards k pos st).
Proof.
  unfold draw_step, draw_card, choice_value, show_draw, call_llm. keeps_go.
Qed.

Lemma final_review_keeps_writes P st : keeps twrites (final_review py_repr P st).
Proof. unfold final_review, call_llm. keeps_go. Qed.

Lemma final_review_keeps_files P st : keeps files (final_review py_repr P st).
Proof. unfold final_review, call_llm. keeps_go. Qed.

Lemma final_review_keeps_clock P st : keeps clock (final_review py_repr P st).
Proof. unfold final_review, call_llm. keeps_go. Qed.

Lemma prelude_keeps_clock : keeps clock (prelude py_repr).
Proof. unfold prelude, load_all, ask, parse_intent, call_llm. keeps_go. Qed.

(** The recorder writes the state first; the review follows only when
    it is text. *)
Lemma save_run_cases st review w out w' :
  save_run py_repr st review w = (out, w') ->
  let json_path := runs_path ("run_" +:+ clock w +:+ ".json") in
  let md_path := runs_path ("run_" +:+ clock w +:+ ".md") in
  (exists text, review = VStr text /\ out = Returns () /\
                twrites w' = twrites w ++ [json_path; md_path] /\
                files w' = <[md_path := text]>
                             (<[json_path := dumps (state_value st)]> (files w)))
  \/ ((forall text, review <> VStr text) /\ out = Raises TypeError /\
      twrites w' = twrites w ++ [json_path] /\
      files w' = <[json_path := dumps (state_value st)]> (files w)).
Proof.
  unfold save_run, now_stamp, write_text, print. rewrite !bind_unfold.
  cbv beta iota.
  destruct review as [| | |text| |]; cbv beta iota; rewrite ?bind_unfold;
    cbv beta iota; intros H; inversion H; subst; clear H;
    [right | right | right | left; exists text | right | right];
    unfold twrites, writes; cbn [trace files log];
    rewrite ?omap_app; cbn [omap]; rewrite ?app_nil_r, <- ?app_assoc;
    repeat split; auto; discriminate.
Qed.

Lemma session_cases cards P hint intent w out w' :
  session py_repr cards P hint intent w = (out, w') ->
  let json_path := runs_path ("run_" +:+ clock w +:+ ".json") in
  let md_path := runs_path ("run_" +:+ clock w +:+ ".md") in
  exists cs, tcalls w' = tcalls w ++ cs /\
    (((length cs <= 4)%nat /\ twrites w' = twrites w /\ files w' = files w /\
      forall x, out <> Returns x)
     \/ (length cs = 4%nat /\ exists st, length (draw_history st) = 3%nat /\
           ((out = Raises TypeError /\ twrites w' = twrites w ++ [json_path] /\
             files w' = <[json_path := dumps (state_value st)]> (files w))
            \/ (exists text, out = Returns (st, VStr text) /\
                  twrites w' = twrites w ++ [json_path; md_path] /\
                  files w' = <[md_path := text]>
                               (<[json_path := dumps (state_value st)]> (files w)))))).
Proof.
  intros H json_path md_path. revert H.
  unfold session. rewrite bind_unfold. unfold lift.
  destruct (init_state intent hint) as [st0|e|] eqn:Hinit; cbv beta iota;
    [|intros Hrun; inversion Hrun; subst; exists []; rewrite app_nil_r; split; auto;
      left; repeat split; auto; simpl; try lia; discriminate ..].
  rewrite bind_unfold.
  destruct (for_enumerate _ _ _ _ w) as [[st1|e|] w1] eqn:EL;
    pose proof (keeps_at _ _ _ _ _
      (for_enumerate_keeps twrites _ _ (draw_step_keeps_writes P cards) _ _) EL) as Kw;
    pose proof (keeps_at _ _ _ _ _
      (for_enumerate_keeps files _ _ (draw_step_keeps_files P cards) _ _) EL) as Kf;
    pose proof (keeps_at _ _ _ _ _
      (for_enumerate_keeps clock _ _ (draw_step_keeps_clock P cards) _ _) EL) as Kc;
    apply loop_spec in EL as (rs & cs & Hcs & _ & _ & _ & Hl3 & _ & Hout);
    simpl in Hl3;
    [|intros Hrun; inversion Hrun; subst; exists cs; split; auto;
      left; repeat split; auto; try lia; discriminate ..].
  destruct (Hout _ eq_refl) as (-> & Hlen & Hlen'). simpl in Hlen, Hlen'.
  rewrite (init_state_history _ _ _ Hinit) in *. cbn [app] in *.
  set (st1 := with_history st0 rs) in *.
  rewrite bind_unfold.
  destruct (final_review py_repr P st1 w1) as [[review|e|] w2] eqn:ER;
    pose proof (keeps_at _ _ _ _ _ (final_review_keeps_writes P st1) ER) as Kw2;
    pose proof (keeps_at _ _ _ _ _ (final_review_keeps_files P st1) ER) as Kf2;
    pose proof (keeps_at _ _ _ _ _ (final_review_keeps_clock P st1) ER) as Kc2;
    unfold final_review in ER;
    apply call_llm_cases in ER as [[Hc2 Hno] | (req & Hc2 & _)];
    try (exfalso; eapply Hno; reflexivity).
  - rewrite bind_unfold.
    destruct (save_run py_repr st1 review w2) as [o3 w3] eqn:ES.
    pose proof (keeps_at _ _ _ _ _ (save_run_keeps_calls _ _) ES) as Hc3.
    apply save_run_cases in ES. rewrite Kc2, Kc in ES. fold json_path md_path in ES.
    destruct ES as [(text & -> & -> & Hw3 & Hf3) | (_ & -> & Hw3 & Hf3)];
      intros Hrun; inversion Hrun; subst; clear Hrun;
      (eexists (cs ++ [(_, req)]);
       split; [rewrite Hc3, Hc2, Hcs, <- app_assoc; reflexivity|]);
      right; (split; [rewrite length_app, Hlen'; reflexivity|]);
      exists st1; (split; [exact Hlen|]);
      [right; exists text | left];
      rewrite Hw3, Hf3, Kw2, Kw, Kf2, Kf; auto.
  - intros Hrun; inversion Hrun; subst. exists cs. split; [rewrite Hc2; exact Hcs|].
    left. repeat split; try congruence; try lia; discriminate.
  - intros Hrun; inversion Hrun; subst. eexists (cs ++ [(_, req)]).
    split; [rewrite Hc2, Hcs, <- app_assoc; reflexivity|].
    left. rewrite length_app, Hlen'. repeat split; try congruence; simpl; try lia.
  - intros Hrun; inversion Hrun; subst. exists cs. split; [rewrite Hc2; exact Hcs|].
    left. repeat split; try congruence; try lia; discriminate.
  - intros Hrun; inversion Hrun; subst. eexists (cs ++ [(_, req)]).
    split; [rewrite Hc2, Hcs, <- app_assoc; reflexivity|].
    left. rewrite length_app, Hlen'. repeat split; try congruence; simpl; try lia.
Qed.

(** The calls of the prelude: at most one, and exactly one when it
    returns. *)
Lemma prelude_call_count w out w1 :
  prelude py_repr w = (out, w1) ->
  exists cs, tcalls w1 = tcalls w ++ cs /\ (length cs <= 1)%nat /\
             (forall x, out = Returns x -> length cs = 1%nat).
Proof.
  unfold prelude. rewrite bind_unfold.
  destruct (load_all w) as [[[cards P]|e|] w2] eqn:E1;
    pose proof (keeps_at _ _ _ _ _ load_all_keeps_calls E1) as H1;
    [|intros H; inversion H; subst; exists []; rewrite app_nil_r;
      repeat split; auto; simpl; try lia; discriminate ..].
  rewrite bind_unfold.
  destruct (ask w2) as [[[t p]|e|] w3] eqn:E2;
    pose proof (keeps_at _ _ _ _ _ ask_keeps_calls E2) as H2;
    [|intros H; inversion H; subst; exists []; rewrite app_nil_r;
      repeat split; auto; simpl; try lia; try congruence; discriminate ..].
  rewrite bind_unfold.
  destruct (parse_intent _ _ _ _ w3) as [[intent|e|] w4] eqn:E3;
    unfold parse_intent in E3;
    apply call_llm_cases in E3 as [[Hc Hno] | (req & Hc & _)];
    try (exfalso; eapply Hno; reflexivity);
    intros H; inversion H; subst;
    first [ eexists [(_, req)];
            split; [rewrite Hc, H2, H1; reflexivity|];
            split; [simpl; lia|]; first [reflexivity | discriminate]
          | exists []; rewrite app_nil_r;
            repeat split; auto; simpl; try lia; try congruence; discriminate ].
Qed.

Lemma main_body_cases w out w' :
  main_body py_repr w = (out, w') ->
  let json_path := runs_path ("run_" +:+ clock w +:+ ".json") in
  let md_path := runs_path ("run_" +:+ clock w +:+ ".md") in
  exists cs, tcalls w' = tcalls w ++ cs /\
    (((length cs <= 5)%nat /\ twrites w' = twrites w /\ files w' = files w /\
      forall x, out <> Returns x)
     \/ (length cs = 5%nat /\ exists st, length (draw_history st) = 3%nat /\
           ((out = Raises TypeError /\ twrites w' = twrites w ++ [json_path] /\
             files w' = <[json_path := dumps (state_value st)]> (files w))
            \/ (exists text, out = Returns (st, VStr text) /\
                  twrites w' = twrites w ++ [json_path; md_path] /\
                  files w' = <[md_path := text]>
                               (<[json_path := dumps (state_value st)]> (files w)))))).
Proof.
  intros H json_path md_path. revert H.
  unfold main_body. rewrite bind_unfold.
  destruct (prelude py_repr w) as [[[[[cards P] hint] intent]|e|] w1] eqn:EP;
    pose proof (keeps_at _ _ _ _ _ prelude_keeps_writes EP) as Kw;
    pose proof (keeps_at _ _ _ _ _ prelude_keeps_files EP) as Kf;
    pose proof (keeps_at _ _ _ _ _ prelude_keeps_clock EP) as Kc;
    apply prelude_call_count in EP as (cs0 & Hcs0 & Hle0 & Hlen0).
  - specialize (Hlen0 _ eq_refl). intros H.
    apply session_cases in H as (cs & Hcs & Hcases).
    rewrite Kc, Kw, Kf in Hcases. fold json_path md_path in Hcases.
    exists (cs0 ++ cs). split; [rewrite Hcs, Hcs0, <- app_assoc; reflexivity|].
    rewrite length_app, Hlen0.
    destruct Hcases as [(Hl & Hrest) | (Hl & Hrest)]; [left | right];
      (split; [simpl; lia | exact Hrest]).
  - intros H; inversion H; subst. exists cs0. split; [exact Hcs0|].
    left. repeat split; auto; try lia; discriminate.
  - intros H; inversion H; subst. exists cs0. split; [exact Hcs0|].
    left. repeat split; auto; try lia; discriminate.
Qed.

(** X8: Whatever happens, a run makes at most five calls, and it has
    written nothing unless all five were made. *)
Theorem writes_need_five_calls w out w' :
  main_body py_repr w = (out, w') ->
  exists cs, tcalls w' = tcalls w ++ cs /\ (length cs <= 5)%nat /\
             (twrites w' <> twrites w -> length cs = 5%nat).
Proof.
  intros H. apply main_body_cases in H as (cs & Hcs & Hcases).
  exists cs. split; [exact Hcs|].
  destruct Hcases as [(Hl & Hw & _) | (Hl & _)].
  - split; [exact Hl | intros Hne; contradiction].
  - split; [lia | intros _; exact Hl].
Qed.

(** X9: A run ends in one of three ways. It fails having written
    nothing; or it completes having written the state and then the
    review text, under the stamp of the clock; or, when the review it
    got is not text, it fails with a [TypeError] having written the
    state of the three draws and no review. *)
Theorem run_writes_none_both_or_state_only w out w' :
  main_body py_repr w = (out, w') ->
  let json_path := runs_path ("run_" +:+ clock w +:+ ".json") in
  let md_path := runs_path ("run_" +:+ clock w +:+ ".md") in
  ((forall x, out <> Returns x) /\ twrites w' = twrites w /\ files w' = files w)
  \/ (exists st text,
        out = Returns (st, VStr text) /\
        twrites w' = twrites w ++ [json_path; md_path] /\
        files w' = <[md_path := text]>
                     (<[json_path := dumps (state_value st)]> (files w)))
  \/ (exists st,
        out = Raises TypeError /\ length (draw_history st) = 3%nat /\
        twrites w' = twrites w ++ [json_path] /\
        files w' = <[json_path := dumps (state_value st)]> (files w)).
Proof.
  intros H json_path md_path.
  apply main_body_cases in H as (cs & _ & Hcases).
  fold json_path md_path in Hcases.
  destruct Hcases as [(_ & Hw & Hf & Hno) | (_ & st & Hlen & Hcases)]; [auto|].
  destruct Hcases as [(-> & Hw & Hf) | (text & -> & Hw & Hf)].
  - right. right. exists st. auto.
  - right. left. exists st, text. auto.
Qed.


(** ** What a completed run uses up *)

Lemma draw_card_bumps cards w x w' :
  draw_card cards w = (Returns x, w') -> w' = bump (bump w).
Proof.
  destruct x as [[name o] kw]. intros H.
  destruct (draw_card_returns _ _ _ _ _ _ H) as (items & card & -> & _).
  unfold draw_card in H. simpl choice_value in H. returned H.
  apply choice_returns in Hstep as [_ ->].
  apply choice_returns in Hstep0 as [_ ->].
  apply lift_returns in Hstep1 as [_ ->].
  apply lift_returns in Hstep2 as [_ ->].
  apply ret_returns in H as [_ ->]. reflexivity.
Qed.

Lemma draw_step_takes_two P cards k pos st w st' w' :
  draw_step py_repr P cards k pos st w = (Returns st', w') ->
  rng_used w' = S (S (rng_used w)).
Proof.
  unfold draw_step. intros H.
  apply bind_returns in H as ([[name o] kw] & w1 & Hd & H).
  apply bind_returns in H as (interp & w2 & Hc & H).
  apply bind_returns in H as (u & w3 & Hs & H).
  apply ret_returns in H as [_ ->].
  apply draw_card_bumps in Hd. subst w1.
  assert (K1 : forall prompt vars, keeps rng_used (call_llm py_repr prompt vars true))
    by (intros; unfold call_llm; keeps_go).
  assert (K2 : keeps rng_used (show_draw py_repr k pos name o kw interp))
    by (unfold show_draw; keeps_go).
  rewrite (keeps_at _ _ _ _ _ K2 Hs).
  destruct (k =? 1)%Z; rewrite (keeps_at _ _ _ _ _ (K1 _ _) Hc); reflexivity.
Qed.

Lemma loop_takes_two_each P cards ps : forall k st w st' w',
  for_enumerate (draw_step py_repr P cards) k ps st w = (Returns st', w') ->
  rng_used w' = (rng_used w + 2 * length ps)%nat.
Proof.
  induction ps as [|pos ps IH]; intros k st w st' w' H; simpl in H.
  - apply ret_returns in H as [_ ->]. simpl. lia.
  - apply bind_returns in H as (st1 & w1 & Hd & H).
    apply IH in H. apply draw_step_takes_two in Hd. rewrite H, Hd. simpl. lia.
Qed.

Lemma ask_takes_two w x w' :
  ask w = (Returns x, w') ->
  exists t p, stdin w = t :: p :: stdin w' /\ x = (strip t, strip p).
Proof.
  unfold ask, print, input. rewrite !bind_unfold. cbn [stdin log].
  destruct (stdin w) as [|t [|p rest]]; intros H; try discriminate.
  inversion H; subst. exists t, p. auto.
Qed.

(** X10: A run that completes has taken exactly six random numbers, two
    for each of the three draws, and exactly the first two lines of the
    input; its first call carries, as [player_text], the second line
    with the first one as topic hint, both stripped. *)
Theorem completed_run_footprint w st review w' :
  main_body py_repr w = (Returns (st, review), w') ->
  rng_used w' = (rng_used w + 6)%nat /\
  exists t p, stdin w = t :: p :: stdin w' /\
    exists c rest, tcalls w' = tcalls w ++ c :: rest /\
      fst c = [("player_text",
                VStr ("[topic_hint=" +:+ strip t +:+ "] " +:+ strip p))].
Proof.
  intros H.
  apply main_body_returns in H as (cards & P & hint & intent & w1 & Hp & Hs).
  pose proof (keeps_at _ _ _ _ _ prelude_keeps_rng Hp) as Hr1.
  unfold prelude in Hp.
  apply bind_returns in Hp as ([cards0 P0] & wa & Hload & Hp).
  apply bind_returns in Hp as ([t0 p0] & wb & Hask & Hp).
  apply bind_returns in Hp as (intent0 & wc & Hint & Hp).
  apply ret_returns in Hp as [Hp ->]. injection Hp as -> -> -> ->.
  pose proof (keeps_at _ _ _ _ _ load_all_keeps_stdin Hload) as Hin1.
  pose proof (keeps_at _ _ _ _ _ load_all_keeps_calls Hload) as Hc1.
  pose proof (keeps_at _ _ _ _ _ ask_keeps_calls Hask) as Hc2.
  apply ask_takes_two in Hask as (t & p & Hin2 & Heq). injection Heq as -> ->.
  assert (Kin : forall prompt vars jm, keeps stdin (call_llm py_repr prompt vars jm))
    by (intros; unfold call_llm; keeps_go).
  pose proof Hint as Hint'. unfold parse_intent in Hint'.
  pose proof (keeps_at _ _ _ _ _ (Kin _ _ _) Hint') as Hin3.
  apply call_llm_cases in Hint' as [[_ Hno] | (req0 & Hc3 & _)];
    [exfalso; eapply Hno; reflexivity|].
  pose proof Hs as Hs'.
  apply session_cases in Hs' as (cs & Hcs & _).
  unfold session in Hs.
  apply bind_returns in Hs as (st0 & wd & Hinit & Hs).
  apply lift_returns in Hinit as [_ ->].
  apply bind_returns in Hs as (st1 & we & Hloop & Hs).
  apply bind_returns in Hs as (rv & wf & Hrev & Hs).
  apply bind_returns in Hs as (u & wg & Hsave & Hs).
  apply ret_returns in Hs as [_ ->].
  assert (Ks : forall k pos s, keeps stdin (draw_step py_repr P0 cards0 k pos s)).
  { intros. unfold draw_step, draw_card, choice_value, show_draw, call_llm.
    keeps_go. }
  assert (Kr3 : keeps rng_used (final_review py_repr P0 st1))
    by (unfold final_review, call_llm; keeps_go).
  assert (Ki3 : keeps stdin (final_review py_repr P0 st1))
    by (unfold final_review, call_llm; keeps_go).
  assert (Kr4 : keeps rng_used (save_run py_repr st1 rv))
    by (unfold save_run; keeps_go).
  assert (Ki4 : keeps stdin (save_run py_repr st1 rv))
    by (unfold save_run; keeps_go).
  split.
  - rewrite (keeps_at _ _ _ _ _ Kr4 Hsave), (keeps_at _ _ _ _ _ Kr3 Hrev).
    rewrite (loop_takes_two_each _ _ _ _ _ _ _ _ Hloop), Hr1. reflexivity.
  - exists t, p. split.
    + rewrite (keeps_at _ _ _ _ _ Ki4 Hsave), (keeps_at _ _ _ _ _ Ki3 Hrev).
      rewrite (keeps_at _ _ _ _ _ (for_enumerate_keeps stdin _ _ Ks _ _) Hloop).
      rewrite Hin3, <- Hin1. exact Hin2.
    + eexists (_, req0), cs. split; [|reflexivity].
      rewrite Hcs, Hc3, Hc2, Hc1, <- !app_assoc. reflexivity.
Qed.

(** ** What is sent *)

(** A template that can be filled is sent, and the reply decides. *)
Lemma call_llm_sends prompt vars jm filled w :
  format py_repr prompt vars = Returns filled ->
  let req := mkRequest MODEL SYSTEM_PROMPT filled jm in
  call_llm py_repr prompt vars jm w
  = (answer jm (service w (requests (trace w)) req), log (ECall vars req) w).
Proof.
  intros Hf req. unfold call_llm. rewrite bind_unfold. unfold lift. rewrite Hf.
  rewrite bind_unfold. unfold create. fold req.
  destruct (service w (requests (trace w)) req); destruct jm; reflexivity.
Qed.

Lemma call_llm_unfilled prompt vars jm w :
  (forall filled, format py_repr prompt vars <> Returns filled) ->
  snd (call_llm py_repr prompt vars jm w) = w.
Proof.
  intros Hf. unfold call_llm. rewrite bind_unfold. unfold lift.
  destruct (format py_repr prompt vars) as [filled|e|]; try reflexivity.
  exfalso. exact (Hf filled eq_refl).
Qed.

Lemma call_llm_emits tpls prompt vars jm :
  In (prompt, jm) tpls -> emits (request_from py_repr tpls) (call_llm py_repr prompt vars jm).
Proof.
  intros Hin w.
  destruct (format py_repr prompt vars) as [filled|e|] eqn:Hf.
  - rewrite (call_llm_sends _ _ jm _ w Hf). cbn [snd trace log].
    eexists [_]. split; [reflexivity|].
    constructor; [|constructor]. exists prompt. cbn [req_json req_user req_model
      req_system]. auto.
  - rewrite call_llm_unfilled by (rewrite Hf; discriminate).
    exists []. rewrite app_nil_r. auto.
  - rewrite call_llm_unfilled by (rewrite Hf; discriminate).
    exists []. rewrite app_nil_r. auto.
Qed.

Lemma load_all_prompts w cards P w1 :
  load_all w = (Returns (cards, P), w1) ->
  files w !! prompt_path "intent_parser.txt" = Some (intent_prompt P) /\
  files w !! prompt_path "interpret_first.txt" = Some (first_prompt P) /\
  files w !! prompt_path "interpret_next.txt" = Some (next_prompt P) /\
  files w !! prompt_path "final_review.txt" = Some (review_prompt P).
Proof.
  unfold load_all, load_text. intros H. returned H.
  apply ret_returns in H as [H _]. injection H as -> ->.
  assert (K : forall p, keeps files (read_text p)) by (intros; keeps_go).
  assert (K0 : forall o : outcome value, keeps files (lift o)) by (intros; keeps_go).
  pose proof (keeps_at _ _ _ _ _ (K _) Hstep) as E0.
  pose proof (keeps_at _ _ _ _ _ (K0 _) Hstep0) as E1.
  pose proof (keeps_at _ _ _ _ _ (K _) Hstep1) as E2.
  pose proof (keeps_at _ _ _ _ _ (K _) Hstep2) as E3.
  pose proof (keeps_at _ _ _ _ _ (K _) Hstep3) as E4.
  apply read_text_returns in Hstep1, Hstep2, Hstep3, Hstep4.
  cbn [intent_prompt first_prompt next_prompt review_prompt].
  rewrite <- E0, <- E1. repeat split; [congruence ..].
Qed.

Lemma after_load_emits cards P :
  emits (request_from py_repr (prompt_table P))
    ('(topic_input, player_text) ← ask;
     intent ← parse_intent py_repr P topic_input player_text;
     session py_repr cards P topic_input intent).
Proof.
  assert (Hcall : forall prompt vars jm, In (prompt, jm) (prompt_table P) ->
            emits (request_from py_repr (prompt_table P))
                  (call_llm py_repr prompt vars jm))
    by (intros; apply call_llm_emits; assumption).
  apply emits_bind; [unfold ask; emits_go|]. intros [t' p'].
  apply emits_bind; [apply Hcall; simpl; auto|]. intros intent.
  unfold session. apply emits_bind; [emits_go|]. intros st0.
  apply emits_bind.
  { apply for_enumerate_emits. intros k pos st. unfold draw_step.
    apply emits_bind.
    { unfold draw_card, choice_value. emits_go. }
    intros [[name o] kw]. apply emits_bind.
    { destruct (k =? 1)%Z; apply Hcall; simpl; auto. }
    intros interp. unfold show_draw. emits_go. }
  intros st. apply emits_bind; [apply Hcall; simpl; auto|]. intros review.
  unfold save_run. emits_go.
Qed.

Lemma load_all_reads : emits is_read load_all.
Proof. unfold load_all. emits_go. Qed.

Lemma main_body_regroup w :
  main_body py_repr w
  = ('(cards, P) ← load_all;
     '(topic_input, player_text) ← ask;
     intent ← parse_intent py_repr P topic_input player_text;
     session py_repr cards P topic_input intent) w.
Proof.
  unfold main_body, prelude. rewrite !bind_unfold.
  destruct (load_all w) as [[[cards P]|e|] w1]; try reflexivity.
  rewrite !bind_unfold.
  destruct (ask w1) as [[[t p]|e|] w2]; try reflexivity.
  rewrite !bind_unfold.
  destruct (parse_intent py_repr P t p w2) as [[intent|e|] w3]; reflexivity.
Qed.

(** X11: Every request of a run, whatever its outcome, is one of the
    four template files as it was at the start, filled by [str.format]
    with the variables of that call, sent under the fixed model and
    system prompt; JSON is demanded for the intent and the
    interpretations and not for the review. *)
Theorem every_request_is_a_filled_template w out w' :
  main_body py_repr w = (out, w') ->
  exists es, trace w' = trace w ++ es /\
    forall vars req, In (ECall vars req) es ->
      req_model req = MODEL /\ req_system req = SYSTEM_PROMPT /\
      exists name tpl,
        In (name, req_json req) TEMPLATES /\
        files w !! prompt_path name = Some tpl /\
        format py_repr tpl vars = Returns (req_user req).
Proof.
  rewrite main_body_regroup, bind_unfold.
  destruct (load_all w) as [[[cards P]|e|] w1] eqn:EL;
    destruct (emits_at _ _ _ _ _ load_all_reads EL) as (es1 & He1 & Hr1).
  - apply load_all_prompts in EL as (F0 & F1 & F2 & F3). intros H.
    destruct (emits_at _ _ _ _ _ (after_load_emits cards P) H) as (es2 & He2 & Hr2).
    exists (es1 ++ es2). split; [rewrite He2, He1, app_assoc; reflexivity|].
    intros vars req Hin. apply in_app_or in Hin as [Hin | Hin].
    { rewrite Forall_forall in Hr1. apply list_elem_of_In, Hr1 in Hin.
      destruct Hin. }
    rewrite Forall_forall in Hr2. apply list_elem_of_In, Hr2 in Hin.
    destruct Hin as (tpl & Hin & Hf & Hm & Hs). repeat split; auto.
    simpl in Hin.
    destruct Hin as [Hin | [Hin | [Hin | [Hin | []]]]]; injection Hin as <- Hj;
      rewrite <- Hj;
      [ exists "intent_parser.txt", (intent_prompt P)
      | exists "interpret_first.txt", (first_prompt P)
      | exists "interpret_next.txt", (next_prompt P)
      | exists "final_review.txt", (review_prompt P) ];
      simpl; auto 10.
  - intros H. inversion H; subst. exists es1. split; [exact He1|].
    intros vars req Hin. rewrite Forall_forall in Hr1.
    apply list_elem_of_In, Hr1 in Hin. destruct Hin.
  - intros H. inversion H; subst. exists es1. split; [exact He1|].
    intros vars req Hin. rewrite Forall_forall in Hr1.
    apply list_elem_of_In, Hr1 in Hin. destruct Hin.
Qed.

(** ** What is recorded is what was replied *)

Lemma requests_tcalls w : requests (trace w) = map snd (tcalls w).
Proof. reflexivity. Qed.

Lemma replies_app svc reqs1 : forall earlier reqs2,
  replies svc earlier (reqs1 ++ reqs2)
  = replies svc earlier reqs1 ++ replies svc (earlier ++ reqs1) reqs2.
Proof.
  induction reqs1 as [|r reqs1 IH]; intros earlier reqs2; simpl.
  - rewrite app_nil_r. reflexivity.
  - rewrite IH, <- app_assoc. reflexivity.
Qed.

Lemma call_llm_reply prompt vars jm w v w' :
  call_llm py_repr prompt vars jm w = (Returns v, w') ->
  exists req,
    tcalls w' = tcalls w ++ [(vars, req)] /\ service w' = service w /\
    answer jm (service w (requests (trace w)) req) = Returns v.
Proof.
  intros H. destruct (format py_repr prompt vars) as [filled|e|] eqn:Hf.
  - rewrite (call_llm_sends _ _ jm _ w Hf) in H. injection H as Ha <-.
    eexists. split; [apply tcalls_log_call|]. split; [reflexivity | exact Ha].
  - unfold call_llm in H. rewrite bind_unfold in H. unfold lift in H.
    rewrite Hf in H. discriminate.
  - unfold call_llm in H. rewrite bind_unfold in H. unfold lift in H.
    rewrite Hf in H. discriminate.
Qed.

Lemma answer_json reply v :
  answer true reply = Returns v -> exists text, reply = Content text /\ loads text = Returns v.
Proof. destruct reply as [c| |]; simpl; intros H; try discriminate. eauto. Qed.

Lemma answer_text reply text :
  answer false reply = Returns (VStr text) -> reply = Content text.
Proof. destruct reply as [c| |]; simpl; intros H; try discriminate. congruence. Qed.

Lemma draw_step_reply P cards k pos st w st' w' :
  draw_step py_repr P cards k pos st w = (Returns st', w') ->
  exists c r text,
    tcalls w' = tcalls w ++ [c] /\ service w' = service w /\
    st' = append_draw r st /\
    service w (requests (trace w)) (snd c) = Content text /\
    subscript r "interpretation" = loads text.
Proof.
  unfold draw_step. intros H.
  apply bind_returns in H as ([[name o] kw] & w1 & Hd & H).
  apply bind_returns in H as (interp & w2 & Hc & H).
  apply bind_returns in H as (u & w3 & Hs & H).
  apply ret_returns in H as [-> ->].
  assert (K1 : keeps service (draw_card cards))
    by (unfold draw_card, choice_value; keeps_go).
  assert (K2 : keeps service (show_draw py_repr k pos name o kw interp))
    by (unfold show_draw; keeps_go).
  pose proof (keeps_at _ _ _ _ _ K1 Hd) as S1.
  pose proof (keeps_at _ _ _ _ _ (draw_card_keeps_calls cards) Hd) as C1.
  pose proof (keeps_at _ _ _ _ _ K2 Hs) as S3.
  pose proof (keeps_at _ _ _ _ _ (show_draw_keeps_calls _ _ _ _ _ _) Hs) as C3.
  assert (Hcall : exists vars req,
            tcalls w2 = tcalls w1 ++ [(vars, req)] /\ service w2 = service w1 /\
            answer true (service w1 (requests (trace w1)) req) = Returns interp).
  { destruct (k =? 1)%Z; apply call_llm_reply in Hc as (req & ? & ? & ?); eauto. }
  destruct Hcall as (vars & req & C2 & S2 & Ha).
  apply answer_json in Ha as (text & Hr & Hl).
  exists (vars, req), (make_record k pos name o kw interp), text.
  rewrite C3, C2, C1, S3, S2, S1.
  split; [reflexivity|]. split; [reflexivity|]. split; [reflexivity|]. split.
  - cbn [snd]. rewrite requests_tcalls, <- C1, <- S1, <- requests_tcalls. exact Hr.
  - rewrite Hl. reflexivity.
Qed.

Lemma loop_replies P cards ps : forall k st w st' w',
  for_enumerate (draw_step py_repr P cards) k ps st w = (Returns st', w') ->
  exists cs rs texts,
    tcalls w' = tcalls w ++ cs /\ service w' = service w /\
    st' = with_history st (draw_history st ++ rs) /\
    replies (service w) (requests (trace w)) (map snd cs) = map Content texts /\
    map (fun r => subscript r "interpretation") rs = map loads texts /\
    length texts = length ps.
Proof.
  induction ps as [|pos ps IH]; intros k st w st' w' H; simpl in H.
  - apply ret_returns in H as [-> ->]. exists [], [], [].
    rewrite !app_nil_r. repeat split; auto.
    destruct st; reflexivity.
  - apply bind_returns in H as (st1 & w1 & Hd & H).
    apply draw_step_reply in Hd as (c & r & text & C1 & S1 & -> & Hr & Hi).
    apply IH in H as (cs & rs & texts & C2 & S2 & -> & Hrs & His & Hlen).
    exists (c :: cs), (r :: rs), (text :: texts).
    split; [rewrite C2, C1, <- app_assoc; reflexivity|].
    split; [congruence|].
    split; [unfold with_history, append_draw; simpl; rewrite <- app_assoc;
            reflexivity|].
    split.
    { simpl. rewrite Hr. f_equal.
      rewrite <- Hrs, S1, !requests_tcalls, C1, map_app. reflexivity. }
    split; [simpl; rewrite Hi, His; reflexivity | simpl; rewrite Hlen; reflexivity].
Qed.

Lemma init_state_question intent hint st0 :
  init_state intent hint = Returns st0 ->
  subscript intent "question" = Returns (question st0).
Proof.
  unfold init_state. intros H.
  destruct (get_default intent "topic" _); try discriminate. simpl in H.
  destruct (subscript intent "question"); try discriminate. simpl in H.
  destruct (get_default intent "emotion" _); try discriminate. simpl in H.
  destruct (get_default intent "constraints" _); try discriminate. simpl in H.
  inversion H. reflexivity.
Qed.

(** X12: In a run that completes the service was asked five times and
    answered with content every time. The first reply, parsed, is the
    intent that gave the state its question; the next three, parsed, are
    the interpretations of the three records, in order; the fifth, as it
    is, is the review. *)
Theorem replies_are_recorded_verbatim w st review w' :
  main_body py_repr w = (Returns (st, review), w') ->
  exists cs t0 t1 t2 t3 t4 intent,
    tcalls w' = tcalls w ++ cs /\
    replies (service w) (requests (trace w)) (map snd cs)
    = [Content t0; Content t1; Content t2; Content t3; Content t4] /\
    loads t0 = Returns intent /\
    subscript intent "question" = Returns (question st) /\
    map (fun r => subscript r "interpretation") (draw_history st)
    = [loads t1; loads t2; loads t3] /\
    review = VStr t4.
Proof.
  intros H.
  apply main_body_returns in H as (cards & P & hint & intent & w1 & Hp & Hs).
  unfold prelude in Hp.
  apply bind_returns in Hp as ([cards0 P0] & wa & Hload & Hp).
  apply bind_returns in Hp as ([t0' p0] & wb & Hask & Hp).
  apply bind_returns in Hp as (intent0 & wc & Hint & Hp).
  apply ret_returns in Hp as [Hp ->]. injection Hp as -> -> -> ->.
  assert (KL : keeps service load_all) by (unfold load_all; keeps_go).
  assert (KA : keeps service ask) by (unfold ask; keeps_go).
  pose proof (keeps_at _ _ _ _ _ KL Hload) as S1.
  pose proof (keeps_at _ _ _ _ _ load_all_keeps_calls Hload) as C1.
  pose proof (keeps_at _ _ _ _ _ KA Hask) as S2.
  pose proof (keeps_at _ _ _ _ _ ask_keeps_calls Hask) as C2.
  unfold parse_intent in Hint.
  apply call_llm_reply in Hint as (req0 & C3 & S3 & A0).
  apply answer_json in A0 as (t0 & R0 & L0).
  rewrite requests_tcalls, C2, C1, S2, S1, <- requests_tcalls in R0.
  unfold session in Hs.
  apply bind_returns in Hs as (st0 & wd & Hinit & Hs).
  apply lift_returns in Hinit as [Hinit ->].
  apply bind_returns in Hs as (st1 & we & Hloop & Hs).
  apply bind_returns in Hs as (rv & wf & Hrev & Hs).
  apply bind_returns in Hs as (u & wg & Hsave & Hs).
  apply ret_returns in Hs as [Hs ->]. injection Hs as -> ->.
  apply loop_replies in Hloop as (cs & rs & texts & C4 & S4 & Hst & Hrs & His & Hlen).
  unfold final_review in Hrev.
  apply call_llm_reply in Hrev as (req4 & C5 & S5 & A4).
  pose proof (keeps_at _ _ _ _ _ (save_run_keeps_calls _ _) Hsave) as C6.
  destruct (save_run_returns _ _ _ _ _ Hsave) as [t4 ->].
  apply answer_text in A4.
  destruct texts as [|t1 [|t2 [|t3 [|]]]]; try discriminate Hlen.
  rewrite (init_state_history _ _ _ Hinit) in Hst. cbn [app] in Hst.
  eexists (_ :: cs ++ [_]), t0, t1, t2, t3, t4, intent0.
  split; [rewrite C6, C5, C4, C3, C2, C1, <- !app_assoc; reflexivity|].
  split.
  { cbn [map replies snd]. rewrite R0. f_equal.
    rewrite map_app, replies_app.
    rewrite requests_tcalls, C3, C2, C1, S3, S2, S1, map_app in Hrs.
    cbn [map snd] in Hrs. rewrite <- requests_tcalls in Hrs. rewrite Hrs.
    cbn [map app replies snd]. do 4 f_equal.
    rewrite <- A4, S4, S3, S2, S1. f_equal.
    rewrite (requests_tcalls we), C4, C3, C2, C1, !map_app. reflexivity. }
  split; [exact L0|].
  split; [rewrite Hst; exact (init_state_question _ _ _ Hinit)|].
  split; [rewrite Hst; exact His | reflexivity].
Qed.

(** ** The review call *)

Lemma call_llm_request prompt vars jm w v w' :
  call_llm py_repr prompt vars jm w = (Returns v, w') ->
  exists filled,
    format py_repr prompt vars = Returns filled /\
    tcalls w' = tcalls w ++ [(vars, mkRequest MODEL SYSTEM_PROMPT filled jm)].
Proof.
  intros H. destruct (format py_repr prompt vars) as [filled|e|] eqn:Hf.
  - rewrite (call_llm_sends _ _ jm _ w Hf) in H. injection H as _ <-.
    exists filled. split; [reflexivity | apply tcalls_log_call].
  - unfold call_llm in H. rewrite bind_unfold in H. unfold lift in H.
    rewrite Hf in H. discriminate.
  - unfold call_llm in H. rewrite bind_unfold in H. unfold lift in H.
    rewrite Hf in H. discriminate.
Qed.

(** X13: The last call of a run that completes, the fifth, is the review
    call: it asks for text, not JSON, and its variables are the topic
    and the question of the final state and the serialised history,
    which [json.loads] reads back as the three records of that state. *)
Theorem review_call_carries_whole_history w st review w' :
  main_body py_repr w = (Returns (st, review), w') ->
  exists cs req h,
    tcalls w' = tcalls w ++ cs ++
      [([("topic", topic st); ("question", question st);
         ("history_json", VStr h)], req)] /\
    length cs = 4%nat /\
    req_json req = false /\
    loads h = Returns (VList (draw_history st)) /\
    length (draw_history st) = 3%nat.
Proof.
  intros H. pose proof (completed_state_wf _ _ _ _ H) as Hwf.
  apply main_body_returns in H as (cards & P & hint & intent & w1 & Hp & Hs).
  apply prelude_call_count in Hp as (cs0 & C0 & _ & Hlen0).
  specialize (Hlen0 _ eq_refl).
  unfold session in Hs.
  apply bind_returns in Hs as (st0 & wd & Hinit & Hs).
  apply lift_returns in Hinit as [Hinit ->].
  apply bind_returns in Hs as (st1 & we & Hloop & Hs).
  apply bind_returns in Hs as (rv & wf & Hrev & Hs).
  apply bind_returns in Hs as (u & wg & Hsave & Hs).
  apply ret_returns in Hs as [Hs ->]. injection Hs as -> ->.
  apply loop_spec in Hloop as (rs & cs & C1 & _ & _ & _ & _ & _ & Hout).
  destruct (Hout _ eq_refl) as (Hst & Hlen & Hlen').
  rewrite (init_state_history _ _ _ Hinit) in Hst. cbn [app] in Hst.
  unfold final_review in Hrev.
  apply call_llm_request in Hrev as (filled & Hf & C2).
  pose proof (keeps_at _ _ _ _ _ (save_run_keeps_calls _ _) Hsave) as C3.
  exists (cs0 ++ cs), (mkRequest MODEL SYSTEM_PROMPT filled false),
    (dumps (VList (draw_history st1))).
  split; [rewrite C3, C2, C1, C0, <- !app_assoc; reflexivity|].
  split; [rewrite length_app, Hlen0, Hlen'; reflexivity|].
  split; [reflexivity|].
  split.
  - apply loads_dumps. apply wf_dict in Hwf as [_ Hall].
    rewrite Forall_forall in Hall.
    apply (Hall ("draw_history", VList (draw_history st1))).
    apply list_elem_of_In. simpl. auto 10.
  - rewrite Hst. exact Hlen.
Qed.

(** ** A run that completes *)

Lemma dict_get_same_keys vars : forall vars' name,
  keys vars = keys vars' -> dict_get name vars = None -> dict_get name vars' = None.
Proof.
  induction vars as [|[k v] vars IH]; intros [|[k' v'] vars'] name Hk H;
    try discriminate; [reflexivity|].
  simpl in Hk. injection Hk as <- Hk. simpl in H |- *.
  destruct (String.eqb name k); [discriminate|]. eapply IH; eauto.
Qed.

Lemma field_value_same_keys vars vars' name text :
  keys vars = keys vars' ->
  field_value py_repr vars name = Returns text ->
  exists text', field_value py_repr vars' name = Returns text'.
Proof.
  intros Hk H. unfold field_value in *. destruct name as [|c name]; [discriminate|].
  destruct (index_like (String c name)); [discriminate|].
  destruct (dict_get (String c name) vars') as [v'|] eqn:E'; [eauto|].
  rewrite (dict_get_same_keys vars' vars _ (eq_sym Hk) E') in H. discriminate.
Qed.

(** Whether a template can be filled depends on the names of the
    variables only, not on their values. *)
Lemma format_from_same_keys vars vars' n :
  keys vars = keys vars' ->
  forall s field out,
    String.length s <= n ->
    format_from py_repr vars field s = Returns out ->
    exists out', format_from py_repr vars' field s = Returns out'.
Proof.
  intros Hk. induction n as [|n IH]; intros s field out Hlen H.
  - destruct s; [|simpl in Hlen; lia].
    destruct field; simpl in *; [discriminate | eauto].
  - destruct s as [|c r]; [destruct field; simpl in *; [discriminate | eauto]|].
    simpl in Hlen. assert (Hr : String.length r <= n) by lia.
    destruct field as [name|]; simpl in H |- *.
    + destruct (Ascii.eqb c "}").
      * rewrite obind_unfold in H.
        destruct (field_value py_repr vars name) as [text| |] eqn:Ef;
          try discriminate.
        rewrite obind_unfold in H.
        destruct (format_from py_repr vars None r) as [o1| |] eqn:E;
          try discriminate.
        destruct (field_value_same_keys _ _ _ _ Hk Ef) as [text' ->].
        destruct (IH _ _ _ Hr E) as [o' ->]. simpl. eauto.
      * destruct (Ascii.eqb c "{"); [discriminate|].
        destruct (_ || _); [discriminate|]. eapply IH; eauto.
    + destruct (Ascii.eqb c "{").
      * destruct r as [|c' r']; [discriminate|].
        simpl in Hr. assert (Hr' : String.length r' <= n) by lia.
        destruct (Ascii.eqb c' "{") eqn:Ec.
        -- rewrite obind_unfold in H.
           destruct (format_from py_repr vars None r') as [o1| |] eqn:E;
             try discriminate.
           destruct (IH _ _ _ Hr' E) as [o' ->]. simpl. eauto.
        -- destruct (IH (String c' r') (Some "") out) as [o' Ho'];
             [simpl; lia | exact H |].
           exists o'. exact Ho'.
      * destruct (Ascii.eqb c "}").
        -- destruct r as [|c' r']; [discriminate|].
           simpl in Hr. assert (Hr' : String.length r' <= n) by lia.
           destruct (Ascii.eqb c' "}"); [|discriminate].
           rewrite obind_unfold in H.
           destruct (format_from py_repr vars None r') as [o1| |] eqn:E;
             try discriminate.
           destruct (IH _ _ _ Hr' E) as [o' ->]. simpl. eauto.
        -- rewrite obind_unfold in H.
           destruct (format_from py_repr vars None r) as [o1| |] eqn:E;
             try discriminate.
           destruct (IH _ _ _ Hr E) as [o' ->]. simpl. eauto.
Qed.

Lemma format_fills tpl names vars :
  fills py_repr tpl names = true -> keys vars = names ->
  exists out, format py_repr tpl vars = Returns out.
Proof.
  unfold fills, format. intros Hf Hk.
  destruct (format_from py_repr _ None tpl) as [out| |] eqn:E; try discriminate.
  eapply format_from_same_keys; [|reflexivity | exact E].
  rewrite Hk. unfold keys. rewrite map_map. simpl. apply map_id.
Qed.

Lemma load_all_ready w text cards p0 p1 p2 p3 :
  files w !! CARDS_PATH = Some text -> loads text = Returns cards ->
  files w !! prompt_path "intent_parser.txt" = Some p0 ->
  files w !! prompt_path "interpret_first.txt" = Some p1 ->
  files w !! prompt_path "interpret_next.txt" = Some p2 ->
  files w !! prompt_path "final_review.txt" = Some p3 ->
  load_all w
  = (Returns (cards, mkPrompts p0 p1 p2 p3), log_all (map ERead REQUIRED_FILES) w).
Proof.
  intros Hc Hl H0 H1 H2 H3. unfold load_all, load_text. rewrite !bind_unfold.
  rewrite (read_text_present _ _ _ Hc). cbv beta iota.
  rewrite bind_unfold. unfold lift. rewrite Hl. cbv beta iota.
  read_on. reflexivity.
Qed.

Lemma ask_ready w t p rest :
  stdin w = t :: p :: rest ->
  exists w', ask w = (Returns (strip t, strip p), w') /\
             service w' = service w /\ tcalls w' = tcalls w.
Proof.
  intros Hin.
  assert (Ho : fst (ask w) = Returns (strip t, strip p)).
  { unfold ask, print, input. rewrite !bind_unfold. cbn [stdin log].
    rewrite Hin. reflexivity. }
  assert (K : keeps service ask) by (unfold ask; keeps_go).
  destruct (ask w) as [o w'] eqn:E. simpl in Ho. subst o. exists w'.
  split; [reflexivity|].
  split; [exact (keeps_at _ _ _ _ _ K E) | exact (keeps_at _ _ _ _ _ ask_keeps_calls E)].
Qed.

Lemma join_strings sep kw : is_strings kw = true -> exists s, join sep kw = Returns s.
Proof.
  destruct kw as [| | | |items|]; try discriminate. simpl. intros H.
  assert (Hparts : exists parts,
            (fix strs (l : list value) : outcome (list string) :=
               match l with
               | [] => Returns []
               | VStr s :: l' => ss ← strs l'; Returns (s :: ss)
               | _ :: _ => Raises TypeError
               end) items = Returns parts).
  { induction items as [|x items IH]; [eauto|].
    simpl in H. destruct x; try discriminate.
    destruct (IH H) as [parts ->]. simpl. eauto. }
  destruct Hparts as [parts ->]. simpl. eauto.
Qed.

Lemma show_draw_ready step pos name o kw interp w :
  is_strings kw = true ->
  exists w', show_draw py_repr step pos name o kw interp w = (Returns (), w') /\
             service w' = service w.
Proof.
  intros Hk. destruct (join_strings "、" kw Hk) as [s Hs].
  assert (Ho : fst (show_draw py_repr step pos name o kw interp w) = Returns ()).
  { unfold show_draw, print, lift. rewrite !bind_unfold. rewrite Hs. reflexivity. }
  assert (K : keeps service (show_draw py_repr step pos name o kw interp))
    by (unfold show_draw; keeps_go).
  destruct (show_draw py_repr step pos name o kw interp w) as [out w'] eqn:E.
  simpl in Ho. subst out. exists w'.
  split; [reflexivity | exact (keeps_at _ _ _ _ _ K E)].
Qed.

Lemma call_llm_ready prompt names vars w :
  fills py_repr prompt names = true -> keys vars = names ->
  answers_all (service w) ->
  exists v w', call_llm py_repr prompt vars true w = (Returns v, w') /\
               service w' = service w.
Proof.
  intros Hf Hk Hsvc. destruct (format_fills _ _ _ Hf Hk) as [filled Hfilled].
  rewrite (call_llm_sends _ _ true _ w Hfilled).
  destruct (Hsvc (requests (trace w)) (mkRequest MODEL SYSTEM_PROMPT filled true))
    as (text & -> & Hjson).
  destruct (Hjson eq_refl) as (v & Hv & _). simpl. rewrite Hv. eauto.
Qed.

Lemma draw_step_ready P items k pos st w :
  items <> [] -> Forall (fun c => is_card c = true) items ->
  fills py_repr (first_prompt P) FIRST_NAMES = true ->
  fills py_repr (next_prompt P) NEXT_NAMES = true ->
  answers_all (service w) ->
  exists st' w', draw_step py_repr P (VList items) k pos st w = (Returns st', w') /\
                 service w' = service w.
Proof.
  intros Hne Hall Hf1 Hf2 Hsvc.
  destruct (lookup_lt_is_Some_2 items (rng w (rng_used w) mod length items)%nat)
    as [card Hcard].
  { apply Nat.mod_upper_bound. destruct items; [congruence | discriminate]. }
  destruct (lookup_lt_is_Some_2 ["upright"; "reversed"]
              (rng w (S (rng_used w)) mod 2)%nat) as [o Ho].
  { apply Nat.mod_upper_bound. discriminate. }
  assert (Hok : is_card card = true).
  { rewrite Forall_forall in Hall. apply Hall.
    eapply list_elem_of_lookup_2, Hcard. }
  destruct (draw_card_at items card o w Hcard Ho Hok) as (nm & kw & _ & _ & Hkw & Hd).
  unfold draw_step. rewrite bind_unfold, Hd. cbv beta iota. rewrite bind_unfold.
  assert (Hcall : exists interp w2,
            (if (k =? 1)%Z
             then call_llm py_repr (first_prompt P)
                    (first_variables st pos (VStr nm) o kw) true
             else call_llm py_repr (next_prompt P)
                    (next_variables st k pos (VStr nm) o kw) true) (bump (bump w))
            = (Returns interp, w2) /\ service w2 = service w).
  { destruct (k =? 1)%Z;
      [ destruct (call_llm_ready (first_prompt P) FIRST_NAMES
                    (first_variables st pos (VStr nm) o kw) (bump (bump w)) Hf1
                    eq_refl Hsvc) as (v & w2 & Hc & Hs)
      | destruct (call_llm_ready (next_prompt P) NEXT_NAMES
                    (next_variables st k pos (VStr nm) o kw) (bump (bump w)) Hf2
                    eq_refl Hsvc) as (v & w2 & Hc & Hs) ];
      exists v, w2; split; auto. }
  destruct Hcall as (interp & w2 & -> & Hs2).
  rewrite bind_unfold.
  destruct (show_draw_ready k pos (VStr nm) o kw interp w2 Hkw) as (w3 & -> & Hs3).
  eexists _, w3. split; [reflexivity | congruence].
Qed.

Lemma loop_ready P items ps : forall k st w,
  items <> [] -> Forall (fun c => is_card c = true) items ->
  fills py_repr (first_prompt P) FIRST_NAMES = true ->
  fills py_repr (next_prompt P) NEXT_NAMES = true ->
  answers_all (service w) ->
  exists st' w',
    for_enumerate (draw_step py_repr P (VList items)) k ps st w = (Returns st', w') /\
    service w' = service w.
Proof.
  induction ps as [|pos ps IH]; intros k st w Hne Hall Hf1 Hf2 Hsvc; simpl.
  - exists st, w. auto.
  - destruct (draw_step_ready P items k pos st w Hne Hall Hf1 Hf2 Hsvc)
      as (st1 & w1 & Hd & Hs1).
    rewrite bind_unfold, Hd.
    destruct (IH (k + 1)%Z st1 w1 Hne Hall Hf1 Hf2) as (st' & w' & Hl & Hs');
      [rewrite Hs1; exact Hsvc|].
    exists st', w'. split; [exact Hl | congruence].
Qed.

Lemma init_state_ready members q hint :
  dict_get "question" members = Some q ->
  exists st0, init_state (VDict members) hint = Returns st0.
Proof.
  intros Hq. unfold init_state. simpl. rewrite Hq.
  destruct (dict_get "topic" members), (dict_get "emotion" members),
    (dict_get "constraints" members); simpl; eauto.
Qed.

(** X14: The run completes, with a review that is text, whenever the
    deck file holds a non-empty array of Cards, each of the four
    template files can be filled from the variables [main] passes with
    it, the input has two lines, and the service answers every request
    with content, with JSON where JSON is demanded, and the first time
    with an object that has a question; the deck and every parsed
    reply being within the limits of CPython, integers of at most 4300
    digits and nesting of at most 100 levels, where [json.loads] does
    what its model does. *)
Theorem run_completes w :
  deck_ready w ->
  template_ready py_repr w "intent_parser.txt" INTENT_NAMES ->
  template_ready py_repr w "interpret_first.txt" FIRST_NAMES ->
  template_ready py_repr w "interpret_next.txt" NEXT_NAMES ->
  template_ready py_repr w "final_review.txt" REVIEW_NAMES ->
  (2 <= length (stdin w))%nat ->
  answers_all (service w) ->
  gives_intent (service w) (requests (trace w)) ->
  exists st text w', main_body py_repr w = (Returns (st, VStr text), w').
Proof.
  intros (ctext & items & Hc & Hl & _ & Hne & Hall) (p0 & F0 & T0) (p1 & F1 & T1)
    (p2 & F2 & T2) (p3 & F3 & T3) Hin Hsvc Hintent.
  pose proof (load_all_ready w _ _ _ _ _ _ Hc Hl F0 F1 F2 F3) as Hload.
  set (P := mkPrompts p0 p1 p2 p3) in *.
  set (w1 := log_all (map ERead REQUIRED_FILES) w) in *.
  destruct (stdin w) as [|t [|p rest]] eqn:Es; simpl in Hin; try lia.
  destruct (ask_ready w1 t p rest Es) as (w2 & Hask & S2 & C2).
  set (vars0 := [("player_text",
                  VStr ("[topic_hint=" +:+ strip t +:+ "] " +:+ strip p))]).
  destruct (format_fills p0 INTENT_NAMES vars0 T0 eq_refl) as [filled0 Hf0].
  pose proof (call_llm_sends p0 vars0 true filled0 w2 Hf0) as Hcall0.
  cbv zeta in Hcall0.
  assert (R2 : requests (trace w2) = requests (trace w)).
  { rewrite !requests_tcalls, C2. unfold w1, tcalls, calls, log_all.
    cbn [trace]. rewrite omap_app. cbn. rewrite app_nil_r. reflexivity. }
  change (service w1) with (service w) in S2.
  destruct (Hintent (mkRequest MODEL SYSTEM_PROMPT filled0 true) eq_refl)
    as (text0 & members & q & Hr0 & Hl0 & _ & Hq).
  rewrite R2, S2, Hr0 in Hcall0. cbn [answer] in Hcall0. rewrite Hl0 in Hcall0.
  set (w3 := log (ECall vars0 (mkRequest MODEL SYSTEM_PROMPT filled0 true)) w2) in *.
  assert (Hp : prelude py_repr w
               = (Returns (VList items, P, strip t, VDict members), w3)).
  { unfold prelude. rewrite bind_unfold, Hload. cbv beta iota.
    rewrite bind_unfold, Hask. cbv beta iota.
    rewrite bind_unfold. unfold parse_intent. fold vars0. cbn [intent_prompt P].
    rewrite Hcall0. reflexivity. }
  destruct (init_state_ready members q (strip t) Hq) as [st0 Hinit].
  assert (S3 : service w3 = service w) by exact S2.
  destruct (loop_ready P items positions 1 st0 w3 Hne Hall T1 T2) as
    (st1 & w4 & Hloop & S4); [rewrite S3; exact Hsvc|].
  set (vars4 := [("topic", topic st1); ("question", question st1);
                 ("history_json", VStr (dumps (VList (draw_history st1))))]).
  destruct (format_fills p3 REVIEW_NAMES vars4 T3 eq_refl) as [filled4 Hf4].
  pose proof (call_llm_sends p3 vars4 false filled4 w4 Hf4) as Hcall4.
  cbv zeta in Hcall4.
  destruct (Hsvc (requests (trace w4)) (mkRequest MODEL SYSTEM_PROMPT filled4 false))
    as (text4 & Hr4 & _).
  rewrite S4, S3, Hr4 in Hcall4. cbn [answer] in Hcall4.
  set (w5 := log (ECall vars4 (mkRequest MODEL SYSTEM_PROMPT filled4 false)) w4) in *.
  destruct (save_run py_repr st1 (VStr text4) w5) as [o6 w6] eqn:Hsave.
  pose proof (save_run_cases _ _ _ _ _ Hsave) as [(? & _ & -> & _) | (Hno & _)];
    [|exfalso; exact (Hno text4 eq_refl)].
  exists st1, text4, w6.
  unfold main_body. rewrite bind_unfold, Hp. cbv beta iota.
  unfold session. rewrite bind_unfold. unfold lift. rewrite Hinit. cbv beta iota.
  rewrite bind_unfold, Hloop. cbv beta iota.
  rewrite bind_unfold. unfold final_review. fold vars4. cbn [review_prompt P].
  rewrite Hcall4. cbv beta iota.
  rewrite bind_unfold, Hsave. reflexivity.
Qed.

(** ** What the console shows *)

Ltac console_prim :=
  let w := fresh "w" in
  intros w;
  unfold load_text; unfold read_text, write_text, mkdir, print, input, choice,
    now_stamp, create, lift, raise, getenv, mret, M_ret;
  repeat case_match;
  unfold tconsole, console; simpl;
  rewrite ?omap_app; simpl; rewrite ?app_nil_r; reflexivity.

Ltac console_go :=
  repeat match goal with
    | |- keeps _ (_ ≫= _) => apply keeps_bind; [|intros]
    | |- keeps _ (if ?b then _ else _) => destruct b
    | |- keeps _ (match ?x with _ => _ end) => destruct x
    | |- keeps _ _ => solve [console_prim]
    end.

Lemma load_all_keeps_console : keeps tconsole load_all.
Proof. unfold load_all. console_go. Qed.

Lemma call_llm_keeps_console prompt vars jm :
  keeps tconsole (call_llm py_repr prompt vars jm).
Proof. unfold call_llm. console_go. Qed.

Lemma draw_card_keeps_console cards : keeps tconsole (draw_card cards).
Proof. unfold draw_card, choice_value. console_go. Qed.

Lemma tconsole_log_print text w :
  tconsole (log (EPrint text) w) = tconsole w ++ [EPrint text].
Proof. unfold tconsole, console. simpl. rewrite omap_app. reflexivity. Qed.

Lemma ask_console w x w' :
  ask w = (Returns x, w') -> tconsole w' = tconsole w ++ OPENING.
Proof.
  unfold ask, print, input. rewrite !bind_unfold. cbn [stdin log].
  destruct (stdin w) as [|t [|p rest]]; intros H; try discriminate.
  injection H as _ <-. unfold tconsole, console. cbn [trace log].
  rewrite !omap_app. cbn [omap]. rewrite <- !app_assoc. reflexivity.
Qed.

Lemma show_draw_console k pos name o kw interp w u w' :
  show_draw py_repr k pos name o kw interp w = (Returns u, w') ->
  tconsole w' = tconsole w ++ draw_echo py_repr (make_record k pos name o kw interp).
Proof.
  unfold show_draw, print, lift. rewrite !bind_unfold. cbv beta iota.
  unfold draw_echo, field, make_record, subscript.
  cbn [dict_get String.eqb Ascii.eqb Bool.eqb]. cbn [py_str].
  destruct (join "、" kw) as [joined|e|]; intros H; try discriminate.
  injection H as _ <-. rewrite !tconsole_log_print, <- !app_assoc. reflexivity.
Qed.

Lemma draw_step_console P cards k pos st w st' w' :
  draw_step py_repr P cards k pos st w = (Returns st', w') ->
  exists r, st' = append_draw r st /\ tconsole w' = tconsole w ++ draw_echo py_repr r.
Proof.
  unfold draw_step. intros H.
  apply bind_returns in H as ([[name o] kw] & w1 & Hd & H).
  apply bind_returns in H as (interp & w2 & Hc & H).
  apply bind_returns in H as (u & w3 & Hs & H).
  apply ret_returns in H as [-> ->].
  exists (make_record k pos name o kw interp). split; [reflexivity|].
  rewrite (show_draw_console _ _ _ _ _ _ _ _ _ Hs). f_equal.
  rewrite <- (keeps_at _ _ _ _ _ (draw_card_keeps_console cards) Hd).
  destruct (k =? 1)%Z;
    exact (keeps_at _ _ _ _ _ (call_llm_keeps_console _ _ _) Hc).
Qed.

Lemma loop_console P cards ps : forall k st w st' w',
  for_enumerate (draw_step py_repr P cards) k ps st w = (Returns st', w') ->
  exists rs, draw_history st' = draw_history st ++ rs /\
             tconsole w' = tconsole w ++ concat (map (draw_echo py_repr) rs).
Proof.
  induction ps as [|pos ps IH]; intros k st w st' w' H; simpl in H.
  - apply ret_returns in H as [-> ->]. exists []. rewrite !app_nil_r. auto.
  - apply bind_returns in H as (st1 & w1 & Hd & H).
    apply draw_step_console in Hd as (r & -> & C1).
    apply IH in H as (rs & Hh & C2). exists (r :: rs).
    split; [rewrite Hh; simpl; rewrite <- app_assoc; reflexivity|].
    rewrite C2, C1. simpl. rewrite <- !app_assoc. reflexivity.
Qed.

Lemma save_run_console st review w u w' :
  save_run py_repr st review w = (Returns u, w') ->
  tconsole w' = tconsole w ++ CLOSING py_repr (clock w) review.
Proof.
  unfold save_run, now_stamp, write_text, print. rewrite !bind_unfold.
  cbv beta iota.
  destruct review as [| | |text| |]; cbv beta iota; intros H; try discriminate.
  rewrite !bind_unfold in H. injection H as _ <-.
  unfold tconsole, console, CLOSING. cbn [trace log].
  rewrite !omap_app. cbn [omap]. rewrite ?app_nil_r, <- !app_assoc. reflexivity.
Qed.

(** X15: All that the console showed in a run that completes is, in this
    order: the banner and the two questions; for each record of the
    final state the five lines of its draw, showing the very step,
    position, card, orientation, keywords and interpretation that were
    recorded; then the review and the names of the two files. *)
Theorem console_shows_what_is_recorded w st review w' :
  main_body py_repr w = (Returns (st, review), w') ->
  tconsole w'
  = tconsole w ++ OPENING
    ++ concat (map (draw_echo py_repr) (draw_history st))
    ++ CLOSING py_repr (clock w) review.
Proof.
  intros H.
  apply main_body_returns in H as (cards & P & hint & intent & w1 & Hp & Hs).
  pose proof (keeps_at _ _ _ _ _ prelude_keeps_clock Hp) as K1.
  unfold prelude in Hp.
  apply bind_returns in Hp as ([cards0 P0] & wa & Hload & Hp).
  apply bind_returns in Hp as ([t0 p0] & wb & Hask & Hp).
  apply bind_returns in Hp as (intent0 & wc & Hint & Hp).
  apply ret_returns in Hp as [Hp ->]. injection Hp as -> -> -> ->.
  pose proof (keeps_at _ _ _ _ _ load_all_keeps_console Hload) as C1.
  apply ask_console in Hask as C2.
  unfold parse_intent in Hint.
  pose proof (keeps_at _ _ _ _ _ (call_llm_keeps_console _ _ _) Hint) as C3.
  unfold session in Hs.
  apply bind_returns in Hs as (st0 & wd & Hinit & Hs).
  apply lift_returns in Hinit as [Hinit ->].
  apply bind_returns in Hs as (st1 & we & Hloop & Hs).
  apply bind_returns in Hs as (rv & wf & Hrev & Hs).
  apply bind_returns in Hs as (u & wg & Hsave & Hs).
  apply ret_returns in Hs as [Hs ->]. injection Hs as -> ->.
  pose proof (keeps_at _ _ _ _ _
    (for_enumerate_keeps clock _ _ (draw_step_keeps_clock P0 cards0) _ _) Hloop) as K2.
  pose proof (keeps_at _ _ _ _ _ (final_review_keeps_clock P0 st1) Hrev) as K3.
  apply loop_console in Hloop as (rs & Hh & C4).
  rewrite (init_state_history _ _ _ Hinit) in Hh. cbn [app] in Hh.
  unfold final_review in Hrev.
  pose proof (keeps_at _ _ _ _ _ (call_llm_keeps_console _ _ _) Hrev) as C5.
  apply save_run_console in Hsave as C6.
  rewrite C6, C5, C4, C3, C2, C1, Hh, K3, K2, K1, <- !app_assoc. reflexivity.
Qed.

(** ** Two runs within the same second *)

(** X16: When a second run is recorded under the stamp of a first one,
    the files are left as if the first run had never been recorded: both
    of its files are overwritten. *)
Theorem same_stamp_overwrites st1 review1 st2 review2 w w1 w2 :
  save_run py_repr st1 (VStr review1) w = (Returns (), w1) ->
  files w2 = files w1 ->
  clock w2 = clock w ->
  let json_path := runs_path ("run_" +:+ clock w +:+ ".json") in
  let md_path := runs_path ("run_" +:+ clock w +:+ ".md") in
  exists w3,
    save_run py_repr st2 (VStr review2) w2 = (Returns (), w3) /\
    files w3 = <[md_path := review2]>
                 (<[json_path := dumps (state_value st2)]> (files w)).
Proof.
  intros H1 Hf Hc json_path md_path.
  apply save_run_cases in H1 as [(t1 & Ht1 & _ & _ & F1) | (Hno & _)];
    [|exfalso; exact (Hno review1 eq_refl)].
  injection Ht1 as <-. fold json_path md_path in F1.
  destruct (save_run py_repr st2 (VStr review2) w2) as [o3 w3] eqn:H2.
  apply save_run_cases in H2 as [(t2 & Ht2 & -> & _ & F2) | (Hno & _)];
    [|exfalso; exact (Hno review2 eq_refl)].
  injection Ht2 as <-. rewrite Hc in F2. fold json_path md_path in F2.
  exists w3. split; [reflexivity|].
  rewrite F2, Hf, F1. apply map_eq. intros p.
  destruct (decide (p = md_path)) as [-> | Hm];
    [rewrite !lookup_insert_eq; reflexivity|].
  destruct (decide (p = json_path)) as [-> | Hj];
    repeat first [ rewrite lookup_insert_eq
                 | rewrite lookup_insert_ne by congruence ];
    reflexivity.
Qed.

(** ** Literal braces *)

Lemma format_double_braces vars s :
  format_from py_repr vars None (double_braces s) = Returns s.
Proof.
  induction s as [|c r IH]; [reflexivity|].
  simpl. destruct (Ascii.eqb c "{") eqn:E1.
  - apply Ascii.eqb_eq in E1. subst c. simpl. rewrite IH. reflexivity.
  - destruct (Ascii.eqb c "}") eqn:E2.
    + apply Ascii.eqb_eq in E2. subst c. simpl. rewrite IH. reflexivity.
    + simpl. rewrite E1, E2, IH. reflexivity.
Qed.

(** X17: A template in which every brace is doubled names no variable:
    it is always sent, with single braces in place of the doubled ones,
    whatever the variables are, and the reply decides the outcome. *)
Theorem doubled_braces_are_sent_single s vars jm w :
  call_llm py_repr (double_braces s) vars jm w
  = (answer jm (service w (requests (trace w)) (mkRequest MODEL SYSTEM_PROMPT s jm)),
     log (ECall vars (mkRequest MODEL SYSTEM_PROMPT s jm)) w).
Proof. apply call_llm_sends. apply format_double_braces. Qed.

(** ** Static data is read once, first *)

Lemma load_all_trace w out w1 :
  load_all w = (out, w1) ->
  exists n, w1 = log_all (map ERead (take n REQUIRED_FILES)) w /\
            (n <= 5)%nat /\ (forall x, out = Returns x -> n = 5%nat).
Proof.
  unfold load_all, load_text. rewrite !bind_unfold.
  destruct (files w !! CARDS_PATH) as [text|] eqn:E0;
    [rewrite (read_text_present _ _ _ E0)
    |rewrite (read_text_absent _ _ E0); intros H; inversion H; exists 0%nat;
     rewrite log_all_nil; repeat split; try lia; discriminate].
  cbv beta iota. rewrite bind_unfold. unfold lift.
  destruct (loads text) as [cards|e|]; cbv beta iota;
    [|intros H; inversion H; exists 1%nat; repeat split; try lia; discriminate ..].
  rewrite bind_unfold.
  destruct (files w !! prompt_path "intent_parser.txt") as [p0|] eqn:E1;
    [rewrite (read_text_present_next _ _ _ _ E1)
    |rewrite read_text_absent by exact E1; intros H; inversion H; exists 1%nat;
     repeat split; try lia; discriminate].
  cbv beta iota. rewrite bind_unfold.
  destruct (files w !! prompt_path "interpret_first.txt") as [p1|] eqn:E2;
    [rewrite (read_text_present_next _ _ _ _ E2)
    |rewrite read_text_absent by exact E2; intros H; inversion H; exists 2%nat;
     repeat split; try lia; discriminate].
  cbv beta iota. rewrite bind_unfold.
  destruct (files w !! prompt_path "interpret_next.txt") as [p2|] eqn:E3;
    [rewrite (read_text_present_next _ _ _ _ E3)
    |rewrite read_text_absent by exact E3; intros H; inversion H; exists 3%nat;
     repeat split; try lia; discriminate].
  cbv beta iota. rewrite bind_unfold.
  destruct (files w !! prompt_path "final_review.txt") as [p3|] eqn:E4;
    [rewrite (read_text_present_next _ _ _ _ E4)
    |rewrite read_text_absent by exact E4; intros H; inversion H; exists 4%nat;
     repeat split; try lia; discriminate].
  cbv beta iota. intros H. inversion H. exists 5%nat. repeat split; lia.
Qed.

Lemma after_load_reads_nothing cards P :
  emits not_read
    ('(topic_input, player_text) ← ask;
     intent ← parse_intent py_repr P topic_input player_text;
     session py_repr cards P topic_input intent).
Proof.
  apply emits_bind; [unfold ask; emits_go|]. intros [t p].
  apply emits_bind; [unfold parse_intent, call_llm; emits_go|]. intros intent.
  unfold session. apply emits_bind; [emits_go|]. intros st0.
  apply emits_bind.
  { apply for_enumerate_emits. intros k pos st.
    unfold draw_step, draw_card, choice_value, show_draw, call_llm. emits_go. }
  intros st. unfold final_review, call_llm, save_run. emits_go.
Qed.

(** X19: Whatever the outcome of a run, the files it reads are the deck
    and the four templates, each at most once, in this order, and before
    anything else happens; once something else has happened all five
    have been read, and no file is read again. *)
Theorem static_files_are_read_first w out w' :
  main_body py_repr w = (out, w') ->
  exists n rest,
    trace w' = trace w ++ map ERead (take n REQUIRED_FILES) ++ rest /\
    (n <= 5)%nat /\ Forall not_read rest /\ (rest <> [] -> n = 5%nat).
Proof.
  rewrite main_body_regroup, bind_unfold.
  destruct (load_all w) as [[[cards P]|e|] w1] eqn:EL;
    apply load_all_trace in EL as (n & -> & Hle & Hn).
  - intros H.
    destruct (emits_at _ _ _ _ _ (after_load_reads_nothing cards P) H)
      as (rest & He & Hr).
    exists n, rest. rewrite He. cbn [trace log_all]. rewrite <- app_assoc.
    repeat split; auto. intros _. exact (Hn _ eq_refl).
  - intros H. inversion H; subst. exists n, []. cbn [trace log_all].
    rewrite app_nil_r. repeat split; auto. congruence.
  - intros H. inversion H; subst. exists n, []. cbn [trace log_all].
    rewrite app_nil_r. repeat split; auto. congruence.
Qed.

(** ** The history a step is given *)









End Properties.

(** * The sample run

    The statements above, instantiated at the sample world. *)

Lemma sample_run :
  main_body sample_repr sample_world
  = (Returns (sample_state, sample_review), sample_final).
Proof. vm_compute. reflexivity. Qed.


Ltac nodup := apply (bool_decide_unpack _); vm_compute; exact I.

Lemma missing_question_aborts_witness :
  prelude sample_repr forgetful_world
  = (Returns (VList sample_deck, sample_prompts, "study",
              VDict [("topic", VStr "study")]), forgetful_after) /\
  main_body sample_repr forgetful_world
  = (Raises (KeyError (VStr "question")), forgetful_after) /\
  rng_used forgetful_after = rng_used forgetful_world /\
  files forgetful_after = files forgetful_world /\
  twrites forgetful_after = twrites forgetful_world /\
  exists c, tcalls forgetful_after = tcalls forgetful_world ++ [c].
Proof.
  split; [vm_compute; reflexivity|].
  apply (missing_question_aborts sample_repr forgetful_world (VList sample_deck)
           sample_prompts "study" [("topic", VStr "study")] forgetful_after).
  - vm_compute. reflexivity.
  - reflexivity.
Defined.

Lemma recorder_round_trip_witness :
  wf_value (state_value sample_state) /\
  exists w',
    save_run sample_repr sample_state (VStr "You will be fine.") sample_world
    = (Returns (), w') /\
    twrites w' = twrites sample_world
                 ++ ["runs/run_20240101_120000.json"; "runs/run_20240101_120000.md"] /\
    (exists text, files w' !! "runs/run_20240101_120000.json" = Some text /\
                  loads text = Returns (state_value sample_state)) /\
    files w' !! "runs/run_20240101_120000.md" = Some "You will be fine." /\
    forall p, p <> "runs/run_20240101_120000.json" ->
              p <> "runs/run_20240101_120000.md" ->
              files w' !! p = files sample_world !! p.
Proof.
  split; [vm_compute; repeat split; nodup|].
  apply (recorder_round_trip sample_repr sample_state "You will be fine." sample_world).
  vm_compute. repeat split; nodup.
Defined.

Lemma draw_card_sound_witness :
  draw_card (VList sample_deck) sample_world
  = (Returns (VStr "The Tower", "upright", VList [VStr "upheaval"]),
     bump (bump sample_world)) /\
  exists items card,
    VList sample_deck = VList items /\ items <> [] /\
    items !! (rng sample_world (rng_used sample_world) mod length items)%nat
    = Some card /\
    subscript card "name" = Returns (VStr "The Tower") /\
    (("upright" = "upright" /\
      subscript card "upright_keywords" = Returns (VList [VStr "upheaval"])) \/
     ("upright" = "reversed" /\
      subscript card "reversed_keywords" = Returns (VList [VStr "upheaval"]))).
Proof.
  split; [reflexivity|].
  apply (draw_card_sound (VList sample_deck) sample_world (VStr "The Tower")
           "upright" (VList [VStr "upheaval"]) (bump (bump sample_world))).
  reflexivity.
Defined.

Lemma intent_defaults_witness :
  init_state sample_intent "study"
  = Returns (mkState (VStr "study") (VStr "Will I pass the exam?") (VStr "other")
               (VList []) []) /\
  session sample_repr (VList sample_deck) sample_prompts "study" sample_intent
    sample_asked
  = (Returns (sample_state, sample_review), sample_final) /\
  topic sample_state = VStr "study" /\
  question sample_state = VStr "Will I pass the exam?" /\
  emotion sample_state = VStr "other" /\
  constraints sample_state = VList [].
Proof.
  destruct (intent_defaults sample_repr
              [("question", VStr "Will I pass the exam?")]
              (VStr "Will I pass the exam?") "study"
              eq_refl eq_refl eq_refl eq_refl) as [Hinit Hend].
  split; [exact Hinit|].
  assert (Hs : session sample_repr (VList sample_deck) sample_prompts "study"
                 sample_intent sample_asked
               = (Returns (sample_state, sample_review), sample_final))
    by (vm_compute; reflexivity).
  split; [exact Hs|].
  exact (Hend (VList sample_deck) sample_prompts sample_asked sample_state
           sample_review sample_final Hs).
Defined.

Lemma format_single_pass_witness :
  format sample_repr "Parse: {player_text} for " [("player_text", VStr "{topic}")]
  = Returns "Parse: {topic} for " /\
  plain_name "topic" = true /\
  format sample_repr "Parse: {player_text} for {topic}."
    [("player_text", VStr "{topic}")]
  = Raises (KeyError (VStr "topic")) /\
  format sample_repr "Parse: {player_text} for {topic}."
    [("player_text", VStr "{topic}"); ("topic", VStr "love")]
  = Returns "Parse: {topic} for love.".
Proof.
  split; [reflexivity|]. split; [reflexivity|]. split.
  - apply (format_single_pass sample_repr [("player_text", VStr "{topic}")]
             "Parse: {player_text} for " "topic" "." "Parse: {topic} for ");
      reflexivity.
  - apply (format_single_pass sample_repr
             [("player_text", VStr "{topic}"); ("topic", VStr "love")]
             "Parse: {player_text} for " "topic" "." "Parse: {topic} for "
             eq_refl eq_refl ".").
    reflexivity.
Defined.

(** C7 as the specification has it fails: a value that contains a
    placeholder does not make the substitution fail; it is copied. *)
Lemma format_accepts_braces_in_values :
  format sample_repr "Parse: {player_text}" [("player_text", VStr "{topic}")]
  = Returns "Parse: {topic}" /\
  ~ exists e, format sample_repr "Parse: {player_text}"
                [("player_text", VStr "{topic}")] = Raises e.
Proof.
  split; [reflexivity|]. intros [e H]. discriminate H.
Qed.

Lemma draw_record_fields_witness :
  main_body sample_repr sample_world
  = (Returns (sample_state, sample_review), sample_final) /\
  In sample_record (draw_history sample_state) /\
  exists step pos name o kw interp,
    sample_record
    = VDict [("step", VInt step); ("position", VStr pos); ("card", name);
             ("orientation", VStr o); ("keywords", kw);
             ("interpretation", interp)] /\
    (1 <= step <= 3)%Z /\ In pos positions /\
    (o = "upright" \/ o = "reversed") /\
    parsed interp /\
    exists text items card,
      files sample_world !! CARDS_PATH = Some text /\
      loads text = Returns (VList items) /\
      In card items /\
      subscript card "name" = Returns name /\
      subscript card (o +:+ "_keywords") = Returns kw /\
      (is_card card = true -> (exists s, name = VStr s) /\ is_strings kw = true).
Proof.
  split; [vm_compute; reflexivity|].
  split; [vm_compute; left; reflexivity|].
  apply (draw_record_fields sample_repr sample_world sample_state sample_review
           sample_final sample_record).
  - vm_compute. reflexivity.
  - vm_compute. left. reflexivity.
Defined.

(** C8 as the specification has it fails: the records of the sample run
    have a key [card] and no key [card_name]. *)
Lemma draw_record_has_no_card_name :
  main_body sample_repr sample_world
  = (Returns (sample_state, sample_review), sample_final) /\
  exists members,
    head (draw_history sample_state) = Some (VDict members) /\
    keys members = RECORD_FIELDS /\
    keys members <> SPEC_DRAW_FIELDS /\
    dict_get "card_name" members = None /\
    dict_get "card" members = Some (VStr "The Tower").
Proof.
  split; [vm_compute; reflexivity|].
  eexists. split; [vm_compute; reflexivity|].
  repeat split; try reflexivity. discriminate.
Qed.

Lemma missing_key_is_fatal_witness :
  environ keyless_world !! "OPENAI_API_KEY" = None /\
  program sample_repr keyless_world = (Raises ValueError, keyless_world).
Proof.
  split; [reflexivity|].
  apply (missing_key_is_fatal sample_repr keyless_world). reflexivity.
Defined.

(** ** The further properties, instantiated *)

Lemma runs_directory_comes_first_witness :
  environ sample_world !! "OPENAI_API_KEY" = Some "sk-test" /\
  (exists es,
     trace (snd (program sample_repr sample_world))
     = trace sample_world ++ EMkdir RUNS_DIR :: es) /\
  program sample_repr blocked_world
  = (Raises (FileExistsError RUNS_DIR), blocked_world).
Proof.
  split; [vm_compute; reflexivity|].
  split.
  - refine (runs_directory_comes_first sample_repr sample_world "sk-test" _ _);
      [vm_compute; reflexivity | discriminate].
  - refine (runs_directory_comes_first sample_repr blocked_world "sk-test" _ _);
      [vm_compute; reflexivity | discriminate].
Defined.

Lemma draw_card_follows_rng_witness :
  sample_deck !! (rng sample_world (rng_used sample_world) mod length sample_deck)%nat
  = Some the_tower /\
  exists nm kw,
    subscript the_tower "name" = Returns (VStr nm) /\
    subscript the_tower ("upright" +:+ "_keywords") = Returns kw /\
    is_strings kw = true /\
    draw_card (VList sample_deck) sample_world
    = (Returns (VStr nm, "upright", kw), bump (bump sample_world)).
Proof.
  split; [vm_compute; reflexivity|].
  apply (draw_card_follows_rng sample_deck the_tower "upright" sample_world).
  - vm_compute. reflexivity.
  - vm_compute. reflexivity.
  - vm_compute. reflexivity.
Defined.


Lemma malformed_deck_is_fatal_witness :
  loads "[{" = Raises JSONDecodeError /\
  main_body sample_repr broken_deck_world
  = (Raises JSONDecodeError, log (ERead CARDS_PATH) broken_deck_world).
Proof.
  split; [vm_compute; reflexivity|].
  apply (malformed_deck_is_fatal sample_repr broken_deck_world "[{" JSONDecodeError).
  - vm_compute. reflexivity.
  - vm_compute. reflexivity.
Defined.

Lemma input_exhausted_aborts_witness :
  (length (stdin silent_world) < 2)%nat /\
  exists w',
    main_body sample_repr silent_world = (Raises EOFError, w') /\
    tcalls w' = tcalls silent_world /\ twrites w' = twrites silent_world /\
    files w' = files silent_world /\ rng_used w' = rng_used silent_world.
Proof.
  split; [simpl; lia|].
  apply (input_exhausted_aborts sample_repr silent_world
           (VList sample_deck, sample_prompts) (snd (load_all silent_world))).
  - vm_compute. reflexivity.
  - simpl. lia.
Defined.

Lemma non_object_intent_aborts_witness :
  prelude sample_repr listing_world
  = (Returns (VList sample_deck, sample_prompts, "study", VList [VInt 1; VInt 2]),
     listing_after) /\
  main_body sample_repr listing_world = (Raises AttributeError, listing_after) /\
  rng_used listing_after = rng_used listing_world /\
  files listing_after = files listing_world /\
  twrites listing_after = twrites listing_world /\
  exists c, tcalls listing_after = tcalls listing_world ++ [c].
Proof.
  split; [vm_compute; reflexivity|].
  apply (non_object_intent_aborts sample_repr listing_world (VList sample_deck)
           sample_prompts "study" (VList [VInt 1; VInt 2]) listing_after).
  - vm_compute. reflexivity.
  - discriminate.
Defined.

Lemma writes_need_five_calls_witness :
  main_body sample_repr sample_world
  = (Returns (sample_state, sample_review), sample_final) /\
  exists cs, tcalls sample_final = tcalls sample_world ++ cs /\
             (length cs <= 5)%nat /\
             (twrites sample_final <> twrites sample_world -> length cs = 5%nat).
Proof.
  split; [vm_compute; reflexivity|].
  apply (writes_need_five_calls sample_repr sample_world
           (Returns (sample_state, sample_review)) sample_final).
  vm_compute. reflexivity.
Defined.

Lemma run_writes_none_both_or_state_only_witness :
  main_body sample_repr mute_world = (Raises TypeError, mute_final) /\
  twrites mute_final = ["runs/run_20240101_120000.json"] /\
  let json_path := runs_path ("run_" +:+ clock mute_world +:+ ".json") in
  let md_path := runs_path ("run_" +:+ clock mute_world +:+ ".md") in
  ((forall x, @Raises (State * value) TypeError <> Returns x) /\
   twrites mute_final = twrites mute_world /\ files mute_final = files mute_world)
  \/ (exists st text,
        Raises TypeError = Returns (st, VStr text) /\
        twrites mute_final = twrites mute_world ++ [json_path; md_path] /\
        files mute_final = <[md_path := text]>
                     (<[json_path := dumps (state_value st)]> (files mute_world)))
  \/ (exists st,
        @Raises (State * value) TypeError = Raises TypeError /\
        length (draw_history st) = 3%nat /\
        twrites mute_final = twrites mute_world ++ [json_path] /\
        files mute_final = <[json_path := dumps (state_value st)]> (files mute_world)).
Proof.
  split; [vm_compute; reflexivity|].
  split; [vm_compute; reflexivity|].
  apply (run_writes_none_both_or_state_only sample_repr mute_world
           (Raises TypeError) mute_final).
  vm_compute. reflexivity.
Defined.

Lemma completed_run_footprint_witness :
  main_body sample_repr sample_world
  = (Returns (sample_state, sample_review), sample_final) /\
  rng_used sample_final = (rng_used sample_world + 6)%nat /\
  exists t p, stdin sample_world = t :: p :: stdin sample_final /\
    exists c rest, tcalls sample_final = tcalls sample_world ++ c :: rest /\
      fst c = [("player_text",
                VStr ("[topic_hint=" +:+ strip t +:+ "] " +:+ strip p))].
Proof.
  split; [vm_compute; reflexivity|].
  apply (completed_run_footprint sample_repr sample_world sample_state
           sample_review sample_final).
  vm_compute. reflexivity.
Defined.

Lemma every_request_is_a_filled_template_witness :
  main_body sample_repr sample_world
  = (Returns (sample_state, sample_review), sample_final) /\
  exists es, trace sample_final = trace sample_world ++ es /\
    forall vars req, In (ECall vars req) es ->
      req_model req = MODEL /\ req_system req = SYSTEM_PROMPT /\
      exists name tpl,
        In (name, req_json req) TEMPLATES /\
        files sample_world !! prompt_path name = Some tpl /\
        format sample_repr tpl vars = Returns (req_user req).
Proof.
  split; [vm_compute; reflexivity|].
  apply (every_request_is_a_filled_template sample_repr sample_world
           (Returns (sample_state, sample_review)) sample_final).
  vm_compute. reflexivity.
Defined.

Lemma replies_are_recorded_verbatim_witness :
  main_body sample_repr sample_world
  = (Returns (sample_state, sample_review), sample_final) /\
  exists cs t0 t1 t2 t3 t4 intent,
    tcalls sample_final = tcalls sample_world ++ cs /\
    replies (service sample_world) (requests (trace sample_world)) (map snd cs)
    = [Content t0; Content t1; Content t2; Content t3; Content t4] /\
    loads t0 = Returns intent /\
    subscript intent "question" = Returns (question sample_state) /\
    map (fun r => subscript r "interpretation") (draw_history sample_state)
    = [loads t1; loads t2; loads t3] /\
    sample_review = VStr t4.
Proof.
  split; [vm_compute; reflexivity|].
  apply (replies_are_recorded_verbatim sample_repr sample_world sample_state
           sample_review sample_final).
  vm_compute. reflexivity.
Defined.

Lemma review_call_carries_whole_history_witness :
  main_body sample_repr sample_world
  = (Returns (sample_state, sample_review), sample_final) /\
  exists cs req h,
    tcalls sample_final = tcalls sample_world ++ cs ++
      [([("topic", topic sample_state); ("question", question sample_state);
         ("history_json", VStr h)], req)] /\
    length cs = 4%nat /\
    req_json req = false /\
    loads h = Returns (VList (draw_history sample_state)) /\
    length (draw_history sample_state) = 3%nat.
Proof.
  split; [vm_compute; reflexivity|].
  apply (review_call_carries_whole_history sample_repr sample_world sample_state
           sample_review sample_final).
  vm_compute. reflexivity.
Defined.

Lemma run_completes_witness :
  (2 <= length (stdin steady_world))%nat /\
  exists st text w',
    main_body sample_repr steady_world = (Returns (st, VStr text), w').
Proof.
  split; [simpl; lia|].
  apply (run_completes sample_repr steady_world).
  - exists (dumps (VList sample_deck)), sample_deck.
    split; [vm_compute; reflexivity|].
    split; [vm_compute; reflexivity|].
    split; [vm_compute; reflexivity|].
    split; [discriminate|].
    repeat constructor.
  - exists (intent_prompt sample_prompts). split; vm_compute; reflexivity.
  - exists (first_prompt sample_prompts). split; vm_compute; reflexivity.
  - exists (next_prompt sample_prompts). split; vm_compute; reflexivity.
  - exists (review_prompt sample_prompts). split; vm_compute; reflexivity.
  - simpl. lia.
  - intros earlier req. cbn [service steady_world]. unfold steady_service.
    destruct (req_json req).
    + exists (dumps sample_intent). split; [reflexivity|].
      intros _. exists sample_intent. split; vm_compute; reflexivity.
    + exists "You will be fine.". split; [reflexivity | discriminate].
  - intros req Hj. cbn [service steady_world]. unfold steady_service. rewrite Hj.
    exists (dumps sample_intent), [("question", VStr "Will I pass the exam?")],
      (VStr "Will I pass the exam?").
    split; [reflexivity|]. repeat split; vm_compute; reflexivity.
Defined.

Lemma console_shows_what_is_recorded_witness :
  main_body sample_repr sample_world
  = (Returns (sample_state, sample_review), sample_final) /\
  tconsole sample_final
  = tconsole sample_world ++ OPENING
    ++ concat (map (draw_echo sample_repr) (draw_history sample_state))
    ++ CLOSING sample_repr (clock sample_world) sample_review.
Proof.
  split; [vm_compute; reflexivity|].
  apply (console_shows_what_is_recorded sample_repr sample_world sample_state
           sample_review sample_final).
  vm_compute. reflexivity.
Defined.

Lemma same_stamp_overwrites_witness :
  files earlier_saved !! runs_path ("run_" +:+ clock sample_world +:+ ".md")
  = Some "An earlier review." /\
  exists w3,
    save_run sample_repr sample_state (VStr "You will be fine.") earlier_saved
    = (Returns (), w3) /\
    files w3
    = <[runs_path ("run_" +:+ clock sample_world +:+ ".md") := "You will be fine."]>
        (<[runs_path ("run_" +:+ clock sample_world +:+ ".json")
           := dumps (state_value sample_state)]> (files sample_world)).
Proof.
  split; [vm_compute; reflexivity|].
  apply (same_stamp_overwrites sample_repr earlier_state "An earlier review."
           sample_state "You will be fine." sample_world earlier_saved earlier_saved).
  - reflexivity.
  - reflexivity.
  - reflexivity.
Defined.

Lemma completed_run_round_trip_witness :
  main_body sample_repr sample_world
  = (Returns (sample_state, sample_review), sample_final) /\
  exists text review_text,
    files sample_final !! runs_path ("run_" +:+ clock sample_world +:+ ".json")
    = Some text /\
    loads text = Returns (state_value sample_state) /\
    sample_review = VStr review_text /\
    files sample_final !! runs_path ("run_" +:+ clock sample_world +:+ ".md")
    = Some review_text.
Proof.
  split; [vm_compute; reflexivity|].
  apply (completed_run_round_trip sample_repr sample_world sample_state
           sample_review sample_final).
  vm_compute. reflexivity.
Defined.

Lemma static_files_are_read_first_witness :
  main_body sample_repr sample_world
  = (Returns (sample_state, sample_review), sample_final) /\
  exists n rest,
    trace sample_final = trace sample_world ++ map ERead (take n REQUIRED_FILES) ++ rest /\
    (n <= 5)%nat /\ Forall not_read rest /\ (rest <> [] -> n = 5%nat).
Proof.
  split; [vm_compute; reflexivity|].
  apply (static_files_are_read_first sample_repr sample_world
           (Returns (sample_state, sample_review)) sample_final).
  vm_compute. reflexivity.
Defined.

Lemma draw_card_total_witness :
  draw_card (VList []) sample_world = (Raises IndexError, sample_world) /\
  fst (draw_card (VList sample_deck) sample_world) <> Raises IndexError /\
  draw_card (VList sample_deck) sample_world
  = (Returns (VStr "The Tower", "upright", VList [VStr "upheaval"]),
     bump (bump sample_world)).
Proof.
  split; [exact (draw_card_total [] sample_world)|].
  destruct (draw_card_total sample_deck sample_world)
    as (Hne & card & o & Hcard & Ho & Heq & _).
  split; [exact Hne|].
  rewrite Heq. vm_compute in Hcard. vm_compute in Ho.
  injection Hcard as <-. injection Ho as <-. vm_compute. reflexivity.
Defined.

(** C10 as the specification has it fails: a deck that is not empty
    does not make the draw return a triple when the card drawn lacks
    its keyword lists. *)
Lemma draw_card_raises_on_a_bare_card :
  [bare_card] <> [] /\
  draw_card (VList [bare_card]) sample_world
  = (Raises (KeyError (VStr "upright_keywords")), bump (bump sample_world)) /\
  ~ exists name o kw w',
      draw_card (VList [bare_card]) sample_world = (Returns (name, o, kw), w').
Proof.
  split; [discriminate|].
  split; [vm_compute; reflexivity|].
  intros (name & o & kw & w' & H). vm_compute in H. discriminate H.
Qed.

